(** * GoldenBridge ambulance arrival system: scoring, triage, redaction

    A shallow embedding of the rule-based parts of the repository:
    - [ai_modules/clinical_scoring.py]  (module [ClinicalScorer])
    - [ai_modules/ai_triage.py]         (module [AITriagePredictor])
    - [utils/aparavi_redactor.py]       (modules [Regex], [AparaviRedactor])
    - [utils/pii_redactor.py]           (module [PIIRedactor]; the frame
      of both [redact_dict] functions is in [RedactDict], over the
      object store of [PyHeap])
    - [simulators/emt_voice_simulator.py] (module [EMTVoiceSimulator])
    - [simulators/telemetry_simulator.py] (module [TelemetrySimulator])
    - [pipeline/ambulance_pipeline.py]  (module [SmartAmbulanceSystem])
    - [dashboard/er_dashboard.py], [dashboard/improved_er_dashboard.py]
      (module [ERDashboard])
    - [dashboard/advanced_clinical_dashboard.py] (module [Dashboard])

    Conventions.  Python [int] is [Z]; Python [float] is idealised as
    an exact rational [Q]; a [dict] with string keys is a
    [gmap string _]; [d.get(k, dflt)] is [Py.get]; [d[k]] is the
    partial lookup [d !! k], [None] standing for the [KeyError]; a
    function that can raise returns an [option].

    Two idealisations bound the statements.  A quotient of readings
    is the exact rational; the double that Python computes is on the
    same side of every threshold for readings of at most a million in
    magnitude ([ClinicalScorer.bounded_readings]), and the statements
    that read such a quotient assume this.  A text is the list of its
    bytes and the character classes of the patterns are the ASCII
    ones; they are Python's on texts of ASCII characters
    ([Regex.ascii_text]), and the statements about matches in an
    arbitrary text assume this. *)

From Stdlib Require Import ZArith QArith Qround Qabs Lqa List String Ascii Bool.
From Stdlib Require Import Lia.
From Stdlib Require Import DecimalString.
From stdpp Require Import base gmap strings list.

Local Open Scope string_scope.
Local Open Scope Z_scope.

(** ** Python primitives *)

Module Py.

(** [d.get(k, dflt)] *)
Definition get {V : Type} (d : gmap string V) (k : string) (dflt : V) : V :=
  default dflt (d !! k).

(** The doubles end below [2^1024]: a number of magnitude
    [2^1024 - 2^970] or more is nearer to [2^1024] than to the
    largest double (or half-way, and the tie goes to [2^1024]). *)
Definition float_overflow_bound : Z := 2 ^ 1024 - 2 ^ 970.

Definition overflows (q : Q) : bool :=
  Qle_bool (inject_Z float_overflow_bound) (Qabs q).

(** [a / b] on integers: true division.  Python returns the double
    nearest to the quotient; it raises [ZeroDivisionError] when the
    divisor is zero and [OverflowError] when that double would be
    infinite.  [None] stands for either error.  The double returned
    is idealised as the exact quotient: it is within 2^-53 of it,
    relatively, and the statements that compare a quotient of
    readings with a threshold are made for readings of bounded
    magnitude, where the double and the quotient lie on the same side
    of the threshold (see [ClinicalScorer.bounded_readings]). *)
Definition truediv (a b : Z) : option Q :=
  if b =? 0 then None
  else
    let q := (inject_Z a / inject_Z b)%Q in
    if overflows q then None else Some q.

Definition Qltb (x y : Q) : bool := negb (Qle_bool y x).

(** Rounding of a rational to the nearest integer, ties to even. *)
Definition round_half_even (q : Q) : Z :=
  let n := Qfloor q in
  match (q - inject_Z n ?= 1 # 2)%Q with
  | Lt => n
  | Gt => n + 1
  | Eq => if Z.even n then n else n + 1
  end.

(** [round(x, 2)] on the exact rational: the nearest multiple of 0.01,
    a tie going to the even one.  Python rounds the double, so a
    quotient lying exactly half-way between two hundredths may go the
    other way there (114 / 80 gives 1.43, not 1.42); the statements
    below use only that the result is a whole number of hundredths
    within 0.005 of [x], and at the one tie they depend on, 1.005,
    the double lies below the tie and Python returns 1.0 as well. *)
Definition round2 (x : Q) : Q :=
  (inject_Z (round_half_even (x * 100)) / 100)%Q.

(** [l[i]] for a possibly negative index; [None] is [IndexError]. *)
Definition index {A : Type} (l : list A) (i : Z) : option A :=
  let n := Z.of_nat (length l) in
  if i <? 0 then (if i + n <? 0 then None else l !! Z.to_nat (i + n))
  else l !! Z.to_nat i.

(** [l[i:]] for a possibly negative start; slices never raise. *)
Definition slice_from {A : Type} (l : list A) (i : Z) : list A :=
  let n := Z.of_nat (length l) in
  let start := if i <? 0 then Z.max 0 (i + n) else Z.min i n in
  drop (Z.to_nat start) l.

Lemma Qltb_lt (x y : Q) : Qltb x y = true <-> (x < y)%Q.
Proof.
  unfold Qltb. rewrite negb_true_iff. split.
  - intros H. apply Qnot_le_lt. intros Hle.
    apply Qle_bool_iff in Hle. congruence.
  - intros H. destruct (Qle_bool y x) eqn:E; [|reflexivity].
    apply Qle_bool_iff in E. exfalso. exact (Qlt_not_le _ _ H E).
Qed.

Lemma Qltb_ge (x y : Q) : Qltb x y = false <-> (y <= x)%Q.
Proof.
  unfold Qltb. rewrite negb_false_iff. apply Qle_bool_iff.
Qed.

(** [str(z)] and the rendering of an integer in an f-string: its
    decimal digits, with a minus sign when negative. *)
Definition str (z : Z) : string := NilZero.string_of_int (Z.to_int z).

(** The random source.  [random.randint(a, b)] draws from a hidden
    generator state; [randint a b g] is the integer drawn in state [g]
    with the state the call leaves.  The one thing assumed of it is
    that the integer lies within the closed range. *)
Definition randint_in_range {rng : Type}
    (randint : Z → Z → rng → Z * rng) : Prop :=
  ∀ a b g, a ≤ b → a ≤ (randint a b g).1 ≤ b.

Lemma get_insert {V : Type} (d : gmap string V) (k : string) (v dflt : V) :
  get (<[k := v]> d) k dflt = v.
Proof. unfold get. rewrite lookup_insert_eq. reflexivity. Qed.

Lemma get_insert_ne {V : Type} (d : gmap string V) (k k' : string)
    (v dflt : V) :
  k ≠ k' → get (<[k := v]> d) k' dflt = get d k' dflt.
Proof. intros H. unfold get. rewrite lookup_insert_ne by exact H. reflexivity. Qed.

Lemma get_empty {V : Type} (k : string) (dflt : V) :
  get (∅ : gmap string V) k dflt = dflt.
Proof. reflexivity. Qed.

Lemma get_lookup {V : Type} (d : gmap string V) (k : string) (dflt v : V) :
  d !! k = Some v → get d k dflt = v.
Proof. intros H. unfold get. rewrite H. reflexivity. Qed.

Lemma get_true_iff (d : gmap string bool) (k : string) :
  get d k false = true ↔ d !! k = Some true.
Proof.
  unfold get. destruct (d !! k) as [[]|]; cbn; intuition congruence.
Qed.

Lemma slice_last_twenty {A : Type} (P : A → Prop) (l : list A) :
  Forall P l →
  Forall P (slice_from l (-20)) ∧
  Z.of_nat (length (slice_from l (-20))) = Z.min (Z.of_nat (length l)) 20.
Proof.
  intros Hall. unfold slice_from. cbn [Z.ltb Z.compare].
  split; [apply Forall_drop, Hall|]. rewrite length_drop. lia.
Qed.

End Py.

(** ** ai_modules/clinical_scoring.py *)

Module ClinicalScorer.

Record ShockIndexResult := {
  si_value : Q;
  si_interpretation : string;
  si_normal_range : string;
  si_recommendation : string
}.

Definition calculate_shock_index (vitals : gmap string Z)
  : option ShockIndexResult :=
  let hr := Py.get vitals "heart_rate" 70 in
  let sbp := Py.get vitals "blood_pressure_systolic" 120 in
  (* Prevent division by zero *)
  let sbp := if sbp =? 0 then 1 else sbp in
  shock_index ← Py.truediv hr sbp;
  let interpretation :=
    if Py.Qltb 1.0 shock_index then "Shock State"
    else if Py.Qltb 0.9 shock_index then "Pre-Shock / Compensated"
    else "Normal" in
  Some {| si_value := Py.round2 shock_index;
          si_interpretation := interpretation;
          si_normal_range := "0.5-0.7";
          si_recommendation :=
            if Py.Qltb 1.0 shock_index then "Immediate Resuscitation"
            else "Monitor" |}.

(** The readings for which the exact quotient stands for the double
    that [hr / sbp] computes.  For integers of at most a million in
    magnitude the division cannot overflow and the double is within
    2^-53 of the quotient, relatively, that is within 1.2e-10 of it;
    the quotient itself is either equal to, or at least 5e-9 away
    from, each number it is compared with: 1.0, 0.9 and the odd
    multiples of 0.005 at which [round] changes its result (lemma
    [bounded_quotient_margin]).  So the double lies on the same side
    of each of them as the quotient. *)
Definition reading_bound : Z := 1000000.

Definition bounded_readings (vitals : gmap string Z) : Prop :=
  Z.abs (Py.get vitals "heart_rate" 70) ≤ reading_bound ∧
  Z.abs (Py.get vitals "blood_pressure_systolic" 120) ≤ reading_bound.

(** The result dictionary of [calculate_deterioration_index]; the
    early return carries the key [trend], the regular one the keys
    [trends] and [recommendation]. *)
Record DeteriorationResult := {
  det_score : Z;
  det_interpretation : string;
  det_trend : option string;
  det_trends : option (list string);
  det_recommendation : option string
}.

Definition insufficient_data : DeteriorationResult :=
  {| det_score := 0;
     det_interpretation := "Insufficient Data";
     det_trend := Some "Unknown";
     det_trends := None;
     det_recommendation := None |}.

Definition calculate_deterioration_index
    (vitals_history : list (gmap string Z)) : option DeteriorationResult :=
  if (length vitals_history <? 3)%nat then Some insufficient_data
  else
    let recent := Py.slice_from vitals_history (-3) in
    let deterioration_score := 0 in
    let trends : list string := [] in
    hr_values ← mapM (λ v : gmap string Z, v !! "heart_rate") recent;
    hr_last ← Py.index hr_values (-1);
    hr_first ← Py.index hr_values 0;
    let '(deterioration_score, trends) :=
      if hr_last >? hr_first + 10
      then (deterioration_score + 1, (trends ++ ["↑ Increasing HR"])%list)
      else (deterioration_score, trends) in
    spo2_values ← mapM (λ v : gmap string Z, v !! "spo2") recent;
    spo2_last ← Py.index spo2_values (-1);
    spo2_first ← Py.index spo2_values 0;
    let '(deterioration_score, trends) :=
      if spo2_last <? spo2_first - 3
      then (deterioration_score + 2, (trends ++ ["↓ Decreasing SpO2"])%list)
      else (deterioration_score, trends) in
    bp_values ← mapM (λ v : gmap string Z, v !! "blood_pressure_systolic") recent;
    bp_last ← Py.index bp_values (-1);
    bp_first ← Py.index bp_values 0;
    let '(deterioration_score, trends) :=
      if bp_last <? bp_first - 15
      then (deterioration_score + 2, (trends ++ ["↓ Decreasing BP"])%list)
      else (deterioration_score, trends) in
    let interpretation :=
      if deterioration_score >=? 3 then "Rapidly Deteriorating"
      else if deterioration_score >=? 2 then "Deteriorating"
      else if deterioration_score =? 0 then "Stable"
      else "Concerning Trend" in
    Some {| det_score := deterioration_score;
            det_interpretation := interpretation;
            det_trend := None;
            det_trends := Some trends;
            det_recommendation :=
              Some (if deterioration_score >=? 3
                    then "Escalate Care Immediately"
                    else "Monitor Closely") |}.

(** A history entry that carries the three keys the index reads. *)
Definition has_vitals (v : gmap string Z) (hr spo2 sbp : Z) : Prop :=
  v !! "heart_rate" = Some hr ∧
  v !! "spo2" = Some spo2 ∧
  v !! "blood_pressure_systolic" = Some sbp.

Definition reading (hr spo2 sbp : Z) : gmap string Z :=
  <["heart_rate" := hr]> (<["spo2" := spo2]>
    (<["blood_pressure_systolic" := sbp]> ∅)).

Record QsofaResult := {
  qs_score : Z;
  qs_interpretation : string;
  qs_max_score : Z;
  qs_criteria_met : list string;
  qs_recommendation : string
}.

Definition calculate_qsofa (vitals : gmap string Z) : QsofaResult :=
  let score := 0 in
  let criteria : list string := [] in
  (* Respiratory rate >= 22 *)
  let rr := Py.get vitals "respiratory_rate" 16 in
  let '(score, criteria) :=
    if rr >=? 22
    then (score + 1, (criteria ++ ["Tachypnea (RR ≥22)"])%list)
    else (score, criteria) in
  (* Altered mental status (GCS < 15) *)
  let gcs := Py.get vitals "gcs" 15 in
  let '(score, criteria) :=
    if gcs <? 15
    then (score + 1, (criteria ++ ["Altered Mental Status (GCS <15)"])%list)
    else (score, criteria) in
  (* Systolic BP <= 100 *)
  let sbp := Py.get vitals "blood_pressure_systolic" 120 in
  let '(score, criteria) :=
    if sbp <=? 100
    then (score + 1, (criteria ++ ["Hypotension (SBP ≤100)"])%list)
    else (score, criteria) in
  let interpretation :=
    if score >=? 2 then "High Sepsis Risk"
    else if score =? 1 then "Moderate Risk" else "Low Risk" in
  {| qs_score := score;
     qs_interpretation := interpretation;
     qs_max_score := 3;
     qs_criteria_met := criteria;
     qs_recommendation :=
       if score >=? 2 then "Immediate Sepsis Protocol"
       else "Monitor for Sepsis" |}.

Record StemiResult := {
  st_score : Z;
  st_interpretation : string;
  st_criteria_met : list string;
  st_recommendation : string
}.

Definition calculate_stemi_checklist (symptoms : gmap string bool)
  : StemiResult :=
  let criteria_met : list string := [] in
  let score := 0 in
  let '(criteria_met, score) :=
    if Py.get symptoms "chest_pain" false
    then ((criteria_met ++ ["✓ Chest Pain Present"])%list, score + 1)
    else (criteria_met, score) in
  let '(criteria_met, score) :=
    if Py.get symptoms "st_elevation" false
    then ((criteria_met ++ ["✓ ST Elevation on ECG"])%list, score + 2)
    else (criteria_met, score) in
  let '(criteria_met, score) :=
    if Py.get symptoms "diaphoresis" false
    then ((criteria_met ++ ["✓ Diaphoresis"])%list, score + 1)
    else (criteria_met, score) in
  let '(criteria_met, score) :=
    if Py.get symptoms "nausea" false
    then ((criteria_met ++ ["✓ Nausea/Vomiting"])%list, score + 1)
    else (criteria_met, score) in
  let interpretation :=
    if score >=? 3 then "STEMI Likely"
    else if score >=? 1 then "Possible ACS" else "Unlikely STEMI" in
  {| st_score := score;
     st_interpretation := interpretation;
     st_criteria_met := criteria_met;
     st_recommendation :=
       if score >=? 3 then "Activate Cath Lab Immediately"
       else "Troponin and Monitor" |}.

(** *** Properties of the shock index *)

Lemma Qabs_quotient_le (a b : Z) :
  b ≠ 0 → (Qabs (inject_Z a / inject_Z b) <= inject_Z (Z.abs a))%Q.
Proof.
  intros Hb. unfold Qdiv. rewrite Qabs_Qmult.
  assert (Ha : (Qabs (inject_Z a) == inject_Z (Z.abs a))%Q).
  { unfold Qabs, inject_Z. reflexivity. }
  rewrite Ha.
  assert (Hinv : (Qabs (/ inject_Z b) <= 1)%Q).
  { destruct b as [|p|p]; [contradiction| |];
      unfold Qinv, Qabs, inject_Z, Qle; simpl; lia. }
  assert (Hnn : (0 <= inject_Z (Z.abs a))%Q).
  { change 0%Q with (inject_Z 0). rewrite <- Zle_Qle. lia. }
  generalize dependent (inject_Z (Z.abs a)).
  generalize dependent (Qabs (/ inject_Z b)). intros. nra.
Qed.

Lemma truediv_None (a b : Z) :
  Py.truediv a b = None ↔
  b = 0 ∨ Py.overflows (inject_Z a / inject_Z b) = true.
Proof.
  unfold Py.truediv. destruct (Z.eqb_spec b 0) as [->|Hb].
  - split; auto.
  - cbv zeta. destruct (Py.overflows _); split; try discriminate; auto.
    intros [H|H]; [contradiction | discriminate].
Qed.

Lemma truediv_nonzero (a b : Z) :
  b ≠ 0 → Z.abs a < Py.float_overflow_bound →
  Py.truediv a b = Some (inject_Z a / inject_Z b)%Q.
Proof.
  intros Hb Ha.
  destruct (Py.truediv a b) as [q|] eqn:E.
  - unfold Py.truediv in E. destruct (Z.eqb_spec b 0); [contradiction|].
    cbv zeta in E. destruct (Py.overflows _); [discriminate|].
    symmetry. exact E.
  - exfalso. apply truediv_None in E as [E|E]; [contradiction|].
    unfold Py.overflows in E. apply Qle_bool_iff in E.
    pose proof (Qabs_quotient_le a b Hb) as Hq.
    assert (H : (inject_Z Py.float_overflow_bound <= inject_Z (Z.abs a))%Q)
      by (eapply Qle_trans; eassumption).
    rewrite <- Zle_Qle in H. lia.
Qed.

Lemma reading_bound_no_overflow : reading_bound < Py.float_overflow_bound.
Proof. vm_compute. reflexivity. Qed.

(** A quotient of bounded readings is equal to a given number of
    two-hundredths or at least [1 / (200 * reading_bound)] away from
    it. *)
Lemma bounded_quotient_margin (a b n : Z) :
  b ≠ 0 → Z.abs b ≤ reading_bound →
  let q := (inject_Z a / inject_Z b)%Q in
  let t := (inject_Z n / 200)%Q in
  (q == t)%Q ∨
  (1 / (200 * inject_Z reading_bound) <= Qabs (q - t))%Q.
Proof.
  intros Hb Hbound q t.
  assert (Hdiff : (q - t == inject_Z (200 * a - n * b) / (200 * inject_Z b))%Q).
  { subst q t. unfold Z.sub. rewrite inject_Z_plus, inject_Z_opp, !inject_Z_mult.
    change (inject_Z 200) with 200%Q.
    assert (Hb' : ¬ (inject_Z b == 0)%Q).
    { change 0%Q with (inject_Z 0). rewrite inject_Z_injective. exact Hb. }
    field. exact Hb'. }
  destruct (Z.eq_dec (200 * a - n * b) 0) as [Heq|Hne].
  - left. rewrite Heq in Hdiff.
    assert (H0 : (q - t == 0)%Q).
    { rewrite Hdiff. unfold Qdiv. change (inject_Z 0) with 0%Q. ring. }
    lra.
  - right. rewrite Hdiff.
    set (k := 200 * a - n * b) in *.
    unfold Qdiv. rewrite Qabs_Qmult, Qabs_Qinv, Qabs_Qmult.
    assert (Hk : (Qabs (inject_Z k) == inject_Z (Z.abs k))%Q) by reflexivity.
    assert (Hb2 : (Qabs (inject_Z b) == inject_Z (Z.abs b))%Q) by reflexivity.
    rewrite Hk, Hb2. change (Qabs 200) with 200%Q.
    assert (H1 : (1 <= inject_Z (Z.abs k))%Q).
    { change 1%Q with (inject_Z 1). rewrite <- Zle_Qle. lia. }
    assert (H2 : (1 <= inject_Z (Z.abs b))%Q).
    { change 1%Q with (inject_Z 1). rewrite <- Zle_Qle. lia. }
    assert (H3 : (inject_Z (Z.abs b) <= inject_Z reading_bound)%Q).
    { rewrite <- Zle_Qle. exact Hbound. }
    clear Hk Hb2.
    generalize dependent (inject_Z (Z.abs k)). intros x Hx.
    generalize dependent (inject_Z (Z.abs b)). intros y Hy1 Hy2.
    generalize dependent (inject_Z reading_bound). intros B HB.
    apply Qle_shift_div_l; [nra|].
    rewrite <- Qmult_assoc, (Qmult_comm (/ _)), Qmult_assoc.
    apply Qle_shift_div_r; [nra|].
    nra.
Qed.

Lemma round_half_even_near (y : Q) :
  (y - (1 # 2) <= inject_Z (Py.round_half_even y) <= y + (1 # 2))%Q.
Proof.
  unfold Py.round_half_even.
  pose proof (Qfloor_le y) as Hlo.
  pose proof (Qlt_floor y) as Hhi.
  rewrite inject_Z_plus in Hhi.
  change (inject_Z 1) with 1%Q in Hhi.
  destruct (Qcompare_spec (y - inject_Z (Qfloor y)) (1 # 2)) as [He|Hl|Hg].
  - destruct (Z.even (Qfloor y)).
    + split; lra.
    + rewrite inject_Z_plus. change (inject_Z 1) with 1%Q. split; lra.
  - split; lra.
  - rewrite inject_Z_plus. change (inject_Z 1) with 1%Q. split; lra.
Qed.

Lemma round2_near (q : Q) :
  (q - (1 # 200) <= Py.round2 q <= q + (1 # 200))%Q.
Proof.
  unfold Py.round2.
  pose proof (round_half_even_near (q * 100)) as [Hlo Hhi].
  set (n := inject_Z (Py.round_half_even (q * 100))) in *.
  assert (Hdiv : (n / 100 == n * (1 # 100))%Q) by (unfold Qdiv; reflexivity).
  rewrite Hdiv. split; lra.
Qed.

Lemma round2_hundredths (q : Q) :
  (Py.round2 q * 100 == inject_Z (Py.round_half_even (q * 100)))%Q.
Proof. unfold Py.round2. field. Qed.

Lemma guarded_nonzero (sbp : Z) : (if sbp =? 0 then 1 else sbp) ≠ 0.
Proof. destruct (Z.eqb_spec sbp 0); [discriminate | assumption]. Qed.

Lemma truediv_guarded (hr sbp : Z) :
  Z.abs hr ≤ reading_bound →
  Py.truediv hr (if sbp =? 0 then 1 else sbp) =
    Some (inject_Z hr / inject_Z (if sbp =? 0 then 1 else sbp))%Q.
Proof.
  intros Hhr. apply truediv_nonzero; [apply guarded_nonzero|].
  pose proof reading_bound_no_overflow. lia.
Qed.

(** C5 (as amended).  For every vitals dictionary the denominator of
    the shock index is not zero, a systolic pressure of 0 being
    replaced by 1 before dividing: no [ZeroDivisionError] can escape,
    and [calculate_shock_index] fails only where the quotient is too
    large for a float.  For a heart rate and a systolic pressure of
    at most a million in magnitude it returns a result.  With [q] the
    quotient of the heart rate by that denominator, the returned
    [value] is [q] rounded to hundredths (a whole number of hundredths
    at most 0.005 away from [q]) and the interpretation is read off
    the unrounded [q]: "Shock State" above 1.0, "Pre-Shock /
    Compensated" above 0.9, "Normal" otherwise.  For heart rate 140
    and systolic pressure 0 the value is 140 and the interpretation
    "Shock State". *)
Theorem calculate_shock_index_rounded_quotient (vitals : gmap string Z) :
  let hr := Py.get vitals "heart_rate" 70 in
  let sbp := Py.get vitals "blood_pressure_systolic" 120 in
  let denominator := if sbp =? 0 then 1 else sbp in
  let q := (inject_Z hr / inject_Z denominator)%Q in
  denominator ≠ 0 ∧
  (calculate_shock_index vitals = None ↔ Py.overflows q = true) ∧
  (bounded_readings vitals →
   ∃ r, calculate_shock_index vitals = Some r ∧
     (∃ n : Z, (si_value r * 100 == inject_Z n)%Q) ∧
     (q - (1 # 200) <= si_value r <= q + (1 # 200))%Q ∧
     ((1.0 < q)%Q → si_interpretation r = "Shock State") ∧
     ((q <= 1.0)%Q → (0.9 < q)%Q →
        si_interpretation r = "Pre-Shock / Compensated") ∧
     ((q <= 0.9)%Q → si_interpretation r = "Normal") ∧
     (hr = 140 → sbp = 0 →
        (si_value r == 140)%Q ∧ si_interpretation r = "Shock State")).
Proof.
  intros hr sbp denominator q.
  pose proof (guarded_nonzero sbp) as Hden. fold denominator in Hden.
  split; [exact Hden|]. split.
  - unfold calculate_shock_index. fold hr sbp. cbv zeta. fold denominator.
    destruct (Py.truediv hr denominator) as [x|] eqn:E;
      cbn [mbind option_bind].
    + split; [discriminate|]. intros Hov.
      assert (H : Py.truediv hr denominator = None)
        by (apply truediv_None; right; exact Hov).
      rewrite H in E. discriminate E.
    + split; [intros _ | reflexivity].
      apply truediv_None in E as [E|E]; [contradiction | exact E].
  - intros [Hhr _]. fold hr in Hhr.
    unfold calculate_shock_index. fold hr sbp.
    cbv zeta. rewrite (truediv_guarded hr sbp Hhr).
    fold denominator. fold q.
    cbn [mbind option_bind].
    eexists. split; [reflexivity|]. simpl.
    split; [eexists; apply round2_hundredths|].
    split; [apply round2_near|].
    split; [|split; [|split]].
    + intros H. apply Py.Qltb_lt in H. rewrite H. reflexivity.
    + intros H1 H2. apply Py.Qltb_ge in H1. apply Py.Qltb_lt in H2.
      rewrite H1, H2. reflexivity.
    + intros H.
      assert (H1 : (q <= 1.0)%Q) by (revert H; generalize q; intros; lra).
      apply Py.Qltb_ge in H, H1. rewrite H, H1. reflexivity.
    + intros Hhr' Hsbp. subst q denominator. rewrite Hhr', Hsbp.
      split; reflexivity.
Qed.

Definition vitals_hr140_sbp0 : gmap string Z :=
  <["heart_rate" := 140]> (<["blood_pressure_systolic" := 0]> ∅).

Lemma calculate_shock_index_rounded_quotient_witness :
  ∃ r, calculate_shock_index vitals_hr140_sbp0 = Some r ∧
       (si_value r == 140)%Q ∧ si_interpretation r = "Shock State".
Proof.
  destruct (calculate_shock_index_rounded_quotient vitals_hr140_sbp0)
    as (_ & _ & Hbounded).
  destruct Hbounded as (r & Hr & _ & _ & _ & _ & _ & Hex).
  - split; vm_compute; discriminate.
  - exists r. split; [exact Hr|]. apply Hex; reflexivity.
Defined.

Definition vitals_hr100_sbp120 : gmap string Z :=
  <["heart_rate" := 100]> (<["blood_pressure_systolic" := 120]> ∅).

(** C5, counterexample to the unamended sentence: for heart rate 100
    and systolic pressure 120 the returned value is 0.83, not the
    quotient 100/120. *)
Lemma calculate_shock_index_value_not_quotient :
  ∃ r, calculate_shock_index vitals_hr100_sbp120 = Some r ∧
       (si_value r == 83 # 100)%Q ∧
       ¬ (si_value r == inject_Z 100 / inject_Z 120)%Q.
Proof.
  eexists. split; [vm_compute; reflexivity|]. split.
  - vm_compute. reflexivity.
  - vm_compute. discriminate.
Qed.

(** *** Properties of the deterioration index *)

Lemma slice_last_three {A : Type} (prefix : list A) (a b c : A) :
  Py.slice_from (prefix ++ [a; b; c]) (-3) = [a; b; c].
Proof.
  unfold Py.slice_from. simpl.
  rewrite length_app. simpl.
  replace (Z.to_nat (Z.max 0 (-3 + Z.of_nat (length prefix + 3))))
    with (length prefix) by lia.
  apply drop_app_length.
Qed.

Lemma index_last_of_three {A : Type} (x y z : A) :
  Py.index [x; y; z] (-1) = Some z.
Proof. reflexivity. Qed.

Lemma index_first_of_three {A : Type} (x y z : A) :
  Py.index [x; y; z] 0 = Some x.
Proof. reflexivity. Qed.

(** C4.  A history of fewer than three entries gives the fixed
    insufficient-data result with score 0.  A history whose three most
    recent entries are [a], [b], [c] is scored from [a] and [c] alone:
    +1 if the heart rate rose by more than 10, +2 if SpO2 fell by more
    than 3, +2 if the systolic pressure fell by more than 15; a total
    of at least 3 reads "Rapidly Deteriorating", at least 2
    "Deteriorating", 0 "Stable", anything else "Concerning Trend".
    The three-entry history of the specification scores 5, "Rapidly
    Deteriorating". *)
Theorem calculate_deterioration_index_spec :
  (∀ h : list (gmap string Z),
     (length h < 3)%nat →
     calculate_deterioration_index h = Some insufficient_data ∧
     det_score insufficient_data = 0) ∧
  (∀ (prefix : list (gmap string Z)) (a b c : gmap string Z)
     (ha sa ba hb sb bb hc sc bc : Z),
     has_vitals a ha sa ba → has_vitals b hb sb bb → has_vitals c hc sc bc →
     ∃ r, calculate_deterioration_index (prefix ++ [a; b; c]) = Some r ∧
       det_score r =
         (if 10 <? hc - ha then 1 else 0) +
         (if 3 <? sa - sc then 2 else 0) +
         (if 15 <? ba - bc then 2 else 0) ∧
       det_interpretation r =
         (if 3 <=? det_score r then "Rapidly Deteriorating"
          else if 2 <=? det_score r then "Deteriorating"
          else if det_score r =? 0 then "Stable"
          else "Concerning Trend")) ∧
  (∃ r, calculate_deterioration_index
          [reading 80 98 120; reading 85 97 118; reading 95 93 100] = Some r ∧
        det_score r = 5 ∧ det_interpretation r = "Rapidly Deteriorating").
Proof.
  split; [|split].
  - intros h Hlen. split; [|reflexivity].
    unfold calculate_deterioration_index.
    destruct (Nat.ltb_spec (length h) 3) as [_|Hge]; [reflexivity | lia].
  - intros prefix a b c ha sa ba hb sb bb hc sc bc
      (Ha1 & Ha2 & Ha3) (Hb1 & Hb2 & Hb3) (Hc1 & Hc2 & Hc3).
    unfold calculate_deterioration_index.
    destruct (Nat.ltb_spec (length (prefix ++ [a; b; c])) 3) as [Hlt|_].
    { rewrite length_app in Hlt. simpl in Hlt. lia. }
    rewrite slice_last_three. cbn [mapM].
    rewrite Ha1, Hb1, Hc1, Ha2, Hb2, Hc2, Ha3, Hb3, Hc3.
    cbn [mbind option_bind mret option_ret fmap option_fmap option_map].
    rewrite !index_last_of_three, !index_first_of_three.
    cbn [mbind option_bind].
    replace (hc >? ha + 10) with (10 <? hc - ha)
      by (rewrite Z.gtb_ltb; destruct (Z.ltb_spec 10 (hc - ha)),
            (Z.ltb_spec (ha + 10) hc); reflexivity || lia).
    replace (sc <? sa - 3) with (3 <? sa - sc)
      by (destruct (Z.ltb_spec 3 (sa - sc)), (Z.ltb_spec sc (sa - 3));
            reflexivity || lia).
    replace (bc <? ba - 15) with (15 <? ba - bc)
      by (destruct (Z.ltb_spec 15 (ba - bc)), (Z.ltb_spec bc (ba - 15));
            reflexivity || lia).
    destruct (10 <? hc - ha), (3 <? sa - sc), (15 <? ba - bc);
      cbn; eexists; (split; [reflexivity|]); split; reflexivity.
  - eexists. split; [vm_compute; reflexivity|]. split; reflexivity.
Qed.

Lemma calculate_deterioration_index_spec_witness :
  calculate_deterioration_index [reading 80 98 120; reading 95 93 100]
    = Some insufficient_data ∧
  ∃ r, calculate_deterioration_index
         ([reading 70 99 130] ++
          [reading 80 98 120; reading 85 97 118; reading 95 93 100]) = Some r ∧
       det_score r = 5.
Proof.
  destruct calculate_deterioration_index_spec as (Hshort & Hlong & _).
  split.
  - apply (Hshort [reading 80 98 120; reading 95 93 100]). simpl. lia.
  - destruct (Hlong [reading 70 99 130]
                (reading 80 98 120) (reading 85 97 118) (reading 95 93 100)
                80 98 120 85 97 118 95 93 100) as (r & Hr & Hs & _).
    + repeat split; reflexivity.
    + repeat split; reflexivity.
    + repeat split; reflexivity.
    + exists r. split; [exact Hr | exact Hs].
Defined.

Record TraumaResult := {
  tr_score : Q;
  tr_interpretation : string;
  tr_max_score : Q;
  tr_recommendation : string
}.

Definition calculate_trauma_score (vitals : gmap string Z) : TraumaResult :=
  let gcs := Py.get vitals "gcs" 15 in
  let sbp := Py.get vitals "blood_pressure_systolic" 120 in
  let rr := Py.get vitals "respiratory_rate" 16 in
  (* RTS calculation *)
  let gcs_value :=
    if gcs >=? 13 then 4 else if gcs >=? 9 then 3
    else if gcs >=? 6 then 2 else 1 in
  let sbp_value :=
    if sbp >? 89 then 4 else if sbp >=? 76 then 3
    else if sbp >=? 50 then 2 else 1 in
  let rr_value :=
    if (10 <=? rr) && (rr <=? 29) then 4 else if rr >? 29 then 3
    else if rr >=? 6 then 2 else 1 in
  let rts :=
    (0.9368 * inject_Z gcs_value + 0.7326 * inject_Z sbp_value +
     0.2908 * inject_Z rr_value)%Q in
  let interpretation :=
    if Py.Qltb 7 rts then "Minor Trauma"
    else if Py.Qltb 5 rts then "Moderate Trauma" else "Severe Trauma" in
  {| tr_score := Py.round2 rts;
     tr_interpretation := interpretation;
     tr_max_score := 7.84;
     tr_recommendation :=
       if Py.Qltb rts 5 then "Trauma Team Activation"
       else "Standard Trauma Protocol" |}.

Record AirwayResult := {
  aw_score : Z;
  aw_interpretation : string;
  aw_risk_factors : list string;
  aw_recommendation : string
}.

Definition calculate_airway_risk (vitals : gmap string Z)
    (symptoms : gmap string bool) : AirwayResult :=
  let risk_factors : list string := [] in
  let score := 0 in
  let gcs := Py.get vitals "gcs" 15 in
  let '(risk_factors, score) :=
    if gcs <? 9
    then ((risk_factors ++
             ["⚠️ Severely Altered Mental Status (GCS <9)"])%list, score + 3)
    else if gcs <? 13
    then ((risk_factors ++ ["⚠️ Altered Mental Status (GCS <13)"])%list,
          score + 1)
    else (risk_factors, score) in
  let spo2 := Py.get vitals "spo2" 98 in
  let '(risk_factors, score) :=
    if spo2 <? 88
    then ((risk_factors ++ ["⚠️ Severe Hypoxia (SpO2 <88%)"])%list, score + 2)
    else if spo2 <? 92
    then ((risk_factors ++ ["⚠️ Hypoxia (SpO2 <92%)"])%list, score + 1)
    else (risk_factors, score) in
  let rr := Py.get vitals "respiratory_rate" 16 in
  let '(risk_factors, score) :=
    if (rr <? 8) || (rr >? 30)
    then ((risk_factors ++ ["⚠️ Abnormal Respiratory Rate"])%list, score + 2)
    else (risk_factors, score) in
  let '(risk_factors, score) :=
    if Py.get symptoms "airway_obstruction" false
    then ((risk_factors ++ ["⚠️ Airway Obstruction Present"])%list, score + 3)
    else (risk_factors, score) in
  let interpretation :=
    if score >=? 4 then "High Risk - Intubate"
    else if score >=? 2 then "Moderate Risk - Prepare" else "Low Risk" in
  {| aw_score := score;
     aw_interpretation := interpretation;
     aw_risk_factors := risk_factors;
     aw_recommendation :=
       if score >=? 4 then "Prepare for Emergency Intubation"
       else "Monitor Airway Closely" |}.

Record NihssResult := {
  ni_score : Z;
  ni_interpretation : string;
  ni_max_score : Z;
  ni_recommendation : string
}.

(** [calculate_nihss] draws its score with [random.randint]; the
    random source and its state are passed explicitly. *)
Definition calculate_nihss {rng : Type} (randint : Z → Z → rng → Z * rng)
    (symptoms : gmap string bool) (g : rng) : NihssResult * rng :=
  let '(score, interpretation, g) :=
    if Py.get symptoms "stroke_suspected" false
    then
      let '(score, g) := randint 8 18 g in
      (score,
       if score >? 15 then "Moderate to Severe Stroke" else "Moderate Stroke",
       g)
    else
      let '(score, g) := randint 0 5 g in
      (score, "Minor or No Stroke", g) in
  ({| ni_score := score;
      ni_interpretation := interpretation;
      ni_max_score := 42;
      ni_recommendation :=
        if score >? 7 then "Immediate CT and Neuro consult" else "Monitor" |},
   g).

(** *** qSOFA and the STEMI checklist *)

(** X3.  The qSOFA score is the number of criteria met, one each
    for a respiratory rate of at least 22, a GCS below 15 and a
    systolic pressure of at most 100, so it lies between 0 and the
    maximum 3 that is reported; "High Sepsis Risk" is read exactly
    from 2 up, "Moderate Risk" exactly at 1, "Low Risk" exactly at
    0, and the sepsis protocol is recommended exactly with "High
    Sepsis Risk". *)
Theorem calculate_qsofa_counts_criteria (vitals : gmap string Z) :
  let r := calculate_qsofa vitals in
  qs_score r =
    (if 22 <=? Py.get vitals "respiratory_rate" 16 then 1 else 0) +
    (if Py.get vitals "gcs" 15 <? 15 then 1 else 0) +
    (if Py.get vitals "blood_pressure_systolic" 120 <=? 100 then 1 else 0) ∧
  qs_score r = Z.of_nat (length (qs_criteria_met r)) ∧
  0 ≤ qs_score r ≤ qs_max_score r ∧ qs_max_score r = 3 ∧
  (qs_interpretation r = "High Sepsis Risk" ↔ 2 ≤ qs_score r) ∧
  (qs_interpretation r = "Moderate Risk" ↔ qs_score r = 1) ∧
  (qs_interpretation r = "Low Risk" ↔ qs_score r = 0) ∧
  (qs_recommendation r = "Immediate Sepsis Protocol" ↔
   qs_interpretation r = "High Sepsis Risk").
Proof.
  intros r. subst r. unfold calculate_qsofa.
  rewrite Z.geb_leb.
  generalize (Py.get vitals "respiratory_rate" 16) as rr.
  generalize (Py.get vitals "gcs" 15) as gcs.
  generalize (Py.get vitals "blood_pressure_systolic" 120) as sbp.
  intros sbp gcs rr.
  destruct (22 <=? rr), (gcs <? 15), (sbp <=? 100); vm_compute;
    repeat split; intros; first [reflexivity | discriminate | congruence | lia].
Qed.

(** X4.  The STEMI checklist adds 1 for chest pain, 2 for ST
    elevation, 1 for diaphoresis and 1 for nausea, at most 5 in all
    and at least the number of criteria met.  "STEMI Likely" and
    with it the activation of the catheter lab need a score of 3:
    ST elevation with at least one other sign, or the three other
    signs together; ST elevation alone reads "Possible ACS". *)
Theorem calculate_stemi_checklist_needs_three (symptoms : gmap string bool) :
  let r := calculate_stemi_checklist symptoms in
  let chest_pain := Py.get symptoms "chest_pain" false in
  let st_elevation := Py.get symptoms "st_elevation" false in
  let diaphoresis := Py.get symptoms "diaphoresis" false in
  let nausea := Py.get symptoms "nausea" false in
  st_score r =
    (if chest_pain then 1 else 0) + (if st_elevation then 2 else 0) +
    (if diaphoresis then 1 else 0) + (if nausea then 1 else 0) ∧
  Z.of_nat (length (st_criteria_met r)) ≤ st_score r ≤ 5 ∧
  (st_interpretation r = "STEMI Likely" ↔ 3 ≤ st_score r) ∧
  (st_interpretation r = "STEMI Likely" ↔
   st_elevation && (chest_pain || diaphoresis || nausea) ||
   chest_pain && diaphoresis && nausea = true) ∧
  (st_interpretation r = "Possible ACS" ↔ 1 ≤ st_score r ≤ 2) ∧
  (st_interpretation r = "Unlikely STEMI" ↔ st_score r = 0) ∧
  (st_recommendation r = "Activate Cath Lab Immediately" ↔
   st_interpretation r = "STEMI Likely").
Proof.
  intros r chest_pain st_elevation diaphoresis nausea.
  subst r. unfold calculate_stemi_checklist.
  fold chest_pain st_elevation diaphoresis nausea.
  clearbody chest_pain st_elevation diaphoresis nausea.
  destruct chest_pain, st_elevation, diaphoresis, nausea; cbn;
    repeat split; intros; first [reflexivity | discriminate | congruence | lia].
Qed.

(** *** The trauma score *)

Ltac trauma_bands gcs sbp rr :=
  destruct (gcs >=? 13); [|destruct (gcs >=? 9); [|destruct (gcs >=? 6)]];
  (destruct (sbp >? 89); [|destruct (sbp >=? 76); [|destruct (sbp >=? 50)]]);
  (destruct ((10 <=? rr) && (rr <=? 29));
     [|destruct (rr >? 29); [|destruct (rr >=? 6)]]).

(** X6.  The trauma score returned for any vitals lies between 1.96
    and 7.84 (every band contributes at least 1, so the documented
    lower end 0 is never reached); the recommendation is "Trauma Team
    Activation" exactly when the interpretation is "Severe Trauma",
    which is exactly when the returned score is below 5; and the
    interpretation is "Minor Trauma" exactly when the returned score
    is above 7. *)
Theorem calculate_trauma_score_range_and_bands (vitals : gmap string Z) :
  let r := calculate_trauma_score vitals in
  (1.96 <= tr_score r <= 7.84)%Q ∧
  (tr_recommendation r = "Trauma Team Activation" ↔
   tr_interpretation r = "Severe Trauma") ∧
  (tr_interpretation r = "Severe Trauma" ↔ (tr_score r < 5)%Q) ∧
  (tr_interpretation r = "Minor Trauma" ↔ (7 < tr_score r)%Q).
Proof.
  intros r. subst r. unfold calculate_trauma_score.
  generalize (Py.get vitals "gcs" 15) as gcs.
  generalize (Py.get vitals "blood_pressure_systolic" 120) as sbp.
  generalize (Py.get vitals "respiratory_rate" 16) as rr.
  intros rr sbp gcs.
  trauma_bands gcs sbp rr; vm_compute;
    (split; [split; discriminate|]);
    (split; [split; congruence|]);
    split; split; congruence.
Qed.

(** The three bands and the weighted sum, as [calculate_trauma_score]
    computes them. *)
Definition gcs_band (gcs : Z) : Z :=
  if gcs >=? 13 then 4 else if gcs >=? 9 then 3
  else if gcs >=? 6 then 2 else 1.

Definition sbp_band (sbp : Z) : Z :=
  if sbp >? 89 then 4 else if sbp >=? 76 then 3
  else if sbp >=? 50 then 2 else 1.

Definition rr_band (rr : Z) : Z :=
  if (10 <=? rr) && (rr <=? 29) then 4 else if rr >? 29 then 3
  else if rr >=? 6 then 2 else 1.

Definition rts_of_bands (g s r : Z) : Q :=
  (0.9368 * inject_Z g + 0.7326 * inject_Z s + 0.2908 * inject_Z r)%Q.

Lemma trauma_score_of_bands (vitals : gmap string Z) :
  tr_score (calculate_trauma_score vitals) =
    Py.round2
      (rts_of_bands (gcs_band (Py.get vitals "gcs" 15))
         (sbp_band (Py.get vitals "blood_pressure_systolic" 120))
         (rr_band (Py.get vitals "respiratory_rate" 16))).
Proof. reflexivity. Qed.

Definition band_values : list Z := [1; 2; 3; 4].

Lemma bands_in_range (gcs sbp rr : Z) :
  In (gcs_band gcs) band_values ∧ In (sbp_band sbp) band_values ∧
  In (rr_band rr) band_values.
Proof.
  unfold gcs_band, sbp_band, rr_band, band_values.
  destruct (gcs >=? 13), (gcs >=? 9), (gcs >=? 6), (sbp >? 89), (sbp >=? 76),
    (sbp >=? 50), ((10 <=? rr) && (rr <=? 29)), (rr >? 29), (rr >=? 6);
    simpl; tauto.
Qed.

Lemma bands_monotone (low high : Z) :
  low ≤ high →
  gcs_band low ≤ gcs_band high ∧ sbp_band low ≤ sbp_band high.
Proof.
  intros Hle. unfold gcs_band, sbp_band. rewrite !Z.gtb_ltb. split.
  - destruct (Z.geb_spec low 13), (Z.geb_spec low 9), (Z.geb_spec low 6),
      (Z.geb_spec high 13), (Z.geb_spec high 9), (Z.geb_spec high 6); lia.
  - destruct (Z.ltb_spec 89 low), (Z.geb_spec low 76), (Z.geb_spec low 50),
      (Z.ltb_spec 89 high), (Z.geb_spec high 76), (Z.geb_spec high 50); lia.
Qed.

Lemma rounded_rts_monotone (g g' s s' r : Z) :
  In g band_values → In g' band_values → In s band_values →
  In s' band_values → In r band_values → g ≤ g' → s ≤ s' →
  (Py.round2 (rts_of_bands g s r) <= Py.round2 (rts_of_bands g' s' r))%Q.
Proof.
  intros Hg Hg' Hs Hs' Hr Hgle Hsle.
  assert (Hall :
    forallb (λ g, forallb (λ g', forallb (λ s, forallb (λ s', forallb (λ r,
      implb ((g <=? g') && (s <=? s'))
        (Qle_bool (Py.round2 (rts_of_bands g s r))
           (Py.round2 (rts_of_bands g' s' r))))
      band_values) band_values) band_values) band_values) band_values = true)
    by (vm_compute; reflexivity).
  rewrite forallb_forall in Hall. specialize (Hall g Hg).
  rewrite forallb_forall in Hall. specialize (Hall g' Hg').
  rewrite forallb_forall in Hall. specialize (Hall s Hs).
  rewrite forallb_forall in Hall. specialize (Hall s' Hs').
  rewrite forallb_forall in Hall. specialize (Hall r Hr).
  apply Z.leb_le in Hgle, Hsle. rewrite Hgle, Hsle in Hall.
  apply Qle_bool_iff. exact Hall.
Qed.

(** X7.  A lower GCS or a lower systolic pressure never raises the
    trauma score: with the other vitals fixed, the returned score is
    monotone in the two together. *)
Theorem calculate_trauma_score_monotone (vitals : gmap string Z)
    (gcs gcs' sbp sbp' : Z) :
  gcs ≤ gcs' → sbp ≤ sbp' →
  (tr_score (calculate_trauma_score
               (<["gcs" := gcs]>
                  (<["blood_pressure_systolic" := sbp]> vitals)))
   <= tr_score (calculate_trauma_score
                  (<["gcs" := gcs']>
                     (<["blood_pressure_systolic" := sbp']> vitals))))%Q.
Proof.
  intros Hg Hs. rewrite !trauma_score_of_bands.
  repeat (rewrite Py.get_insert || rewrite Py.get_insert_ne by discriminate).
  set (rr := Py.get vitals "respiratory_rate" 16).
  destruct (bands_in_range gcs sbp rr) as (H1 & H2 & H3).
  destruct (bands_in_range gcs' sbp' rr) as (H4 & H5 & _).
  apply rounded_rts_monotone; try assumption.
  - apply (bands_monotone gcs gcs' Hg).
  - apply (bands_monotone sbp sbp' Hs).
Qed.

Lemma calculate_trauma_score_monotone_witness :
  Qle
    (tr_score (calculate_trauma_score
                 (<["gcs" := 7]> (<["blood_pressure_systolic" := 80]> ∅))))
    (tr_score (calculate_trauma_score
                 (<["gcs" := 14]> (<["blood_pressure_systolic" := 95]> ∅)))).
Proof.
  apply (calculate_trauma_score_monotone ∅ 7 14 80 95); lia.
Defined.

(** *** Airway risk and NIHSS *)

(** X8.  The airway risk score lies between 0 and 10 and is 0 exactly
    when no risk factor is listed; at most four factors are listed;
    the recommendation is "Prepare for Emergency Intubation" exactly
    when the interpretation is "High Risk - Intubate", that is when
    the score is at least 4; and an obstructed airway alone scores 3,
    which is never "Low Risk" but only "Moderate Risk - Prepare"
    without a further factor. *)
Theorem calculate_airway_risk_score_and_factors (vitals : gmap string Z)
    (symptoms : gmap string bool) :
  let r := calculate_airway_risk vitals symptoms in
  0 ≤ aw_score r ≤ 10 ∧
  (aw_score r = 0 ↔ aw_risk_factors r = []) ∧
  (length (aw_risk_factors r) ≤ 4)%nat ∧
  (aw_recommendation r = "Prepare for Emergency Intubation" ↔
   aw_interpretation r = "High Risk - Intubate") ∧
  (aw_interpretation r = "High Risk - Intubate" ↔ 4 ≤ aw_score r) ∧
  (aw_interpretation r = "Low Risk" ↔ aw_score r ≤ 1) ∧
  (Py.get symptoms "airway_obstruction" false = true →
   3 ≤ aw_score r ∧ aw_interpretation r ≠ "Low Risk" ∧
   (aw_score r = 3 → aw_interpretation r = "Moderate Risk - Prepare")).
Proof.
  intros r. subst r. unfold calculate_airway_risk.
  generalize (Py.get vitals "gcs" 15) as gcs.
  generalize (Py.get vitals "spo2" 98) as spo2.
  generalize (Py.get vitals "respiratory_rate" 16) as rr.
  generalize (Py.get symptoms "airway_obstruction" false) as obstructed.
  intros obstructed rr spo2 gcs.
  (destruct (gcs <? 9); [|destruct (gcs <? 13)]);
    (destruct (spo2 <? 88); [|destruct (spo2 <? 92)]);
    destruct ((rr <? 8) || (rr >? 30)); destruct obstructed;
    vm_compute; repeat split; intros;
    first [reflexivity | discriminate | congruence | lia].
Qed.

Lemma calculate_airway_risk_score_and_factors_witness :
  aw_interpretation
    (calculate_airway_risk ∅ (<["airway_obstruction" := true]> ∅))
  = "Moderate Risk - Prepare".
Proof.
  apply (calculate_airway_risk_score_and_factors
           ∅ (<["airway_obstruction" := true]> ∅)); reflexivity.
Defined.

(** X9.  Whatever the random source draws within its range, the NIHSS
    recommendation is decided by the [stroke_suspected] flag alone:
    with the flag the score is between 8 and 18 and the
    recommendation "Immediate CT and Neuro consult"; without it the
    score is between 0 and 5, the interpretation "Minor or No Stroke"
    and the recommendation "Monitor". *)
Theorem calculate_nihss_decided_by_flag {rng : Type}
    (randint : Z → Z → rng → Z * rng) (symptoms : gmap string bool)
    (g : rng) :
  Py.randint_in_range randint →
  let r := (calculate_nihss randint symptoms g).1 in
  (Py.get symptoms "stroke_suspected" false = true →
     8 ≤ ni_score r ≤ 18 ∧
     ni_recommendation r = "Immediate CT and Neuro consult" ∧
     (ni_interpretation r = "Moderate to Severe Stroke" ↔ 15 < ni_score r) ∧
     (ni_interpretation r = "Moderate Stroke" ↔ ni_score r ≤ 15)) ∧
  (Py.get symptoms "stroke_suspected" false = false →
     0 ≤ ni_score r ≤ 5 ∧
     ni_recommendation r = "Monitor" ∧
     ni_interpretation r = "Minor or No Stroke").
Proof.
  intros Hrange r. subst r. unfold calculate_nihss.
  split; intros ->.
  - pose proof (Hrange 8 18 g ltac:(lia)) as H.
    destruct (randint 8 18 g) as [score g']. cbn in H |- *.
    split; [exact H|]. split.
    + destruct (Z.gtb_spec score 7); [reflexivity | lia].
    + destruct (Z.gtb_spec score 15);
        split; split; (discriminate || reflexivity || lia).
  - pose proof (Hrange 0 5 g ltac:(lia)) as H.
    destruct (randint 0 5 g) as [score g']. cbn in H |- *.
    split; [exact H|]. split; [|reflexivity].
    destruct (Z.gtb_spec score 7); [lia | reflexivity].
Qed.

Lemma calculate_nihss_decided_by_flag_witness :
  ni_recommendation
    (calculate_nihss (λ a _ (g : unit), (a, g))
       (<["stroke_suspected" := true]> ∅) tt).1
  = "Immediate CT and Neuro consult".
Proof.
  apply (calculate_nihss_decided_by_flag
           (λ a _ (g : unit), (a, g)) (<["stroke_suspected" := true]> ∅) tt).
  - intros a b g Hab. cbn. lia.
  - reflexivity.
Defined.

(** *** The scores of a reading with GCS 13 and respiratory rate 24 *)

Lemma last_three {A : Type} (l : list A) :
  (3 ≤ length l)%nat → ∃ prefix a b c, l = (prefix ++ [a; b; c])%list.
Proof.
  intros Hlen. exists (take (length l - 3) l).
  pose proof (take_drop (length l - 3) l) as Hsplit.
  assert (Hdrop : length (drop (length l - 3) l) = 3%nat)
    by (rewrite length_drop; lia).
  destruct (drop (length l - 3) l) as [|a [|b [|c [|d rest]]]];
    try discriminate Hdrop.
  exists a, b, c. symmetry. exact Hsplit.
Qed.

Lemma calculate_deterioration_index_total (h : list (gmap string Z)) :
  Forall (λ v, is_Some (v !! "heart_rate") ∧ is_Some (v !! "spo2") ∧
               is_Some (v !! "blood_pressure_systolic")) h →
  is_Some (calculate_deterioration_index h).
Proof.
  intros Hall. unfold calculate_deterioration_index.
  destruct (Nat.ltb_spec (length h) 3) as [_|Hlen]; [eexists; reflexivity|].
  destruct (last_three h Hlen) as (prefix & a & b & c & ->).
  apply Forall_app in Hall as [_ Hall].
  apply Forall_cons in Hall as [([ha Ha1] & [sa Ha2] & [ba Ha3]) Hall].
  apply Forall_cons in Hall as [([hb Hb1] & [sb Hb2] & [bb Hb3]) Hall].
  apply Forall_cons in Hall as [([hc Hc1] & [sc Hc2] & [bc Hc3]) _].
  rewrite slice_last_three. cbn [mapM].
  rewrite Ha1, Hb1, Hc1, Ha2, Hb2, Hc2, Ha3, Hb3, Hc3.
  cbn [mbind option_bind mret option_ret fmap option_fmap option_map].
  rewrite !index_last_of_three, !index_first_of_three.
  cbn [mbind option_bind].
  destruct (hc >? ha + 10), (sc <? sa - 3), (bc <? ba - 15);
    eexists; reflexivity.
Qed.

Lemma scores_at_gcs13_rr24 (vitals : gmap string Z) :
  let vitals := <["respiratory_rate" := 24]> (<["gcs" := 13]> vitals) in
  (5 < tr_score (calculate_trauma_score vitals))%Q ∧
  2 ≤ qs_score (calculate_qsofa vitals) ∧
  ∀ symptoms, Py.get symptoms "airway_obstruction" false = false →
              aw_score (calculate_airway_risk vitals symptoms) ≤ 2.
Proof.
  cbv zeta. split_and!.
  - unfold calculate_trauma_score.
    rewrite Py.get_insert_ne, Py.get_insert by discriminate.
    rewrite Py.get_insert.
    rewrite !Py.get_insert_ne by discriminate.
    generalize (Py.get vitals "blood_pressure_systolic" 120) as sbp.
    intros sbp.
    destruct (sbp >? 89); [|destruct (sbp >=? 76); [|destruct (sbp >=? 50)]];
      vm_compute; reflexivity.
  - unfold calculate_qsofa.
    rewrite Py.get_insert.
    rewrite (Py.get_insert_ne _ "respiratory_rate" "gcs"), Py.get_insert
      by discriminate.
    rewrite !Py.get_insert_ne by discriminate.
    destruct (Py.get vitals "blood_pressure_systolic" 120 <=? 100);
      vm_compute; discriminate.
  - intros symptoms Hobs. unfold calculate_airway_risk.
    rewrite Hobs.
    rewrite (Py.get_insert_ne _ "respiratory_rate" "gcs"), Py.get_insert
      by discriminate.
    rewrite Py.get_insert.
    rewrite !Py.get_insert_ne by discriminate.
    generalize (Py.get vitals "spo2" 98) as spo2. intros spo2.
    destruct (spo2 <? 88); [|destruct (spo2 <? 92)]; vm_compute; discriminate.
Qed.

Lemma calculate_nihss_by_flag {rng : Type} (randint : Z → Z → rng → Z * rng)
    (symptoms : gmap string bool) (g : rng) :
  Py.randint_in_range randint →
  let score := ni_score (calculate_nihss randint symptoms g).1 in
  if Py.get symptoms "stroke_suspected" false
  then 8 ≤ score ≤ 18 else 0 ≤ score ≤ 5.
Proof.
  intros Hrange. unfold calculate_nihss.
  destruct (Py.get symptoms "stroke_suspected" false).
  - pose proof (Hrange 8 18 g ltac:(lia)) as H.
    destruct (randint 8 18 g) as [score g']. exact H.
  - pose proof (Hrange 0 5 g ltac:(lia)) as H.
    destruct (randint 0 5 g) as [score g']. exact H.
Qed.

End ClinicalScorer.

(** ** ai_modules/ai_triage.py *)

Module AITriagePredictor.

(** A score dictionary such as [scores['shock_index']] is modelled by
    its numeric entries ([value], [score]), the only ones read here. *)

Record SeverityResult := {
  sev_score : Z;
  sev_level : string;
  sev_priority : string;
  sev_color : string;
  sev_contributing_factors : list string
}.

Definition predict_severity (vitals : gmap string Z)
    (symptoms : gmap string bool) (scores : gmap string (gmap string Q))
  : SeverityResult :=
  let severity_score := 0 in
  let factors : list string := [] in
  (* Vital signs analysis *)
  let hr := Py.get vitals "heart_rate" 70 in
  let '(severity_score, factors) :=
    if (hr >? 120) || (hr <? 50)
    then (severity_score + 15, (factors ++ ["Abnormal Heart Rate"])%list)
    else (severity_score, factors) in
  let spo2 := Py.get vitals "spo2" 98 in
  let '(severity_score, factors) :=
    if spo2 <? 90
    then (severity_score + 20, (factors ++ ["Critical Hypoxia"])%list)
    else if spo2 <? 94
    then (severity_score + 10, (factors ++ ["Moderate Hypoxia"])%list)
    else (severity_score, factors) in
  let sbp := Py.get vitals "blood_pressure_systolic" 120 in
  let '(severity_score, factors) :=
    if sbp <? 90
    then (severity_score + 20, (factors ++ ["Hypotension/Shock"])%list)
    else (severity_score, factors) in
  let gcs := Py.get vitals "gcs" 15 in
  let '(severity_score, factors) :=
    if gcs <? 9
    then (severity_score + 25,
          (factors ++ ["Severely Altered Mental Status"])%list)
    else if gcs <? 13
    then (severity_score + 15, (factors ++ ["Altered Mental Status"])%list)
    else (severity_score, factors) in
  (* Symptom analysis *)
  let '(severity_score, factors) :=
    if Py.get symptoms "chest_pain" false
    then (severity_score + 10, (factors ++ ["Chest Pain"])%list)
    else (severity_score, factors) in
  let '(severity_score, factors) :=
    if Py.get symptoms "st_elevation" false
    then (severity_score + 15, (factors ++ ["ST Elevation"])%list)
    else (severity_score, factors) in
  (* Score analysis *)
  let shock_index := Py.get (Py.get scores "shock_index" ∅) "value" 0.7%Q in
  let '(severity_score, factors) :=
    if Py.Qltb 1.0 shock_index
    then (severity_score + 15, (factors ++ ["Shock State"])%list)
    else (severity_score, factors) in
  (* Cap at 100 *)
  let severity_score := Z.min severity_score 100 in
  (* Determine level *)
  let '(level, priority, color) :=
    if severity_score >=? 75 then ("CRITICAL", "Resuscitation", "🔴")
    else if severity_score >=? 50 then ("EMERGENT", "Immediate", "🟠")
    else if severity_score >=? 25 then ("URGENT", "Within 30 min", "🟡")
    else ("NON-EMERGENT", "Standard", "🟢") in
  {| sev_score := severity_score;
     sev_level := level;
     sev_priority := priority;
     sev_color := color;
     sev_contributing_factors := factors |}.

Definition predict_active_alerts (vitals : gmap string Z)
    (symptoms : gmap string bool) (scores : gmap string (gmap string Q))
  : list string :=
  let alerts : list string := [] in
  (* STEMI Alert *)
  let stemi_score := Py.get (Py.get scores "stemi_checklist" ∅) "score" 0%Q in
  let alerts :=
    if Qle_bool 3 stemi_score then (alerts ++ ["STEMI"])%list else alerts in
  (* Stroke Alert *)
  let nihss := Py.get (Py.get scores "nihss" ∅) "score" 0%Q in
  let alerts :=
    if Py.Qltb 7 nihss then (alerts ++ ["STROKE"])%list else alerts in
  (* Trauma Alert *)
  let trauma_score := Py.get (Py.get scores "trauma_score" ∅) "score" 7%Q in
  let alerts :=
    if Py.Qltb trauma_score 5 then (alerts ++ ["TRAUMA"])%list else alerts in
  (* Sepsis Alert *)
  let qsofa := Py.get (Py.get scores "qsofa" ∅) "score" 0%Q in
  let alerts :=
    if Qle_bool 2 qsofa then (alerts ++ ["SEPSIS"])%list else alerts in
  (* Cardiac Arrest Risk *)
  let gcs := Py.get vitals "gcs" 15 in
  let sbp := Py.get vitals "blood_pressure_systolic" 120 in
  let spo2 := Py.get vitals "spo2" 98 in
  let alerts :=
    if (gcs <? 5) && ((sbp <? 70) || (spo2 <? 80))
    then (alerts ++ ["CARDIAC_ARREST_RISK"])%list else alerts in
  alerts.

(** The alert names in the order in which the rules are evaluated. *)
Definition alert_order : list string :=
  ["STEMI"; "STROKE"; "TRAUMA"; "SEPSIS"; "CARDIAC_ARREST_RISK"].

(** The rule list of the specification: the points each independent
    severity rule contributes. *)
Definition heart_rate_points (hr : Z) : Z :=
  if (hr >? 120) || (hr <? 50) then 15 else 0.
Definition spo2_points (spo2 : Z) : Z :=
  if spo2 <? 90 then 20 else if spo2 <? 94 then 10 else 0.
Definition sbp_points (sbp : Z) : Z := if sbp <? 90 then 20 else 0.
Definition gcs_points (gcs : Z) : Z :=
  if gcs <? 9 then 25 else if gcs <? 13 then 15 else 0.
Definition chest_pain_points (b : bool) : Z := if b then 10 else 0.
Definition st_elevation_points (b : bool) : Z := if b then 15 else 0.
Definition shock_index_points (si : Q) : Z :=
  if Py.Qltb 1.0 si then 15 else 0.

Definition severity_levels : list string :=
  ["CRITICAL"; "EMERGENT"; "URGENT"; "NON-EMERGENT"].

(** *** Properties of the severity score *)

(** C1.  For every vitals dictionary, symptom set and score record the
    severity score is the sum of the points of the seven independent
    rules, capped at 100; it is an integer between 0 and 100; and the
    level is the one of the four bands the score falls in: at least
    75 CRITICAL, at least 50 EMERGENT, at least 25 URGENT, otherwise
    NON-EMERGENT. *)
Theorem predict_severity_rules_and_bands (vitals : gmap string Z)
    (symptoms : gmap string bool) (scores : gmap string (gmap string Q)) :
  let r := predict_severity vitals symptoms scores in
  let total :=
    heart_rate_points (Py.get vitals "heart_rate" 70) +
    spo2_points (Py.get vitals "spo2" 98) +
    sbp_points (Py.get vitals "blood_pressure_systolic" 120) +
    gcs_points (Py.get vitals "gcs" 15) +
    chest_pain_points (Py.get symptoms "chest_pain" false) +
    st_elevation_points (Py.get symptoms "st_elevation" false) +
    shock_index_points
      (Py.get (Py.get scores "shock_index" ∅) "value" 0.7%Q) in
  sev_score r = Z.min 100 total ∧
  0 ≤ sev_score r ≤ 100 ∧
  sev_level r =
    (if 75 <=? sev_score r then "CRITICAL"
     else if 50 <=? sev_score r then "EMERGENT"
     else if 25 <=? sev_score r then "URGENT"
     else "NON-EMERGENT") ∧
  In (sev_level r) severity_levels ∧ NoDup severity_levels.
Proof.
  intros r total. subst r total.
  unfold predict_severity, heart_rate_points, spo2_points, sbp_points,
    gcs_points, chest_pain_points, st_elevation_points, shock_index_points.
  generalize (Py.get vitals "heart_rate" 70) as hr.
  generalize (Py.get vitals "spo2" 98) as spo2.
  generalize (Py.get vitals "blood_pressure_systolic" 120) as sbp.
  generalize (Py.get vitals "gcs" 15) as gcs.
  generalize (Py.get symptoms "chest_pain" false) as cp.
  generalize (Py.get symptoms "st_elevation" false) as st.
  generalize (Py.get (Py.get scores "shock_index" ∅) "value" 0.7%Q) as si.
  intros si st cp gcs sbp spo2 hr.
  assert (Hlevels : NoDup severity_levels).
  { apply (bool_decide_unpack _). vm_compute. exact I. }
  match goal with
  | |- ?A ∧ ?B ∧ ?C ∧ ?D ∧ _ => cut (A ∧ B ∧ C ∧ D); [tauto|]
  end.
  destruct ((hr >? 120) || (hr <? 50)), (spo2 <? 90), (spo2 <? 94),
    (sbp <? 90), (gcs <? 9), (gcs <? 13), cp, st, (Py.Qltb 1.0 si);
    vm_compute; (split; [reflexivity|]); (split; [split; discriminate|]);
    (split; [reflexivity | auto 6]).
Qed.

Definition vitals_hr125_sbp85_spo2_89_gcs13 : gmap string Z :=
  <["heart_rate" := 125]> (<["blood_pressure_systolic" := 85]>
    (<["spo2" := 89]> (<["gcs" := 13]> ∅))).

(** C2, counterexample: with heart rate 125, systolic pressure 85,
    SpO2 89 and GCS 13, no symptoms and no scores, the severity score
    is 55 and the level EMERGENT, not 45 and URGENT: an SpO2 of 89 is
    below 90 and takes the +20 rule, not the +10 one. *)
Lemma predict_severity_example_not_45_urgent :
  let r := predict_severity vitals_hr125_sbp85_spo2_89_gcs13 ∅ ∅ in
  sev_score r = 55 ∧ sev_level r = "EMERGENT" ∧
  ¬ (sev_score r = 45 ∧ sev_level r = "URGENT").
Proof.
  vm_compute. split; [reflexivity|]. split; [reflexivity|].
  intros [H _]. discriminate H.
Qed.

(** C2 (as amended).  For every vitals dictionary with heart rate 125,
    systolic pressure 85, SpO2 89 and GCS 13, with neither chest pain
    nor ST elevation set and no shock-index score supplied, the
    severity score is 15 + 20 + 20 = 55 and the level is EMERGENT. *)
Theorem predict_severity_example_55_emergent (vitals : gmap string Z)
    (symptoms : gmap string bool) (scores : gmap string (gmap string Q)) :
  vitals !! "heart_rate" = Some 125 →
  vitals !! "blood_pressure_systolic" = Some 85 →
  vitals !! "spo2" = Some 89 →
  vitals !! "gcs" = Some 13 →
  Py.get symptoms "chest_pain" false = false →
  Py.get symptoms "st_elevation" false = false →
  scores !! "shock_index" = None →
  let r := predict_severity vitals symptoms scores in
  sev_score r = 55 ∧ sev_level r = "EMERGENT".
Proof.
  intros Hhr Hsbp Hspo2 Hgcs Hcp Hst Hsi r. subst r.
  unfold predict_severity.
  rewrite Hcp, Hst.
  unfold Py.get. rewrite Hhr, Hsbp, Hspo2, Hgcs, Hsi.
  vm_compute. split; reflexivity.
Qed.

Lemma predict_severity_example_55_emergent_witness :
  sev_score (predict_severity vitals_hr125_sbp85_spo2_89_gcs13 ∅ ∅) = 55 ∧
  sev_level (predict_severity vitals_hr125_sbp85_spo2_89_gcs13 ∅ ∅)
    = "EMERGENT".
Proof.
  apply (predict_severity_example_55_emergent
           vitals_hr125_sbp85_spo2_89_gcs13 ∅ ∅); reflexivity.
Defined.

(** *** Properties of the alert list *)

Lemma predict_active_alerts_unfold (vitals : gmap string Z)
    (symptoms : gmap string bool) (scores : gmap string (gmap string Q)) :
  predict_active_alerts vitals symptoms scores =
    ((if Qle_bool 3 (Py.get (Py.get scores "stemi_checklist" ∅) "score" 0%Q)
      then ["STEMI"] else []) ++
     (if Py.Qltb 7 (Py.get (Py.get scores "nihss" ∅) "score" 0%Q)
      then ["STROKE"] else []) ++
     (if Py.Qltb (Py.get (Py.get scores "trauma_score" ∅) "score" 7%Q) 5
      then ["TRAUMA"] else []) ++
     (if Qle_bool 2 (Py.get (Py.get scores "qsofa" ∅) "score" 0%Q)
      then ["SEPSIS"] else []) ++
     (if (Py.get vitals "gcs" 15 <? 5) &&
         ((Py.get vitals "blood_pressure_systolic" 120 <? 70) ||
          (Py.get vitals "spo2" 98 <? 80))
      then ["CARDIAC_ARREST_RISK"] else []))%list.
Proof.
  unfold predict_active_alerts.
  destruct (Qle_bool 3 _), (Py.Qltb 7 _), (Py.Qltb _ 5), (Qle_bool 2 _),
    (_ && _); reflexivity.
Qed.

(** C3.  The alert list contains STEMI iff the STEMI checklist score
    is at least 3, STROKE iff the NIHSS score exceeds 7, TRAUMA iff
    the trauma score is below 5, SEPSIS iff the qSOFA score is at
    least 2, and CARDIAC_ARREST_RISK iff GCS is below 5 and either
    the systolic pressure is below 70 or SpO2 is below 80; the alerts
    appear in the order in which the rules are evaluated and none
    appears twice. *)
Theorem predict_active_alerts_spec (vitals : gmap string Z)
    (symptoms : gmap string bool) (scores : gmap string (gmap string Q)) :
  let alerts := predict_active_alerts vitals symptoms scores in
  let score_of (name : string) (dflt : Q) :=
    Py.get (Py.get scores name ∅) "score" dflt in
  let gcs := Py.get vitals "gcs" 15 in
  let sbp := Py.get vitals "blood_pressure_systolic" 120 in
  let spo2 := Py.get vitals "spo2" 98 in
  (In "STEMI" alerts ↔ (3 <= score_of "stemi_checklist" 0)%Q) ∧
  (In "STROKE" alerts ↔ (7 < score_of "nihss" 0)%Q) ∧
  (In "TRAUMA" alerts ↔ (score_of "trauma_score" 7 < 5)%Q) ∧
  (In "SEPSIS" alerts ↔ (2 <= score_of "qsofa" 0)%Q) ∧
  (In "CARDIAC_ARREST_RISK" alerts ↔ gcs < 5 ∧ (sbp < 70 ∨ spo2 < 80)) ∧
  sublist alerts alert_order ∧
  NoDup alerts.
Proof.
  intros alerts score_of gcs sbp spo2. subst alerts.
  rewrite predict_active_alerts_unfold.
  fold (score_of "stemi_checklist" 0%Q) (score_of "nihss" 0%Q)
    (score_of "trauma_score" 7%Q) (score_of "qsofa" 0%Q).
  fold gcs sbp spo2.
  assert (Hsub : ∀ (b : bool) (x : string),
             sublist (if b then [x] else []) [x]).
  { intros [] x; [reflexivity | apply sublist_nil_l]. }
  assert (Horder : sublist
    ((if Qle_bool 3 (score_of "stemi_checklist" 0%Q) then ["STEMI"] else []) ++
     (if Py.Qltb 7 (score_of "nihss" 0%Q) then ["STROKE"] else []) ++
     (if Py.Qltb (score_of "trauma_score" 7%Q) 5 then ["TRAUMA"] else []) ++
     (if Qle_bool 2 (score_of "qsofa" 0%Q) then ["SEPSIS"] else []) ++
     (if (gcs <? 5) && ((sbp <? 70) || (spo2 <? 80))
      then ["CARDIAC_ARREST_RISK"] else []))%list alert_order).
  { change alert_order with
      (["STEMI"] ++ ["STROKE"] ++ ["TRAUMA"] ++ ["SEPSIS"] ++
       ["CARDIAC_ARREST_RISK"])%list.
    repeat apply sublist_app; apply Hsub. }
  assert (Hnodup : NoDup alert_order).
  { apply (bool_decide_unpack _). vm_compute. exact I. }
  rewrite <- !Qle_bool_iff, <- !Py.Qltb_lt.
  assert (Harrest : (gcs <? 5) && ((sbp <? 70) || (spo2 <? 80)) = true
                    ↔ gcs < 5 ∧ (sbp < 70 ∨ spo2 < 80)).
  { rewrite andb_true_iff, orb_true_iff, !Z.ltb_lt. reflexivity. }
  rewrite <- Harrest. clear Harrest.
  split_and!; [..| exact Horder | eauto using sublist_NoDup];
    clear Horder;
    destruct (Qle_bool 3 _), (Py.Qltb 7 _), (Py.Qltb _ 5), (Qle_bool 2 _),
      (_ && _); simpl; intuition congruence.
Qed.

Record InterventionResult := {
  iv_predictions : gmap string bool;
  iv_confidence_scores : gmap string Q
}.

Definition predict_interventions (vitals : gmap string Z)
    (symptoms : gmap string bool) (scores : gmap string (gmap string Q))
  : InterventionResult :=
  let predictions : gmap string bool :=
    list_to_map
      [("cardiac_arrest_imminent", false); ("needs_intubation", false);
       ("needs_icu", false); ("needs_or", false); ("likely_stroke", false);
       ("likely_stemi", false); ("likely_sepsis", false)] in
  let confidence_scores : gmap string Q := ∅ in
  (* Cardiac arrest prediction *)
  let gcs := Py.get vitals "gcs" 15 in
  let sbp := Py.get vitals "blood_pressure_systolic" 120 in
  let '(predictions, confidence_scores) :=
    if (gcs <? 5) && (sbp <? 60)
    then (<["cardiac_arrest_imminent" := true]> predictions,
          <["cardiac_arrest" := 0.85%Q]> confidence_scores)
    else (predictions, confidence_scores) in
  (* Intubation prediction *)
  let airway_risk := Py.get (Py.get scores "airway_risk" ∅) "score" 0%Q in
  let '(predictions, confidence_scores) :=
    if Qle_bool 4 airway_risk || (gcs <? 9)
    then (<["needs_intubation" := true]> predictions,
          <["intubation" := 0.90%Q]> confidence_scores)
    else (predictions, confidence_scores) in
  (* ICU prediction *)
  let severity := Py.get (Py.get scores "severity" ∅) "score" 0%Q in
  let '(predictions, confidence_scores) :=
    if Qle_bool 60 severity
    then (<["needs_icu" := true]> predictions,
          <["icu" := 0.80%Q]> confidence_scores)
    else (predictions, confidence_scores) in
  (* OR prediction *)
  let trauma_score := Py.get (Py.get scores "trauma_score" ∅) "score" 7%Q in
  let '(predictions, confidence_scores) :=
    if Py.Qltb trauma_score 4
    then (<["needs_or" := true]> predictions,
          <["or" := 0.75%Q]> confidence_scores)
    else (predictions, confidence_scores) in
  (* Stroke prediction *)
  let nihss := Py.get (Py.get scores "nihss" ∅) "score" 0%Q in
  let '(predictions, confidence_scores) :=
    if Py.Qltb 7 nihss
    then (<["likely_stroke" := true]> predictions,
          <["stroke" := 0.85%Q]> confidence_scores)
    else (predictions, confidence_scores) in
  (* STEMI prediction *)
  let stemi_score := Py.get (Py.get scores "stemi_checklist" ∅) "score" 0%Q in
  let '(predictions, confidence_scores) :=
    if Qle_bool 3 stemi_score
    then (<["likely_stemi" := true]> predictions,
          <["stemi" := 0.90%Q]> confidence_scores)
    else (predictions, confidence_scores) in
  (* Sepsis prediction *)
  let qsofa := Py.get (Py.get scores "qsofa" ∅) "score" 0%Q in
  let '(predictions, confidence_scores) :=
    if Qle_bool 2 qsofa
    then (<["likely_sepsis" := true]> predictions,
          <["sepsis" := 0.75%Q]> confidence_scores)
    else (predictions, confidence_scores) in
  {| iv_predictions := predictions;
     iv_confidence_scores := confidence_scores |}.

(** Each prediction flag with the key and the value of the confidence
    score that is recorded with it. *)
Definition confidence_table : list (string * string * Q) :=
  [("cardiac_arrest_imminent", "cardiac_arrest", 0.85%Q);
   ("needs_intubation", "intubation", 0.90%Q);
   ("needs_icu", "icu", 0.80%Q);
   ("needs_or", "or", 0.75%Q);
   ("likely_stroke", "stroke", 0.85%Q);
   ("likely_stemi", "stemi", 0.90%Q);
   ("likely_sepsis", "sepsis", 0.75%Q)].

Definition stemi_protocol_actions : list string :=
  ["🔴 ACTIVATE CATHETER LAB - Door-to-balloon <90 min";
   "📞 Page Interventional Cardiology";
   "💊 Prepare: Aspirin, Clopidogrel, Heparin, Nitroglycerin";
   "🔬 STAT Labs: Troponin, CBC, BMP, Coag panel";
   "🏥 Designate Cath Lab bed"].

Definition stroke_protocol_actions : list string :=
  ["🔴 ACTIVATE STROKE TEAM";
   "🏥 Reserve CT Scanner immediately";
   "📞 Page Neurology";
   "⏱️ Document Last Known Well time";
   "💊 Prepare tPA if within window";
   "🔬 STAT Labs: CBC, Coag, Glucose"].

Definition trauma_protocol_actions : list string :=
  ["🔴 ACTIVATE TRAUMA TEAM";
   "🏥 Prepare Trauma Bay";
   "📞 Page Surgery, Anesthesia";
   "🩸 Type & Cross, MTP if needed";
   "📍 CT scanner on standby";
   "🏥 Notify OR"].

Definition sepsis_protocol_actions : list string :=
  ["🔴 INITIATE SEPSIS BUNDLE";
   "🩸 Blood cultures BEFORE antibiotics";
   "💊 Broad-spectrum antibiotics within 1 hour";
   "💧 Aggressive fluid resuscitation 30ml/kg";
   "🔬 STAT Lactate";
   "🏥 Consider ICU"].

Definition airway_prep_actions : list string :=
  ["🔴 PREPARE FOR INTUBATION";
   "📞 Page Anesthesia";
   "🏥 RSI medications ready";
   "💨 Ventilator on standby";
   "🔧 Difficult airway cart available"].

Definition code_blue_prep_actions : list string :=
  ["🔴 CODE BLUE PREPARATION";
   "🏥 Crash cart at bedside";
   "💊 Emergency medications ready";
   "📞 Rapid response team notified";
   "⚡ Defibrillator ready"].

(** [predictions.get(key)] is used as a condition: a missing key gives
    [None], which counts as false. *)
Definition activate_protocols (active_alerts : list string)
    (predictions : gmap string bool) : gmap string (list string) :=
  let activations : gmap string (list string) := ∅ in
  let activations :=
    if bool_decide ("STEMI" ∈ active_alerts) ||
       Py.get predictions "likely_stemi" false
    then <["STEMI_PROTOCOL" := stemi_protocol_actions]> activations
    else activations in
  let activations :=
    if bool_decide ("STROKE" ∈ active_alerts) ||
       Py.get predictions "likely_stroke" false
    then <["STROKE_PROTOCOL" := stroke_protocol_actions]> activations
    else activations in
  let activations :=
    if bool_decide ("TRAUMA" ∈ active_alerts)
    then <["TRAUMA_PROTOCOL" := trauma_protocol_actions]> activations
    else activations in
  let activations :=
    if bool_decide ("SEPSIS" ∈ active_alerts) ||
       Py.get predictions "likely_sepsis" false
    then <["SEPSIS_PROTOCOL" := sepsis_protocol_actions]> activations
    else activations in
  let activations :=
    if Py.get predictions "needs_intubation" false
    then <["AIRWAY_PREP" := airway_prep_actions]> activations
    else activations in
  let activations :=
    if bool_decide ("CARDIAC_ARREST_RISK" ∈ active_alerts)
    then <["CODE_BLUE_PREP" := code_blue_prep_actions]> activations
    else activations in
  activations.

(** The protocol each alert stands for. *)
Definition protocol_of_alert : list (string * string) :=
  [("STEMI", "STEMI_PROTOCOL"); ("STROKE", "STROKE_PROTOCOL");
   ("TRAUMA", "TRAUMA_PROTOCOL"); ("SEPSIS", "SEPSIS_PROTOCOL");
   ("CARDIAC_ARREST_RISK", "CODE_BLUE_PREP")].

(** The six protocols with their action lists. *)
Definition protocol_table : list (string * list string) :=
  [("STEMI_PROTOCOL", stemi_protocol_actions);
   ("STROKE_PROTOCOL", stroke_protocol_actions);
   ("TRAUMA_PROTOCOL", trauma_protocol_actions);
   ("SEPSIS_PROTOCOL", sepsis_protocol_actions);
   ("AIRWAY_PREP", airway_prep_actions);
   ("CODE_BLUE_PREP", code_blue_prep_actions)].

Lemma lookup_cond_insert {V : Type} (b : bool) (k k' : string) (v : V)
    (m : gmap string V) :
  (if b then <[k := v]> m else m) !! k' =
    if b && bool_decide (k = k') then Some v else m !! k'.
Proof.
  destruct b; [|reflexivity]. cbn [andb].
  case_bool_decide as Hk.
  - subst k'. apply lookup_insert_eq.
  - apply lookup_insert_ne, Hk.
Qed.

Lemma lookup_cond_update {V : Type} (b : bool) (k k' : string) (v : V)
    (m : gmap string V) :
  (if b then <[k := v]> else id) m !! k' =
    if b && bool_decide (k = k') then Some v else m !! k'.
Proof. rewrite <- lookup_cond_insert. destruct b; reflexivity. Qed.

Lemma dom_cond_update_present {V : Type} (b : bool) (k : string) (v : V)
    (m : gmap string V) (keys : gset string) :
  dom m = keys → k ∈ keys → dom ((if b then <[k := v]> else id) m) = keys.
Proof.
  intros Hm Hk. destruct b; [|exact Hm]. rewrite dom_insert_L, Hm.
  apply subseteq_union_1_L, singleton_subseteq_l, Hk.
Qed.

Lemma dom_cond_update_subseteq {V : Type} (b : bool) (k : string) (v : V)
    (m : gmap string V) (keys : gset string) :
  dom m ⊆ keys → k ∈ keys → dom ((if b then <[k := v]> else id) m) ⊆ keys.
Proof.
  intros Hm Hk. destruct b; [|exact Hm]. rewrite dom_insert_L.
  apply union_least; [apply singleton_subseteq_l, Hk | exact Hm].
Qed.

Lemma predict_interventions_unfold (vitals : gmap string Z)
    (symptoms : gmap string bool) (scores : gmap string (gmap string Q)) :
  let score_of (name : string) (dflt : Q) :=
    Py.get (Py.get scores name ∅) "score" dflt in
  let gcs := Py.get vitals "gcs" 15 in
  let sbp := Py.get vitals "blood_pressure_systolic" 120 in
  let r := predict_interventions vitals symptoms scores in
  iv_predictions r =
    (if Qle_bool 2 (score_of "qsofa" 0%Q)
     then <["likely_sepsis" := true]> else id)
    ((if Qle_bool 3 (score_of "stemi_checklist" 0%Q)
      then <["likely_stemi" := true]> else id)
    ((if Py.Qltb 7 (score_of "nihss" 0%Q)
      then <["likely_stroke" := true]> else id)
    ((if Py.Qltb (score_of "trauma_score" 7%Q) 4
      then <["needs_or" := true]> else id)
    ((if Qle_bool 60 (score_of "severity" 0%Q)
      then <["needs_icu" := true]> else id)
    ((if Qle_bool 4 (score_of "airway_risk" 0%Q) || (gcs <? 9)
      then <["needs_intubation" := true]> else id)
    ((if (gcs <? 5) && (sbp <? 60)
      then <["cardiac_arrest_imminent" := true]> else id)
     (list_to_map ((λ row, (row.1.1, false)) <$> confidence_table)))))))) ∧
  iv_confidence_scores r =
    (if Qle_bool 2 (score_of "qsofa" 0%Q)
     then <["sepsis" := 0.75%Q]> else id)
    ((if Qle_bool 3 (score_of "stemi_checklist" 0%Q)
      then <["stemi" := 0.90%Q]> else id)
    ((if Py.Qltb 7 (score_of "nihss" 0%Q)
      then <["stroke" := 0.85%Q]> else id)
    ((if Py.Qltb (score_of "trauma_score" 7%Q) 4
      then <["or" := 0.75%Q]> else id)
    ((if Qle_bool 60 (score_of "severity" 0%Q)
      then <["icu" := 0.80%Q]> else id)
    ((if Qle_bool 4 (score_of "airway_risk" 0%Q) || (gcs <? 9)
      then <["intubation" := 0.90%Q]> else id)
    ((if (gcs <? 5) && (sbp <? 60)
      then <["cardiac_arrest" := 0.85%Q]> else id) ∅)))))).
Proof.
  intros score_of gcs sbp r. subst r.
  unfold predict_interventions. fold gcs sbp.
  fold (score_of "airway_risk" 0%Q) (score_of "severity" 0%Q)
    (score_of "trauma_score" 7%Q) (score_of "nihss" 0%Q)
    (score_of "stemi_checklist" 0%Q) (score_of "qsofa" 0%Q).
  destruct ((gcs <? 5) && (sbp <? 60)),
    (Qle_bool 4 (score_of "airway_risk" 0%Q) || (gcs <? 9)),
    (Qle_bool 60 _), (Py.Qltb _ 4), (Py.Qltb 7 _), (Qle_bool 3 _),
    (Qle_bool 2 _); split; reflexivity.
Qed.

(** X10.  [predict_interventions] always reports all seven prediction
    flags and nothing else; a confidence score is recorded exactly
    for the flags that are true, with the fixed value of that flag;
    and an imminent cardiac arrest is never predicted without the
    need for intubation. *)
Theorem predict_interventions_confidence_iff_predicted
    (vitals : gmap string Z) (symptoms : gmap string bool)
    (scores : gmap string (gmap string Q)) :
  let r := predict_interventions vitals symptoms scores in
  Forall (λ '(p, c, v),
            ∃ b : bool, iv_predictions r !! p = Some b ∧
                        iv_confidence_scores r !! c =
                          if b then Some v else None)
         confidence_table ∧
  dom (iv_predictions r) = list_to_set (confidence_table.*1.*1) ∧
  dom (iv_confidence_scores r) ⊆ list_to_set (confidence_table.*1.*2) ∧
  (iv_predictions r !! "cardiac_arrest_imminent" = Some true →
   iv_predictions r !! "needs_intubation" = Some true).
Proof.
  intros r. subst r.
  destruct (predict_interventions_unfold vitals symptoms scores)
    as [-> ->].
  set (gcs := Py.get vitals "gcs" 15).
  set (sbp := Py.get vitals "blood_pressure_systolic" 120).
  set (b1 := (gcs <? 5) && (sbp <? 60)).
  set (b2 := Qle_bool 4 _ || (gcs <? 9)).
  assert (Hb : b1 = true → b2 = true).
  { subst b1 b2. rewrite andb_true_iff, orb_true_iff, !Z.ltb_lt. lia. }
  clearbody b1 b2.
  generalize (Qle_bool 60 (Py.get (Py.get scores "severity" ∅) "score" 0%Q)),
    (Py.Qltb (Py.get (Py.get scores "trauma_score" ∅) "score" 7%Q) 4),
    (Py.Qltb 7 (Py.get (Py.get scores "nihss" ∅) "score" 0%Q)),
    (Qle_bool 3 (Py.get (Py.get scores "stemi_checklist" ∅) "score" 0%Q)),
    (Qle_bool 2 (Py.get (Py.get scores "qsofa" ∅) "score" 0%Q)).
  intros b3 b4 b5 b6 b7.
  split_and!.
  - repeat (apply Forall_cons; split; [|]); [..|apply Forall_nil; exact I].
    all: rewrite !lookup_cond_update; vm_compute.
    all: destruct b1, b2, b3, b4, b5, b6, b7; eexists; split; reflexivity.
  - repeat (apply dom_cond_update_present;
            [|apply (bool_decide_unpack _); vm_compute; exact I]).
    apply (bool_decide_unpack _). vm_compute. exact I.
  - repeat (apply dom_cond_update_subseteq;
            [|apply (bool_decide_unpack _); vm_compute; exact I]).
    rewrite dom_empty_L. apply empty_subseteq.
  - rewrite !lookup_cond_update. vm_compute.
    destruct b1; [rewrite (Hb eq_refl)|destruct b2];
      destruct b3, b4, b5, b6, b7; (reflexivity || discriminate).
Qed.

Lemma predict_interventions_lookup (vitals : gmap string Z)
    (symptoms : gmap string bool) (scores : gmap string (gmap string Q)) :
  let score_of (name : string) (dflt : Q) :=
    Py.get (Py.get scores name ∅) "score" dflt in
  let gcs := Py.get vitals "gcs" 15 in
  let sbp := Py.get vitals "blood_pressure_systolic" 120 in
  let predictions :=
    iv_predictions (predict_interventions vitals symptoms scores) in
  predictions !! "cardiac_arrest_imminent" = Some ((gcs <? 5) && (sbp <? 60)) ∧
  predictions !! "needs_intubation" =
    Some (Qle_bool 4 (score_of "airway_risk" 0%Q) || (gcs <? 9)) ∧
  predictions !! "needs_icu" = Some (Qle_bool 60 (score_of "severity" 0%Q)) ∧
  predictions !! "needs_or" = Some (Py.Qltb (score_of "trauma_score" 7%Q) 4) ∧
  predictions !! "likely_stroke" = Some (Py.Qltb 7 (score_of "nihss" 0%Q)) ∧
  predictions !! "likely_stemi" =
    Some (Qle_bool 3 (score_of "stemi_checklist" 0%Q)) ∧
  predictions !! "likely_sepsis" = Some (Qle_bool 2 (score_of "qsofa" 0%Q)).
Proof.
  intros score_of gcs sbp predictions. subst predictions.
  destruct (predict_interventions_unfold vitals symptoms scores) as [-> _].
  subst score_of gcs sbp. cbv beta.
  generalize
    ((Py.get vitals "gcs" 15 <? 5) &&
     (Py.get vitals "blood_pressure_systolic" 120 <? 60)),
    (Qle_bool 4 (Py.get (Py.get scores "airway_risk" ∅) "score" 0%Q) ||
     (Py.get vitals "gcs" 15 <? 9)),
    (Qle_bool 60 (Py.get (Py.get scores "severity" ∅) "score" 0%Q)),
    (Py.Qltb (Py.get (Py.get scores "trauma_score" ∅) "score" 7%Q) 4),
    (Py.Qltb 7 (Py.get (Py.get scores "nihss" ∅) "score" 0%Q)),
    (Qle_bool 3 (Py.get (Py.get scores "stemi_checklist" ∅) "score" 0%Q)),
    (Qle_bool 2 (Py.get (Py.get scores "qsofa" ∅) "score" 0%Q)).
  intros b1 b2 b3 b4 b5 b6 b7.
  rewrite !lookup_cond_update. vm_compute.
  destruct b1, b2, b3, b4, b5, b6, b7; repeat split.
Qed.

Lemma elem_of_if_singleton (b : bool) (x y : string) :
  x ∈ (if b then [y] else []) ↔ b = true ∧ x = y.
Proof.
  destruct b.
  - rewrite list_elem_of_singleton. tauto.
  - rewrite elem_of_nil. intuition discriminate.
Qed.

Lemma elem_of_predict_active_alerts (vitals : gmap string Z)
    (symptoms : gmap string bool) (scores : gmap string (gmap string Q))
    (x : string) :
  let score_of (name : string) (dflt : Q) :=
    Py.get (Py.get scores name ∅) "score" dflt in
  let gcs := Py.get vitals "gcs" 15 in
  let sbp := Py.get vitals "blood_pressure_systolic" 120 in
  let spo2 := Py.get vitals "spo2" 98 in
  x ∈ predict_active_alerts vitals symptoms scores ↔
    (Qle_bool 3 (score_of "stemi_checklist" 0%Q) = true ∧ x = "STEMI") ∨
    (Py.Qltb 7 (score_of "nihss" 0%Q) = true ∧ x = "STROKE") ∨
    (Py.Qltb (score_of "trauma_score" 7%Q) 5 = true ∧ x = "TRAUMA") ∨
    (Qle_bool 2 (score_of "qsofa" 0%Q) = true ∧ x = "SEPSIS") ∨
    ((gcs <? 5) && ((sbp <? 70) || (spo2 <? 80)) = true ∧
     x = "CARDIAC_ARREST_RISK").
Proof.
  intros score_of gcs sbp spo2.
  rewrite predict_active_alerts_unfold, !elem_of_app, !elem_of_if_singleton.
  reflexivity.
Qed.

(** X11.  On the same inputs the intervention predictions agree with
    the alert list: [likely_stemi], [likely_stroke] and
    [likely_sepsis] are true exactly when the STEMI, STROKE and
    SEPSIS alerts are raised; a predicted need for the operating room
    comes with the TRAUMA alert and a predicted imminent cardiac
    arrest with the CARDIAC_ARREST_RISK alert. *)
Theorem predict_interventions_agrees_with_alerts (vitals : gmap string Z)
    (symptoms : gmap string bool) (scores : gmap string (gmap string Q)) :
  let alerts := predict_active_alerts vitals symptoms scores in
  let predictions :=
    iv_predictions (predict_interventions vitals symptoms scores) in
  (predictions !! "likely_stemi" = Some true ↔ "STEMI" ∈ alerts) ∧
  (predictions !! "likely_stroke" = Some true ↔ "STROKE" ∈ alerts) ∧
  (predictions !! "likely_sepsis" = Some true ↔ "SEPSIS" ∈ alerts) ∧
  (predictions !! "needs_or" = Some true → "TRAUMA" ∈ alerts) ∧
  (predictions !! "cardiac_arrest_imminent" = Some true →
   "CARDIAC_ARREST_RISK" ∈ alerts).
Proof.
  intros alerts predictions. subst alerts predictions.
  destruct (predict_interventions_lookup vitals symptoms scores)
    as (-> & _ & _ & -> & -> & -> & ->).
  rewrite !elem_of_predict_active_alerts.
  set (trauma_score := Py.get (Py.get scores "trauma_score" ∅) "score" 7%Q).
  assert (Htrauma : Py.Qltb trauma_score 4 = true →
                    Py.Qltb trauma_score 5 = true).
  { rewrite !Py.Qltb_lt. intros H. lra. }
  set (gcs := Py.get vitals "gcs" 15).
  set (sbp := Py.get vitals "blood_pressure_systolic" 120).
  set (spo2 := Py.get vitals "spo2" 98).
  assert (Harrest : (gcs <? 5) && (sbp <? 60) = true →
                    (gcs <? 5) && ((sbp <? 70) || (spo2 <? 80)) = true).
  { rewrite !andb_true_iff, orb_true_iff, !Z.ltb_lt. lia. }
  split_and!.
  - split; [intros [= ->]; auto | intros [[-> _]|H]; [reflexivity|]].
    exfalso. intuition discriminate.
  - split; [intros [= ->]; auto | intros [H|[[-> _]|H]]; [|reflexivity|]];
      exfalso; intuition discriminate.
  - split; [intros [= ->]; auto 10 |
            intros [H|[H|[H|[[-> _]|H]]]]; [| | |reflexivity|]];
      exfalso; intuition discriminate.
  - intros [= H]. auto 10.
  - intros [= H]. auto 10.
Qed.

Lemma activate_protocols_lookup (active_alerts : list string)
    (predictions : gmap string bool) :
  let activations := activate_protocols active_alerts predictions in
  let alert (name : string) := bool_decide (name ∈ active_alerts) in
  let predicted (name : string) := Py.get predictions name false in
  let activated (protocol : string) (actions : list string) (b : bool) :=
    activations !! protocol = if b then Some actions else None in
  activated "STEMI_PROTOCOL" stemi_protocol_actions
    (alert "STEMI" || predicted "likely_stemi") ∧
  activated "STROKE_PROTOCOL" stroke_protocol_actions
    (alert "STROKE" || predicted "likely_stroke") ∧
  activated "TRAUMA_PROTOCOL" trauma_protocol_actions (alert "TRAUMA") ∧
  activated "SEPSIS_PROTOCOL" sepsis_protocol_actions
    (alert "SEPSIS" || predicted "likely_sepsis") ∧
  activated "AIRWAY_PREP" airway_prep_actions (predicted "needs_intubation") ∧
  activated "CODE_BLUE_PREP" code_blue_prep_actions
    (alert "CARDIAC_ARREST_RISK").
Proof.
  intros activations alert predicted activated.
  subst activations alert predicted activated. cbv beta.
  unfold activate_protocols.
  generalize
    (bool_decide ("STEMI" ∈ active_alerts) ||
     Py.get predictions "likely_stemi" false),
    (bool_decide ("STROKE" ∈ active_alerts) ||
     Py.get predictions "likely_stroke" false),
    (bool_decide ("TRAUMA" ∈ active_alerts)),
    (bool_decide ("SEPSIS" ∈ active_alerts) ||
     Py.get predictions "likely_sepsis" false),
    (Py.get predictions "needs_intubation" false),
    (bool_decide ("CARDIAC_ARREST_RISK" ∈ active_alerts)).
  intros c1 c2 c3 c4 c5 c6. cbv zeta.
  rewrite !lookup_cond_insert. vm_compute.
  destruct c1, c2, c3, c4, c5, c6; repeat split.
Qed.

Lemma activate_protocols_in_table (active_alerts : list string)
    (predictions : gmap string bool) (protocol : string)
    (actions : list string) :
  activate_protocols active_alerts predictions !! protocol = Some actions →
  (protocol, actions) ∈ protocol_table.
Proof.
  unfold activate_protocols. cbv zeta. intros H.
  repeat
    (rewrite lookup_cond_insert in H;
     match type of H with
     | (if ?c && bool_decide (?k = _) then _ else _) = _ =>
         destruct c; cbn [andb] in H;
         [destruct (bool_decide_reflect (k = protocol)) as [<-|_];
          [injection H as <-;
           apply (bool_decide_unpack _); vm_compute; exact I|]|]
     end).
  all: discriminate H.
Qed.

Lemma is_Some_if {A : Type} (b : bool) (x : A) :
  is_Some (if b then Some x else None) ↔ b = true.
Proof.
  destruct b; split; intros H; try reflexivity; try discriminate.
  - eexists; reflexivity.
  - destruct H; discriminate.
Qed.

(** X12.  [activate_protocols] activates a protocol exactly when its
    trigger holds: the STEMI, STROKE and SEPSIS protocols on the alert
    or the matching prediction, the TRAUMA protocol and the code-blue
    preparation on their alert alone, the airway preparation on the
    predicted need for intubation alone; every activated entry is one
    of the six protocols with its fixed list of actions. *)
Theorem activate_protocols_iff_triggered (active_alerts : list string)
    (predictions : gmap string bool) :
  let activations := activate_protocols active_alerts predictions in
  let predicted (name : string) := predictions !! name = Some true in
  (is_Some (activations !! "STEMI_PROTOCOL") ↔
     "STEMI" ∈ active_alerts ∨ predicted "likely_stemi") ∧
  (is_Some (activations !! "STROKE_PROTOCOL") ↔
     "STROKE" ∈ active_alerts ∨ predicted "likely_stroke") ∧
  (is_Some (activations !! "TRAUMA_PROTOCOL") ↔ "TRAUMA" ∈ active_alerts) ∧
  (is_Some (activations !! "SEPSIS_PROTOCOL") ↔
     "SEPSIS" ∈ active_alerts ∨ predicted "likely_sepsis") ∧
  (is_Some (activations !! "AIRWAY_PREP") ↔ predicted "needs_intubation") ∧
  (is_Some (activations !! "CODE_BLUE_PREP") ↔
     "CARDIAC_ARREST_RISK" ∈ active_alerts) ∧
  (∀ protocol actions,
     activations !! protocol = Some actions →
     (protocol, actions) ∈ protocol_table).
Proof.
  intros activations predicted. subst activations predicted. cbv beta.
  destruct (activate_protocols_lookup active_alerts predictions)
    as (-> & -> & -> & -> & -> & ->).
  rewrite !is_Some_if, !orb_true_iff, !bool_decide_eq_true, !Py.get_true_iff.
  split_and!; try reflexivity.
  apply activate_protocols_in_table.
Qed.

Lemma alert_flags (vitals : gmap string Z) (symptoms : gmap string bool)
    (scores : gmap string (gmap string Q)) :
  let score_of (name : string) (dflt : Q) :=
    Py.get (Py.get scores name ∅) "score" dflt in
  let gcs := Py.get vitals "gcs" 15 in
  let sbp := Py.get vitals "blood_pressure_systolic" 120 in
  let spo2 := Py.get vitals "spo2" 98 in
  let alert (name : string) :=
    bool_decide (name ∈ predict_active_alerts vitals symptoms scores) in
  alert "STEMI" = Qle_bool 3 (score_of "stemi_checklist" 0%Q) ∧
  alert "STROKE" = Py.Qltb 7 (score_of "nihss" 0%Q) ∧
  alert "TRAUMA" = Py.Qltb (score_of "trauma_score" 7%Q) 5 ∧
  alert "SEPSIS" = Qle_bool 2 (score_of "qsofa" 0%Q) ∧
  alert "CARDIAC_ARREST_RISK" = (gcs <? 5) && ((sbp <? 70) || (spo2 <? 80)).
Proof.
  intros score_of gcs sbp spo2 alert. subst alert. cbv beta.
  assert (H : ∀ (P : Prop) `{Decision P} (b : bool),
            (P ↔ b = true) → bool_decide P = b).
  { intros P ? [] HP; [apply bool_decide_eq_true_2, HP; reflexivity|].
    apply bool_decide_eq_false_2. rewrite HP. discriminate. }
  split_and!; apply H; rewrite elem_of_predict_active_alerts;
    fold score_of gcs sbp spo2;
    (split; [intros Hx; repeat (destruct Hx as [[Hb Hx]|Hx]; [try discriminate Hx; try exact Hb|]);
                    destruct Hx as [Hb Hx]; (discriminate Hx || exact Hb)
            | intros Hb; auto 10]).
Qed.

(** X13.  When the protocols are activated from the alerts and the
    predictions computed on the same inputs, each of the five alerts
    has its protocol activated exactly when the alert is raised (the
    predictions add none), the airway preparation is activated
    exactly on the predicted need for intubation, and the code-blue
    preparation never comes without the airway preparation. *)
Theorem activate_protocols_follows_alerts (vitals : gmap string Z)
    (symptoms : gmap string bool) (scores : gmap string (gmap string Q)) :
  let alerts := predict_active_alerts vitals symptoms scores in
  let predictions :=
    iv_predictions (predict_interventions vitals symptoms scores) in
  let activations := activate_protocols alerts predictions in
  Forall (λ '(alert, protocol),
            is_Some (activations !! protocol) ↔ alert ∈ alerts)
         protocol_of_alert ∧
  (is_Some (activations !! "AIRWAY_PREP") ↔
     predictions !! "needs_intubation" = Some true) ∧
  (is_Some (activations !! "CODE_BLUE_PREP") →
   is_Some (activations !! "AIRWAY_PREP")).
Proof.
  intros alerts predictions activations.
  subst alerts predictions activations.
  pose proof (activate_protocols_lookup
                (predict_active_alerts vitals symptoms scores)
                (iv_predictions (predict_interventions vitals symptoms scores)))
    as (H1 & H2 & H3 & H4 & H5 & H6).
  pose proof (alert_flags vitals symptoms scores) as (A1 & A2 & A3 & A4 & A5).
  pose proof (predict_interventions_lookup vitals symptoms scores)
    as (_ & P2 & _ & _ & P5 & P6 & P7).
  cbv zeta beta in H1, H2, H3, H4, H5, H6, A1, A2, A3, A4, A5, P2, P5, P6, P7.
  rewrite A1, (Py.get_lookup _ _ _ _ P6), orb_diag in H1.
  rewrite A2, (Py.get_lookup _ _ _ _ P5), orb_diag in H2.
  rewrite A3 in H3.
  rewrite A4, (Py.get_lookup _ _ _ _ P7), orb_diag in H4.
  rewrite (Py.get_lookup _ _ _ _ P2) in H5.
  rewrite A5 in H6.
  rewrite H5, H6, !is_Some_if.
  split_and!.
  - repeat (apply Forall_cons; split); [..|apply Forall_nil; exact I].
    + rewrite H1, is_Some_if, <- A1, bool_decide_eq_true. reflexivity.
    + rewrite H2, is_Some_if, <- A2, bool_decide_eq_true. reflexivity.
    + rewrite H3, is_Some_if, <- A3, bool_decide_eq_true. reflexivity.
    + rewrite H4, is_Some_if, <- A4, bool_decide_eq_true. reflexivity.
    + rewrite H6, is_Some_if, <- A5, bool_decide_eq_true. reflexivity.
  - rewrite P2. split; [intros ->; reflexivity | intros [= ->]; reflexivity].
  - intros H. apply andb_true_iff in H as [H _]. apply Z.ltb_lt in H.
    apply orb_true_iff. right. apply Z.ltb_lt. lia.
Qed.

Lemma predict_severity_factors (vitals : gmap string Z)
    (symptoms : gmap string bool) (scores : gmap string (gmap string Q)) :
  let hr := Py.get vitals "heart_rate" 70 in
  let spo2 := Py.get vitals "spo2" 98 in
  let sbp := Py.get vitals "blood_pressure_systolic" 120 in
  let gcs := Py.get vitals "gcs" 15 in
  sev_contributing_factors (predict_severity vitals symptoms scores) =
    ((if (hr >? 120) || (hr <? 50) then ["Abnormal Heart Rate"] else []) ++
     (if spo2 <? 90 then ["Critical Hypoxia"]
      else if spo2 <? 94 then ["Moderate Hypoxia"] else []) ++
     (if sbp <? 90 then ["Hypotension/Shock"] else []) ++
     (if gcs <? 9 then ["Severely Altered Mental Status"]
      else if gcs <? 13 then ["Altered Mental Status"] else []) ++
     (if Py.get symptoms "chest_pain" false then ["Chest Pain"] else []) ++
     (if Py.get symptoms "st_elevation" false then ["ST Elevation"] else []) ++
     (if Py.Qltb 1.0 (Py.get (Py.get scores "shock_index" ∅) "value" 0.7%Q)
      then ["Shock State"] else []))%list.
Proof.
  intros hr spo2 sbp gcs. unfold predict_severity. fold hr spo2 sbp gcs.
  destruct ((hr >? 120) || (hr <? 50)), (spo2 <? 90), (spo2 <? 94),
    (sbp <? 90), (gcs <? 9), (gcs <? 13),
    (Py.get symptoms "chest_pain" false),
    (Py.get symptoms "st_elevation" false), (Py.Qltb 1.0 _); reflexivity.
Qed.

Lemma round2_above_one (q : Q) :
  (1 < Py.round2 q)%Q → (1.005 <= q)%Q.
Proof.
  intros H.
  pose proof (ClinicalScorer.round_half_even_near (q * 100)) as [_ Hhi].
  pose proof (ClinicalScorer.round2_hundredths q) as Hn.
  set (n := Py.round_half_even (q * 100)) in *.
  assert (Hlt : (inject_Z 100 < inject_Z n)%Q).
  { rewrite <- Hn. change (inject_Z 100) with 100%Q.
    generalize dependent (Py.round2 q). intros. lra. }
  rewrite <- Zlt_Qlt in Hlt.
  assert (Hge : (inject_Z 101 <= inject_Z n)%Q) by (rewrite <- Zle_Qle; lia).
  change (inject_Z 101) with 101%Q in Hge. lra.
Qed.

Lemma round2_at_most_one (q : Q) :
  (q < 1.005)%Q → (Py.round2 q <= 1)%Q.
Proof.
  intros H.
  pose proof (ClinicalScorer.round_half_even_near (q * 100)) as [_ Hhi].
  pose proof (ClinicalScorer.round2_hundredths q) as Hn.
  set (n := Py.round_half_even (q * 100)) in *.
  assert (Hlt : (inject_Z n < inject_Z 101)%Q).
  { change (inject_Z 101) with 101%Q. lra. }
  assert (Hn' : (Py.round2 q == inject_Z n * (1 # 100))%Q).
  { unfold Py.round2. fold n. unfold Qdiv. reflexivity. }
  rewrite <- Zlt_Qlt in Hlt.
  assert (Hle : (inject_Z n <= inject_Z 100)%Q) by (rewrite <- Zle_Qle; lia).
  change (inject_Z 100) with 100%Q in Hle. rewrite Hn'. lra.
Qed.

Lemma predict_severity_score (vitals : gmap string Z)
    (symptoms : gmap string bool) (scores : gmap string (gmap string Q)) :
  sev_score (predict_severity vitals symptoms scores) =
    Z.min 100
      (heart_rate_points (Py.get vitals "heart_rate" 70) +
       spo2_points (Py.get vitals "spo2" 98) +
       sbp_points (Py.get vitals "blood_pressure_systolic" 120) +
       gcs_points (Py.get vitals "gcs" 15) +
       chest_pain_points (Py.get symptoms "chest_pain" false) +
       st_elevation_points (Py.get symptoms "st_elevation" false) +
       shock_index_points
         (Py.get (Py.get scores "shock_index" ∅) "value" 0.7%Q)).
Proof.
  unfold predict_severity, heart_rate_points, spo2_points, sbp_points,
    gcs_points, chest_pain_points, st_elevation_points, shock_index_points.
  generalize (Py.get vitals "heart_rate" 70) as hr.
  generalize (Py.get vitals "spo2" 98) as spo2.
  generalize (Py.get vitals "blood_pressure_systolic" 120) as sbp.
  generalize (Py.get vitals "gcs" 15) as gcs.
  generalize (Py.get symptoms "chest_pain" false) as cp.
  generalize (Py.get symptoms "st_elevation" false) as st.
  generalize (Py.get (Py.get scores "shock_index" ∅) "value" 0.7%Q) as si.
  intros si st cp gcs sbp spo2 hr.
  destruct ((hr >? 120) || (hr <? 50)), (spo2 <? 90), (spo2 <? 94),
    (sbp <? 90), (gcs <? 9), (gcs <? 13), cp, st, (Py.Qltb 1.0 si);
    reflexivity.
Qed.

(** X14.  When the severity model is given the value that
    [calculate_shock_index] returned for a heart rate and a systolic
    pressure of at most a million in magnitude, its "Shock State"
    factor appears exactly when the rounded value exceeds 1, and the
    factor is worth 15 points: with it the severity score is the sum
    of the six other rules plus 15, capped at 100, and without it the
    capped sum of the six.  The factor implies the interpretation
    "Shock State" and the recommendation "Immediate Resuscitation",
    but not the other way round: a quotient above 1 and below 1.005
    is interpreted as "Shock State" and yet rounds to 1.0, which adds
    no factor. *)
Theorem shock_state_factor_needs_rounded_value_above_one
    (vitals : gmap string Z) (symptoms : gmap string bool)
    (scores : gmap string (gmap string Q)) (entries : gmap string Q)
    (r : ClinicalScorer.ShockIndexResult) :
  ClinicalScorer.bounded_readings vitals →
  ClinicalScorer.calculate_shock_index vitals = Some r →
  scores !! "shock_index" = Some entries →
  entries !! "value" = Some (ClinicalScorer.si_value r) →
  let hr := Py.get vitals "heart_rate" 70 in
  let sbp := Py.get vitals "blood_pressure_systolic" 120 in
  let q := (inject_Z hr / inject_Z (if sbp =? 0 then 1 else sbp))%Q in
  let severity := predict_severity vitals symptoms scores in
  let factors := sev_contributing_factors severity in
  let others :=
    heart_rate_points hr + spo2_points (Py.get vitals "spo2" 98) +
    sbp_points sbp + gcs_points (Py.get vitals "gcs" 15) +
    chest_pain_points (Py.get symptoms "chest_pain" false) +
    st_elevation_points (Py.get symptoms "st_elevation" false) in
  ("Shock State" ∈ factors ↔ (1 < ClinicalScorer.si_value r)%Q) ∧
  ("Shock State" ∈ factors →
     sev_score severity = Z.min 100 (others + 15)) ∧
  ("Shock State" ∉ factors → sev_score severity = Z.min 100 others) ∧
  ("Shock State" ∈ factors →
     (1.005 <= q)%Q ∧
     ClinicalScorer.si_interpretation r = "Shock State" ∧
     ClinicalScorer.si_recommendation r = "Immediate Resuscitation") ∧
  ((1 < q)%Q → (q < 1.005)%Q →
     ClinicalScorer.si_interpretation r = "Shock State" ∧
     ClinicalScorer.si_recommendation r = "Immediate Resuscitation" ∧
     "Shock State" ∉ factors).
Proof.
  intros [Hbound _] Hr Hscores Hvalue hr sbp q severity factors others.
  fold hr in Hbound.
  assert (Hscore : sev_score severity =
            Z.min 100 (others +
                       shock_index_points (ClinicalScorer.si_value r))).
  { subst severity others. rewrite predict_severity_score.
    rewrite (Py.get_lookup _ _ _ _ Hscores), (Py.get_lookup _ _ _ _ Hvalue).
    reflexivity. }
  clearbody others. subst factors severity.
  unfold ClinicalScorer.calculate_shock_index in Hr. fold hr sbp in Hr.
  cbv zeta in Hr. rewrite (ClinicalScorer.truediv_guarded hr sbp Hbound) in Hr.
  fold q in Hr.
  cbn [mbind option_bind] in Hr. injection Hr as <-.
  cbn [ClinicalScorer.si_value ClinicalScorer.si_interpretation
       ClinicalScorer.si_recommendation] in *.
  clearbody q. clear Hbound hr sbp.
  assert (Hb : Py.Qltb 1.0 (Py.round2 q) = true ↔ (1 < Py.round2 q)%Q).
  { rewrite Py.Qltb_lt. generalize (Py.round2 q). intros x. split; lra. }
  assert (Hin : "Shock State" ∈
            sev_contributing_factors (predict_severity vitals symptoms scores)
            ↔ (1 < Py.round2 q)%Q).
  { rewrite predict_severity_factors.
    rewrite (Py.get_lookup _ _ _ _ Hscores), (Py.get_lookup _ _ _ _ Hvalue).
    rewrite <- Hb.
    destruct (Py.Qltb 1.0 (Py.round2 q)).
    - split; [reflexivity|]. intros _. rewrite !elem_of_app. do 6 right.
      apply list_elem_of_singleton. reflexivity.
    - split; [|discriminate]. rewrite !elem_of_app.
      intros H. exfalso.
      repeat (destruct H as [H|H];
              [repeat (match type of H with
                       | _ ∈ (if ?b then _ else _) => destruct b
                       end);
               (apply list_elem_of_singleton in H; discriminate H) ||
               (apply elem_of_nil in H; exact H)|]).
      apply elem_of_nil in H. exact H. }
  assert (Hshock : (1 < q)%Q →
            (if Py.Qltb 1.0 q then "Shock State"
             else if Py.Qltb 0.9 q then "Pre-Shock / Compensated"
                  else "Normal") = "Shock State" ∧
            (if Py.Qltb 1.0 q then "Immediate Resuscitation" else "Monitor")
              = "Immediate Resuscitation").
  { intros H. assert (H' : (1.0 < q)%Q) by lra.
    apply Py.Qltb_lt in H'. rewrite H'. split; reflexivity. }
  split; [exact Hin|]. split; [|split; [|split]].
  - intros H. apply Hin, Hb in H. rewrite Hscore.
    unfold shock_index_points. rewrite H. reflexivity.
  - intros H. rewrite Hscore. unfold shock_index_points.
    destruct (Py.Qltb 1.0 (Py.round2 q)) eqn:E.
    + exfalso. apply H, Hin, Hb. reflexivity.
    + rewrite Z.add_0_r. reflexivity.
  - intros H. apply Hin, round2_above_one in H.
    split; [exact H|]. apply Hshock. lra.
  - intros H1 H2. destruct (Hshock H1) as [Hi Hrec].
    split; [exact Hi|]. split; [exact Hrec|].
    rewrite Hin. apply round2_at_most_one in H2. lra.
Qed.

Definition vitals_hr251_sbp250 : gmap string Z :=
  <["heart_rate" := 251]> (<["blood_pressure_systolic" := 250]> ∅).

Lemma shock_state_factor_needs_rounded_value_above_one_witness :
  "Shock State" ∉
    sev_contributing_factors
      (predict_severity vitals_hr251_sbp250 ∅
         (<["shock_index" := <["value" := (100 # 100)%Q]> ∅]> ∅)).
Proof.
  pose proof
    (shock_state_factor_needs_rounded_value_above_one
       vitals_hr251_sbp250 ∅
       (<["shock_index" := <["value" := (100 # 100)%Q]> ∅]> ∅)
       (<["value" := (100 # 100)%Q]> ∅)
       {| ClinicalScorer.si_value := 100 # 100;
          ClinicalScorer.si_interpretation := "Shock State";
          ClinicalScorer.si_normal_range := "0.5-0.7";
          ClinicalScorer.si_recommendation := "Immediate Resuscitation" |})
    as H.
  cbv zeta in H.
  destruct H as (_ & _ & _ & _ & H).
  - split; vm_compute; discriminate.
  - vm_compute. reflexivity.
  - reflexivity.
  - reflexivity.
  - apply H; vm_compute; reflexivity.
Defined.

End AITriagePredictor.

(** ** Regular expressions

    The fragment of Python's [re] in which the PII patterns are
    written: character classes, greedy repetition of a class, the word
    boundary, concatenation and alternation.  A text is the list of
    its characters, taken to be ASCII; positions count characters.
    The matcher backtracks the way [re] does: a repetition takes as
    many characters as it can and gives them back one at a time, an
    alternation tries its branches from left to right. *)

Module Regex.

Local Open Scope nat_scope.

Definition charclass := ascii → bool.

Inductive regex :=
| Eps
| Chr (p : charclass)
| Rep (p : charclass) (lo : nat) (hi : option nat)
| Bnd
| Seq (r1 r2 : regex)
| Alt (r1 r2 : regex).

Definition in_range (lo hi c : ascii) : bool :=
  (nat_of_ascii lo <=? nat_of_ascii c) && (nat_of_ascii c <=? nat_of_ascii hi).

Definition one_of (s : string) (c : ascii) : bool :=
  existsb (Ascii.eqb c) (list_ascii_of_string s).

(** [\d], [a-z], [A-Z], [\w] and [\s] on ASCII characters. *)
Definition is_digit : charclass := in_range "0" "9".
Definition is_lower : charclass := in_range "a" "z".
Definition is_upper : charclass := in_range "A" "Z".
Definition is_word : charclass :=
  λ c, is_upper c || is_lower c || is_digit c || Ascii.eqb c "_".
Definition is_space : charclass :=
  λ c, in_range "009" "013" c || in_range "028" "032" c.

(** The texts on which the classes above are Python's.  In a [str]
    pattern [\d], [\w], [\s] and the word boundary also take the
    digits, letters and spaces beyond ASCII, and a [str] is indexed by
    code points where a text here is a list of bytes.  On a text of
    ASCII characters alone the classes, the positions and the lengths
    coincide, and the statements about matches are made for such
    texts. *)
Definition is_ascii : charclass := in_range "000" "127".

Definition ascii_text (text : string) : bool :=
  forallb is_ascii (list_ascii_of_string text).

(** The characters of [string.punctuation]. *)
Definition is_punctuation : charclass :=
  λ c, in_range "!" "/" c || in_range ":" "@" c || in_range "[" "`" c ||
       in_range "{" "~" c.

Fixpoint literal (s : string) : regex :=
  match s with
  | EmptyString => Eps
  | String c s' => Seq (Chr (Ascii.eqb c)) (literal s')
  end.

Definition sequence (rs : list regex) : regex := foldr Seq Eps rs.

Fixpoint alternatives (rs : list regex) : regex :=
  match rs with
  | [] => Eps
  | [r] => r
  | r :: rs' => Alt r (alternatives rs')
  end.

Definition word_at (text : list ascii) (i : nat) : bool :=
  match text !! i with Some c => is_word c | None => false end.

(** [\b] holds at [i] when exactly one of the characters before and
    after position [i] is a word character. *)
Definition at_boundary (text : list ascii) (i : nat) : bool :=
  xorb (match i with 0 => false | S j => word_at text j end) (word_at text i).

(** The number of consecutive characters of class [p] from position
    [i] on, at most [limit]. *)
Fixpoint run (p : charclass) (text : list ascii) (i limit : nat) : nat :=
  match limit with
  | 0 => 0
  | S limit' =>
      match text !! i with
      | Some c => if p c then S (run p text (S i) limit') else 0
      | None => 0
      end
  end.

(** Greedy repetition: continue after [n] repetitions, then after
    [n - 1], ... down to [lo]. *)
Fixpoint try_down (k : nat → option nat) (i lo n : nat) : option nat :=
  if n <? lo then None
  else match k (i + n) with
       | Some e => Some e
       | None => match n with 0 => None | S m => try_down k i lo m end
       end.

(** [bt r text i k]: match [r] from position [i] and hand the end
    position to the continuation [k]; [None] when every way of
    matching [r] makes [k] fail. *)
Fixpoint bt (r : regex) (text : list ascii) (i : nat)
    (k : nat → option nat) : option nat :=
  match r with
  | Eps => k i
  | Chr p =>
      match text !! i with
      | Some c => if p c then k (S i) else None
      | None => None
      end
  | Rep p lo hi =>
      try_down k i lo (run p text i (default (length text) hi))
  | Bnd => if at_boundary text i then k i else None
  | Seq r1 r2 => bt r1 text i (λ j, bt r2 text j k)
  | Alt r1 r2 =>
      match bt r1 text i k with
      | Some e => Some e
      | None => bt r2 text i k
      end
  end.

(** The end of the match of [r] that starts at position [i]. *)
Definition match_at (r : regex) (text : list ascii) (i : nat) : option nat :=
  bt r text i Some.

(** The scan of [re.finditer]: the leftmost match from the current
    position, then on from its end.  [next] is the position the scan
    has reached.  An empty match moves it one character on; no PII
    pattern has one ([pii_patterns_consume] below). *)
Fixpoint scan (r : regex) (text : list ascii) (positions : list nat)
    (next : nat) : list (nat * nat) :=
  match positions with
  | [] => []
  | i :: rest =>
      if i <? next then scan r text rest next
      else match match_at r text i with
           | Some e => (i, e) :: scan r text rest (if e =? i then S i else e)
           | None => scan r text rest next
           end
  end.

(** The spans [(m.start(), m.end())] of [re.finditer(r, text)]. *)
Definition finditer (r : regex) (text : list ascii) : list (nat * nat) :=
  scan r text (seq 0 (S (length text))) 0.

(** *** Facts about the matcher *)



(** [class_sub p q]: every character of class [p] is of class [q]. *)
Definition class_sub (p q : charclass) : bool :=
  forallb (λ n, implb (p (ascii_of_nat n)) (q (ascii_of_nat n))) (seq 0 256).

(** [needs q r]: every match of [r] contains a character of class
    [q]; a syntactic sufficient condition. *)
Fixpoint needs (q : charclass) (r : regex) : bool :=
  match r with
  | Eps | Bnd => false
  | Chr p => class_sub p q
  | Rep p lo _ => (0 <? lo) && class_sub p q
  | Seq r1 r2 => needs q r1 || needs q r2
  | Alt r1 r2 => needs q r1 && needs q r2
  end.

Lemma class_sub_sound (p q : charclass) (c : ascii) :
  class_sub p q = true → p c = true → q c = true.
Proof.
  unfold class_sub. rewrite forallb_forall. intros H Hp.
  assert (Hin : In (nat_of_ascii c) (seq 0 256)).
  { apply in_seq. pose proof (nat_ascii_bounded c). lia. }
  apply H in Hin. rewrite ascii_nat_embedding, Hp in Hin. exact Hin.
Qed.

Lemma try_down_fails (k : nat → option nat) (i lo n : nat) :
  (∀ j, k j = None) → try_down k i lo n = None.
Proof.
  intros Hk. induction n as [|n IH]; simpl.
  - destruct (0 <? lo); [reflexivity|]. rewrite Hk. reflexivity.
  - destruct (S n <? lo); [reflexivity|]. rewrite Hk. exact IH.
Qed.

Lemma bt_fails (r : regex) (text : list ascii) :
  ∀ i k, (∀ j, k j = None) → bt r text i k = None.
Proof.
  induction r as [|p|p lo hi| |r1 IH1 r2 IH2|r1 IH1 r2 IH2];
    intros i k Hk; simpl.
  - apply Hk.
  - destruct (text !! i) as [c|]; [|reflexivity].
    destruct (p c); [apply Hk | reflexivity].
  - apply try_down_fails, Hk.
  - destruct (at_boundary text i); [apply Hk | reflexivity].
  - apply IH1. intros j. apply IH2, Hk.
  - rewrite IH1 by exact Hk. apply IH2, Hk.
Qed.

Lemma run_none (p : charclass) (text : list ascii) (i limit : nat) :
  (∀ c, c ∈ text → p c = false) → run p text i limit = 0.
Proof.
  intros Hp. destruct limit as [|limit]; simpl; [reflexivity|].
  destruct (text !! i) as [c|] eqn:Hc; [|reflexivity].
  rewrite (Hp c); [reflexivity|]. eapply list_elem_of_lookup_2, Hc.
Qed.

Lemma bt_needs (q : charclass) (r : regex) (text : list ascii) :
  needs q r = true → (∀ c, c ∈ text → q c = false) →
  ∀ i k, bt r text i k = None.
Proof.
  intros Hn Hq. induction r as [|p|p lo hi| |r1 IH1 r2 IH2|r1 IH1 r2 IH2];
    simpl in Hn; intros i k; simpl; try discriminate.
  - destruct (text !! i) as [c|] eqn:Hc; [|reflexivity].
    destruct (p c) eqn:Hpc; [|reflexivity].
    pose proof (class_sub_sound p q c Hn Hpc) as Hqc.
    pose proof (Hq c (list_elem_of_lookup_2 _ _ _ Hc)). congruence.
  - apply andb_true_iff in Hn as [Hlo Hsub].
    rewrite run_none.
    + simpl. rewrite Hlo. reflexivity.
    + intros c Hc. destruct (p c) eqn:Hpc; [|reflexivity].
      rewrite <- (Hq c Hc). symmetry. exact (class_sub_sound p q c Hsub Hpc).
  - apply orb_true_iff in Hn as [Hn|Hn].
    + apply IH1, Hn.
    + apply bt_fails. intros j. apply IH2, Hn.
  - apply andb_true_iff in Hn as [Hn1 Hn2].
    rewrite IH1 by exact Hn1. apply IH2, Hn2.
Qed.

Lemma scan_no_match (r : regex) (text : list ascii) :
  (∀ i, match_at r text i = None) →
  ∀ positions next, scan r text positions next = [].
Proof.
  intros Hm positions. induction positions as [|i rest IH]; intros next; simpl.
  - reflexivity.
  - rewrite Hm. destruct (i <? next); apply IH.
Qed.

Lemma finditer_needs (q : charclass) (r : regex) (text : list ascii) :
  needs q r = true → (∀ c, c ∈ text → q c = false) → finditer r text = [].
Proof.
  intros Hn Hq. apply scan_no_match. intros i. apply (bt_needs q); assumption.
Qed.

(** The least number of characters a match of [r] spans. *)
Fixpoint min_len (r : regex) : nat :=
  match r with
  | Eps | Bnd => 0
  | Chr _ => 1
  | Rep _ lo _ => lo
  | Seq r1 r2 => min_len r1 + min_len r2
  | Alt r1 r2 => Nat.min (min_len r1) (min_len r2)
  end.

Lemma try_down_some (k : nat → option nat) (i lo n e : nat) :
  try_down k i lo n = Some e → ∃ m, lo ≤ m ∧ k (i + m) = Some e.
Proof.
  induction n as [|n IH]; simpl.
  - destruct (Nat.ltb_spec 0 lo); [discriminate|].
    destruct (k (i + 0)) eqn:E; [|discriminate].
    intros [= <-]. exists 0. split; [lia | exact E].
  - destruct (Nat.ltb_spec (S n) lo); [discriminate|].
    destruct (k (i + S n)) eqn:E; [|exact IH].
    intros [= <-]. exists (S n). split; [lia | exact E].
Qed.

Lemma bt_advances (r : regex) (text : list ascii) :
  ∀ i k e, bt r text i k = Some e →
           ∃ j, i + min_len r ≤ j ∧ k j = Some e.
Proof.
  induction r as [|p|p lo hi| |r1 IH1 r2 IH2|r1 IH1 r2 IH2];
    intros i k e; simpl.
  - intros H. exists i. split; [lia | exact H].
  - destruct (text !! i) as [c|]; [|discriminate].
    destruct (p c); [|discriminate].
    intros H. exists (S i). split; [lia | exact H].
  - intros H. apply try_down_some in H as (m & Hm & H).
    exists (i + m). split; [lia | exact H].
  - destruct (at_boundary text i); [|discriminate].
    intros H. exists i. split; [lia | exact H].
  - intros H. apply IH1 in H as (j1 & Hj1 & H).
    apply IH2 in H as (j2 & Hj2 & H).
    exists j2. split; [lia | exact H].
  - destruct (bt r1 text i k) as [e1|] eqn:E1.
    + intros [= <-]. apply IH1 in E1 as (j & Hj & H).
      exists j. split; [lia | exact H].
    + intros H. apply IH2 in H as (j & Hj & H).
      exists j. split; [lia | exact H].
Qed.

Lemma match_at_advances (r : regex) (text : list ascii) (i e : nat) :
  match_at r text i = Some e → i + min_len r ≤ e.
Proof.
  intros H. apply bt_advances in H as (j & Hj & [= <-]). exact Hj.
Qed.

(** *** Matches lie within the text and do not overlap *)

Lemma run_bound (p : charclass) (text : list ascii) (limit i : nat) :
  i ≤ length text → i + run p text i limit ≤ length text.
Proof.
  revert i. induction limit as [|limit IH]; intros i Hi; simpl; [lia|].
  destruct (text !! i) as [c|] eqn:Hc; [|lia].
  destruct (p c); [|lia].
  apply lookup_lt_Some in Hc.
  specialize (IH (S i) ltac:(lia)). lia.
Qed.

Lemma try_down_range (k : nat → option nat) (i lo n e : nat) :
  try_down k i lo n = Some e → ∃ m, lo ≤ m ≤ n ∧ k (i + m) = Some e.
Proof.
  induction n as [|n IH]; simpl.
  - destruct (Nat.ltb_spec 0 lo) as [Hlo|Hlo]; [discriminate|].
    destruct (k (i + 0)) eqn:E; [|discriminate].
    intros [= <-]. exists 0. split; [lia | exact E].
  - destruct (Nat.ltb_spec (S n) lo) as [Hlo|Hlo]; [discriminate|].
    destruct (k (i + S n)) eqn:E.
    + intros [= <-]. exists (S n). split; [lia | exact E].
    + intros Hd. apply IH in Hd as (m & Hm & Hd).
      exists m. split; [lia | exact Hd].
Qed.

Lemma bt_bounded (r : regex) (text : list ascii) :
  ∀ i k e, i ≤ length text → bt r text i k = Some e →
           ∃ j, i ≤ j ≤ length text ∧ k j = Some e.
Proof.
  induction r as [|p|p lo hi| |r1 IH1 r2 IH2|r1 IH1 r2 IH2];
    intros i k e Hi; simpl.
  - intros H. exists i. split; [lia | exact H].
  - destruct (text !! i) as [c|] eqn:Hc; [|discriminate].
    destruct (p c); [|discriminate].
    apply lookup_lt_Some in Hc.
    intros H. exists (S i). split; [lia | exact H].
  - intros H. apply try_down_range in H as (m & Hm & H).
    pose proof (run_bound p text (default (length text) hi) i Hi).
    exists (i + m). split; [lia | exact H].
  - destruct (at_boundary text i); [|discriminate].
    intros H. exists i. split; [lia | exact H].
  - intros H. apply IH1 in H as (j1 & Hj1 & H); [|exact Hi].
    apply IH2 in H as (j2 & Hj2 & H); [|lia].
    exists j2. split; [lia | exact H].
  - destruct (bt r1 text i k) as [e1|] eqn:E1.
    + intros [= <-]. apply IH1 in E1 as (j & Hj & H); [|exact Hi].
      exists j. split; [lia | exact H].
    + intros H. apply IH2 in H as (j & Hj & H); [|exact Hi].
      exists j. split; [lia | exact H].
Qed.

Lemma match_at_bounded (r : regex) (text : list ascii) (i e : nat) :
  i ≤ length text → match_at r text i = Some e → i ≤ e ≤ length text.
Proof.
  intros Hi H. apply bt_bounded in H as (j & Hj & [= <-]); [exact Hj | exact Hi].
Qed.

(** Spans in scan order: each starts at or after [next] and at or
    after the end of the one before it, and ends within [bound]. *)
Fixpoint chained (next bound : nat) (spans : list (nat * nat)) : Prop :=
  match spans with
  | [] => True
  | (s, e) :: rest => next ≤ s ∧ s ≤ e ∧ e ≤ bound ∧ chained e bound rest
  end.

Lemma chained_weaken (next next' bound : nat) (spans : list (nat * nat)) :
  next' ≤ next → chained next bound spans → chained next' bound spans.
Proof.
  destruct spans as [|[s e] rest]; simpl; [tauto|].
  intros Hle (H1 & H2 & H3 & H4). repeat split; try assumption. lia.
Qed.

Lemma scan_chained (r : regex) (text : list ascii) (positions : list nat) :
  ∀ next, Forall (λ i, i ≤ length text) positions →
          chained next (length text) (scan r text positions next).
Proof.
  induction positions as [|i rest IH]; intros next Hpos; simpl; [exact I|].
  apply Forall_cons in Hpos as [Hi Hrest].
  destruct (Nat.ltb_spec i next) as [Hlt|Hge]; [apply IH, Hrest|].
  destruct (match_at r text i) as [e|] eqn:Hm; [|apply IH, Hrest].
  apply match_at_bounded in Hm as [Hie Hel]; [|exact Hi].
  simpl. repeat split; try assumption.
  destruct (Nat.eqb_spec e i) as [->|Hne].
  - apply chained_weaken with (S i); [lia | apply IH, Hrest].
  - apply IH, Hrest.
Qed.

Lemma finditer_chained (r : regex) (text : list ascii) :
  chained 0 (length text) (finditer r text).
Proof.
  apply scan_chained. apply Forall_forall. intros i Hi.
  apply elem_of_seq in Hi. lia.
Qed.

Lemma chained_spans (next bound : nat) (spans : list (nat * nat)) :
  chained next bound spans →
  Forall (λ m, next ≤ m.1 ∧ m.1 ≤ m.2 ∧ m.2 ≤ bound) spans.
Proof.
  revert next. induction spans as [|[s e] rest IH]; intros next; simpl.
  - intros _. apply Forall_nil. exact I.
  - intros (H1 & H2 & H3 & H4). apply Forall_cons. split; [simpl; lia|].
    eapply Forall_impl; [apply (IH e), H4|].
    intros [s' e'] (Ha & Hb & Hc). simpl in *. lia.
Qed.

Lemma scan_matches (r : regex) (text : list ascii) (positions : list nat) :
  ∀ next, Forall (λ m, match_at r text m.1 = Some m.2)
                 (scan r text positions next).
Proof.
  induction positions as [|i rest IH]; intros next; simpl.
  - apply Forall_nil. exact I.
  - destruct (i <? next); [apply IH|].
    destruct (match_at r text i) as [e|] eqn:Hm; [|apply IH].
    apply Forall_cons. split; [exact Hm | apply IH].
Qed.

End Regex.

(** ** Python dictionaries as objects in a store

    [redact_dict] copies the dictionary it is given and then assigns
    into the copy; whether the caller's dictionary stays as it was is
    a question about object identity, so dictionaries live in a store
    and are passed by reference. *)

Module PyHeap.

Abbreviation loc := nat.

Inductive pyval :=
| VNone
| VBool (b : bool)
| VInt (z : Z)
| VFloat (q : Q)
| VStr (s : string)
| VRef (l : loc).

(** The store of dictionary objects, by identity. *)
Abbreviation heap := (gmap loc (gmap string pyval)).

(** Computations that read and write the store and may raise. *)
Definition M (A : Type) : Type := heap → option (A * heap).

Definition ret {A : Type} (x : A) : M A := λ h, Some (x, h).

Definition bind {A B : Type} (m : M A) (f : A → M B) : M B :=
  λ h, match m h with Some (x, h') => f x h' | None => None end.

(** [d.copy()]: a new object with the same entries (a shallow copy). *)
Definition dict_copy (l : loc) : M loc :=
  λ h, match h !! l with
       | Some d => let l' := fresh (dom h) in Some (l', <[l' := d]> h)
       | None => None
       end.

(** [k in d] *)
Definition dict_contains (l : loc) (k : string) : M bool :=
  λ h, match h !! l with
       | Some d => Some (bool_decide (is_Some (d !! k)), h)
       | None => None
       end.

(** [d[k]] *)
Definition dict_getitem (l : loc) (k : string) : M pyval :=
  λ h, match h !! l with
       | Some d => match d !! k with Some v => Some (v, h) | None => None end
       | None => None
       end.

(** [d[k] = v] *)
Definition dict_setitem (l : loc) (k : string) (v : pyval) : M unit :=
  λ h, match h !! l with
       | Some d => Some (tt, <[l := <[k := v]> d]> h)
       | None => None
       end.

(** [for x in xs: body(x)] *)
Fixpoint for_each {A : Type} (xs : list A) (body : A → M unit) : M unit :=
  match xs with
  | [] => ret tt
  | x :: xs' => bind (body x) (λ _, for_each xs' body)
  end.

Lemma bind_some {A B : Type} (m : M A) (f : A → M B) (h h' : heap) (x : A) :
  m h = Some (x, h') → bind m f h = f x h'.
Proof. intros E. unfold bind. rewrite E. reflexivity. Qed.

End PyHeap.

Declare Scope pyheap_scope.
Delimit Scope pyheap_scope with py.
Notation "x ← m ; k" := (PyHeap.bind m (λ x, k))
  (at level 20, m at level 100, k at level 200, only parsing) : pyheap_scope.
Notation "m ;; k" := (PyHeap.bind m (λ _, k))
  (at level 100, k at level 200, right associativity, only parsing)
  : pyheap_scope.

(** ** utils/aparavi_redactor.py *)

Module AparaviRedactor.
Import Regex PyHeap.
Local Open Scope nat_scope.

(** *** [pii_patterns] *)

(** [\b\d{3}-\d{2}-\d{4}\b] *)
Definition SSN : regex :=
  sequence [Bnd; Rep is_digit 3 (Some 3); Chr (Ascii.eqb "-");
            Rep is_digit 2 (Some 2); Chr (Ascii.eqb "-");
            Rep is_digit 4 (Some 4); Bnd].

(** [\b\d{3}[-.]?\d{3}[-.]?\d{4}\b] *)
Definition PHONE : regex :=
  sequence [Bnd; Rep is_digit 3 (Some 3); Rep (one_of "-.") 0 (Some 1);
            Rep is_digit 3 (Some 3); Rep (one_of "-.") 0 (Some 1);
            Rep is_digit 4 (Some 4); Bnd].

(** [\b[A-Za-z0-9._%+-]+@[A-Za-z0-9.-]+\.[A-Z|a-z]{2,}\b]; the last
    class is written with a [|] in the source, which makes the bar one
    of its characters. *)
Definition EMAIL : regex :=
  sequence [Bnd;
            Rep (λ c, is_upper c || is_lower c || is_digit c ||
                      one_of "._%+-" c) 1 None;
            Chr (Ascii.eqb "@");
            Rep (λ c, is_upper c || is_lower c || is_digit c ||
                      one_of ".-" c) 1 None;
            Chr (Ascii.eqb ".");
            Rep (λ c, is_upper c || Ascii.eqb c "|" || is_lower c) 2 None;
            Bnd].

(** [\b[A-Z][a-z]+ [A-Z][a-z]+\b] *)
Definition NAME : regex :=
  sequence [Bnd; Chr is_upper; Rep is_lower 1 None; Chr (Ascii.eqb " ");
            Chr is_upper; Rep is_lower 1 None; Bnd].

(** [\b\d{1,5}\s\w+\s(Street|St|Avenue|...|Drive|Dr)\b] *)
Definition ADDRESS : regex :=
  sequence [Bnd; Rep is_digit 1 (Some 5); Chr is_space; Rep is_word 1 None;
            Chr is_space;
            alternatives (literal <$>
              ["Street"; "St"; "Avenue"; "Ave"; "Road"; "Rd"; "Boulevard";
               "Blvd"; "Lane"; "Ln"; "Drive"; "Dr"]);
            Bnd].

(** The dictionary in insertion order, the order [items()] yields. *)
Definition pii_patterns : list (string * regex) :=
  [("SSN", SSN); ("PHONE", PHONE); ("EMAIL", EMAIL); ("NAME", NAME);
   ("ADDRESS", ADDRESS)].

Record PIIEntity := {
  pii_type : string;
  pii_text : string;
  pii_start : nat;
  pii_end : nat;
  pii_confidence : Q
}.

(** The dictionary appended for one match object. *)
Definition entity_of_match (text : list ascii) (pii_type : string)
    (m : nat * nat) : PIIEntity :=
  {| pii_type := pii_type;
     pii_text := string_of_list_ascii (take (m.2 - m.1) (drop m.1 text));
     pii_start := m.1;
     pii_end := m.2;
     pii_confidence := 0.95 |}.

Definition detect_chars (text : list ascii) : list PIIEntity :=
  flat_map
    (λ '(pii_type, pattern),
       entity_of_match text pii_type <$> finditer pattern text)
    pii_patterns.

Definition _detect_pii_locally (text : string) : list PIIEntity :=
  detect_chars (list_ascii_of_string text).

Definition replacements : gmap string string :=
  list_to_map [("SSN", "[SSN-REDACTED]"); ("PHONE", "[PHONE]");
               ("EMAIL", "[EMAIL]"); ("NAME", "[PATIENT]");
               ("ADDRESS", "[LOCATION]")].

Definition _get_replacement (pii_type : string) : string :=
  Py.get replacements pii_type "[REDACTED]".

(** [detected_pii.sort(key=lambda x: x['start'], reverse=True)]: a
    stable sort, descending; entities with the same start keep their
    order. *)
Fixpoint insert_desc (x : PIIEntity) (l : list PIIEntity) : list PIIEntity :=
  match l with
  | [] => [x]
  | y :: l' =>
      if pii_start x <? pii_start y then y :: insert_desc x l'
      else x :: y :: l'
  end.

Definition sort_by_start_desc (l : list PIIEntity) : list PIIEntity :=
  foldr insert_desc [] l.

(** [redacted_text[:start] + replacement + redacted_text[end:]] *)
Definition splice (redacted_text : list ascii) (entity : PIIEntity)
  : list ascii :=
  (take (pii_start entity) redacted_text ++
   list_ascii_of_string (_get_replacement (pii_type entity)) ++
   drop (pii_end entity) redacted_text)%list.

Definition redact_text (text : string) : string :=
  if String.eqb text "" then text
  else
    let detected_pii := _detect_pii_locally text in
    let detected_pii := sort_by_start_desc detected_pii in
    string_of_list_ascii
      (foldl splice (list_ascii_of_string text) detected_pii).

Definition text_fields : list string :=
  ["voice_note"; "emt_name"; "patient_name"; "notes"; "description";
   "comment"; "message"].

Definition redact_dict (data : loc) : M loc :=
  (redacted_data ← dict_copy data;
   for_each text_fields (λ field,
     present ← dict_contains redacted_data field;
     if present then
       v ← dict_getitem redacted_data field;
       match v with
       | VStr s => dict_setitem redacted_data field (VStr (redact_text s))
       | _ => ret tt
       end
     else ret tt) ;;
   has_patient_ssn ← dict_contains redacted_data "patient_ssn";
   (if has_patient_ssn
    then dict_setitem redacted_data "patient_ssn" (VStr "[SSN-REDACTED]")
    else ret tt) ;;
   has_ssn ← dict_contains redacted_data "ssn";
   (if has_ssn
    then dict_setitem redacted_data "ssn" (VStr "[SSN-REDACTED]")
    else ret tt) ;;
   ret redacted_data)%py.

Definition critical_types : list string := ["SSN"; "PHONE"; "EMAIL"].

(** The loop of [is_hipaa_compliant], with its early [return False]. *)
Fixpoint hipaa_loop (detected_pii : list PIIEntity) : bool :=
  match detected_pii with
  | [] => true
  | entity :: rest =>
      if bool_decide (pii_type entity ∈ critical_types) &&
         Py.Qltb 0.7 (pii_confidence entity)
      then false
      else hipaa_loop rest
  end.

Definition is_hipaa_compliant (text : string) : bool :=
  hipaa_loop (_detect_pii_locally text).

Record RiskAnalysis := {
  risk_level : string;
  pii_count : nat;
  pii_types : gset string;
  hipaa_compliant : bool;
  detected_entities : list PIIEntity
}.

Definition analyze_pii_risk (text : string) : RiskAnalysis :=
  let detected_pii := _detect_pii_locally text in
  let risk_level := "LOW" in
  let risk_level :=
    if 0 <? length detected_pii then "MEDIUM" else risk_level in
  let risk_level :=
    if existsb (λ e, bool_decide (pii_type e ∈ ["SSN"; "PHONE"])) detected_pii
    then "HIGH" else risk_level in
  {| risk_level := risk_level;
     pii_count := length detected_pii;
     pii_types := list_to_set (pii_type <$> detected_pii);
     hipaa_compliant := is_hipaa_compliant text;
     detected_entities := detected_pii |}.

(** *** Vocabulary of the statements *)


Definition has_match (r : regex) (text : string) : bool :=
  match finditer r (list_ascii_of_string text) with [] => false | _ => true end.

(** The placeholder tokens the redactor writes. *)
Definition placeholder_tokens : list string :=
  ["[SSN-REDACTED]"; "[PHONE]"; "[EMAIL]"; "[PATIENT]"; "[LOCATION]";
   "[REDACTED]"].

Definition is_separator : charclass := λ c, is_space c || is_punctuation c.

(** A text made of placeholder tokens and separator characters only. *)
Inductive piece :=
| Token (t : string)
| Sep (c : ascii).

Definition piece_ok (sep : charclass) (p : piece) : Prop :=
  match p with
  | Token t => In t placeholder_tokens
  | Sep c => sep c = true
  end.

Definition render (pieces : list piece) : string :=
  foldr (λ p s, match p with
                | Token t => String.append t s
                | Sep c => String c s
                end) "" pieces.

Definition placeholder_text (sep : charclass) (text : string) : Prop :=
  ∃ pieces, Forall (piece_ok sep) pieces ∧ text = render pieces.

(** [needle in hay] *)
Fixpoint contains (needle hay : string) : bool :=
  String.prefix needle hay ||
  match hay with
  | EmptyString => false
  | String _ hay' => contains needle hay'
  end.

(** A character none of the five patterns can match without: no
    digit, no lower-case letter, no at sign. *)
Definition inert (c : ascii) : bool :=
  negb (is_digit c) && negb (is_lower c) && negb (Ascii.eqb c "@").

(** *** Detection, risk level and compliance *)

Lemma length_list_ascii_of_string (s : string) :
  length (list_ascii_of_string s) = String.length s.
Proof.
  induction s as [|c s IH]; simpl; [reflexivity | rewrite IH; reflexivity].
Qed.



Lemma detect_unfold (text : list ascii) :
  detect_chars text =
    ((entity_of_match text "SSN" <$> finditer SSN text) ++
     (entity_of_match text "PHONE" <$> finditer PHONE text) ++
     (entity_of_match text "EMAIL" <$> finditer EMAIL text) ++
     (entity_of_match text "NAME" <$> finditer NAME text) ++
     (entity_of_match text "ADDRESS" <$> finditer ADDRESS text))%list.
Proof. unfold detect_chars. simpl. rewrite app_nil_r. reflexivity. Qed.

Lemma existsb_entities (f : PIIEntity → bool) (text : list ascii)
    (ty : string) (b : bool) (l : list (nat * nat)) :
  (∀ m, f (entity_of_match text ty m) = b) →
  existsb f (entity_of_match text ty <$> l) =
    match l with [] => false | _ => b end.
Proof.
  intros Hf. induction l as [|m l IH]; [reflexivity|].
  rewrite fmap_cons. cbn [existsb]. rewrite Hf, IH.
  destruct b, l; reflexivity.
Qed.

Lemma hipaa_loop_existsb (l : list PIIEntity) :
  hipaa_loop l =
    negb (existsb (λ e, bool_decide (pii_type e ∈ critical_types) &&
                        Py.Qltb 0.7 (pii_confidence e)) l).
Proof.
  induction l as [|e l IH]; simpl; [reflexivity|].
  destruct (bool_decide _ && _); [reflexivity | exact IH].
Qed.

Lemma risk_level_by_matches (text : string) :
  risk_level (analyze_pii_risk text) =
    if has_match SSN text || has_match PHONE text then "HIGH"
    else if has_match EMAIL text || has_match NAME text ||
            has_match ADDRESS text then "MEDIUM"
    else "LOW".
Proof.
  unfold analyze_pii_risk, _detect_pii_locally, has_match. simpl.
  rewrite detect_unfold, !existsb_app, !length_app, !length_fmap.
  rewrite (existsb_entities _ _ "SSN" true) by reflexivity.
  rewrite (existsb_entities _ _ "PHONE" true) by reflexivity.
  rewrite (existsb_entities _ _ "EMAIL" false) by reflexivity.
  rewrite (existsb_entities _ _ "NAME" false) by reflexivity.
  rewrite (existsb_entities _ _ "ADDRESS" false) by reflexivity.
  destruct (finditer SSN _), (finditer PHONE _), (finditer EMAIL _),
    (finditer NAME _), (finditer ADDRESS _); simpl; try reflexivity.
  all: rewrite ?Nat.add_succ_r; reflexivity.
Qed.

Lemma is_hipaa_compliant_by_matches (text : string) :
  is_hipaa_compliant text =
    negb (has_match SSN text || has_match PHONE text || has_match EMAIL text).
Proof.
  unfold is_hipaa_compliant, _detect_pii_locally, has_match.
  rewrite hipaa_loop_existsb, detect_unfold, !existsb_app.
  rewrite (existsb_entities _ _ "SSN" true) by reflexivity.
  rewrite (existsb_entities _ _ "PHONE" true) by reflexivity.
  rewrite (existsb_entities _ _ "EMAIL" true) by reflexivity.
  rewrite (existsb_entities _ _ "NAME" false) by reflexivity.
  rewrite (existsb_entities _ _ "ADDRESS" false) by reflexivity.
  destruct (finditer SSN _), (finditer PHONE _), (finditer EMAIL _),
    (finditer NAME _), (finditer ADDRESS _); reflexivity.
Qed.




Lemma pii_patterns_consume (pii_type : string) (pattern : regex)
    (text : list ascii) (i e : nat) :
  In (pii_type, pattern) pii_patterns →
  match_at pattern text i = Some e → i < e.
Proof.
  intros Hin Hm. apply match_at_advances in Hm.
  assert (Hlen : 1 ≤ min_len pattern).
  { unfold pii_patterns in Hin. simpl in Hin.
    repeat (destruct Hin as [[= <- <-]|Hin]; [vm_compute; lia|]).
    destruct Hin. }
  lia.
Qed.

(** *** Redaction of texts *)

Lemma redact_text_no_entities (text : string) :
  _detect_pii_locally text = [] → redact_text text = text.
Proof.
  intros H. unfold redact_text. rewrite H. simpl.
  destruct (String.eqb text ""); [reflexivity|].
  apply string_of_list_ascii_of_string.
Qed.

Lemma patterns_need_pii_characters :
  needs is_digit SSN = true ∧ needs is_digit PHONE = true ∧
  needs (Ascii.eqb "@") EMAIL = true ∧ needs is_lower NAME = true ∧
  needs is_digit ADDRESS = true.
Proof. vm_compute. repeat split. Qed.

Lemma detect_inert (text : list ascii) :
  (∀ c, c ∈ text → inert c = true) → detect_chars text = [].
Proof.
  intros Hinert.
  assert (Hdigit : ∀ c, c ∈ text → is_digit c = false).
  { intros c Hc. apply Hinert in Hc. unfold inert in Hc.
    destruct (is_digit c); [discriminate | reflexivity]. }
  assert (Hlower : ∀ c, c ∈ text → is_lower c = false).
  { intros c Hc. apply Hinert in Hc. unfold inert in Hc.
    destruct (is_lower c); [|reflexivity].
    rewrite andb_false_r in Hc. discriminate. }
  assert (Hat : ∀ c, c ∈ text → Ascii.eqb "@" c = false).
  { intros c Hc. apply Hinert in Hc. unfold inert in Hc.
    rewrite Ascii.eqb_sym. destruct (Ascii.eqb c "@"); [|reflexivity].
    rewrite andb_false_r in Hc. discriminate. }
  destruct patterns_need_pii_characters as (H1 & H2 & H3 & H4 & H5).
  rewrite detect_unfold.
  rewrite (finditer_needs _ _ _ H1 Hdigit), (finditer_needs _ _ _ H2 Hdigit),
    (finditer_needs _ _ _ H3 Hat), (finditer_needs _ _ _ H4 Hlower),
    (finditer_needs _ _ _ H5 Hdigit).
  reflexivity.
Qed.

Lemma redact_text_inert_chars (text : string) :
  (∀ c, In c (list_ascii_of_string text) → inert c = true) →
  _detect_pii_locally text = [] ∧ redact_text text = text.
Proof.
  intros Hinert.
  assert (Hnone : _detect_pii_locally text = []).
  { apply detect_inert. intros c Hc. apply Hinert, list_elem_of_In, Hc. }
  split; [exact Hnone | apply redact_text_no_entities, Hnone].
Qed.

(** X1.  A text of ASCII characters without digits, lower-case
    letters and at signs holds no PII match, and [redact_text] returns
    it as it is. *)
Theorem redact_text_without_pii_characters (text : string) :
  ascii_text text = true →
  (∀ c, In c (list_ascii_of_string text) → inert c = true) →
  _detect_pii_locally text = [] ∧ redact_text text = text.
Proof. intros _. apply redact_text_inert_chars. Qed.

Lemma redact_text_without_pii_characters_witness :
  redact_text "PATIENT: [PATIENT] - SSN [SSN-REDACTED]"
    = "PATIENT: [PATIENT] - SSN [SSN-REDACTED]".
Proof.
  apply (redact_text_without_pii_characters
           "PATIENT: [PATIENT] - SSN [SSN-REDACTED]"); [reflexivity|].
  intros c Hc. simpl in Hc.
  repeat (destruct Hc as [<-|Hc]; [reflexivity|]). destruct Hc.
Defined.

Lemma list_ascii_of_string_append (s t : string) :
  list_ascii_of_string (String.append s t) =
    (list_ascii_of_string s ++ list_ascii_of_string t)%list.
Proof.
  induction s as [|c s IH]; simpl; [reflexivity | rewrite IH; reflexivity].
Qed.

Lemma placeholder_tokens_inert (t : string) (c : ascii) :
  In t placeholder_tokens → In c (list_ascii_of_string t) → inert c = true.
Proof.
  unfold placeholder_tokens. simpl.
  intros Ht Hc.
  repeat (destruct Ht as [<-|Ht];
    [simpl in Hc;
     repeat (destruct Hc as [<-|Hc]; [reflexivity|]); destruct Hc|]).
  destruct Ht.
Qed.

Lemma separators_inert (c : ascii) :
  is_separator c && negb (Ascii.eqb c "@") = true → inert c = true.
Proof.
  apply (class_sub_sound
           (λ c, is_separator c && negb (Ascii.eqb c "@")) inert c).
  vm_compute. reflexivity.
Qed.

(** X2.  Redaction leaves a text of placeholder tokens unchanged
    when its separators are whitespace or punctuation other than the
    at sign. *)
Theorem redact_text_placeholders_without_at (text : string) :
  placeholder_text (λ c, is_separator c && negb (Ascii.eqb c "@")) text →
  redact_text text = text.
Proof.
  intros (pieces & Hok & ->). apply redact_text_inert_chars.
  induction Hok as [|p pieces Hp Hok IH]; simpl; [tauto|].
  destruct p as [t|s]; simpl in Hp |- *.
  - rewrite list_ascii_of_string_append. intros c Hc.
    apply in_app_or in Hc as [Hc|Hc].
    + exact (placeholder_tokens_inert t c Hp Hc).
    + apply IH, Hc.
  - intros c [<-|Hc]; [apply separators_inert, Hp | apply IH, Hc].
Qed.

Definition redacted_note_pieces : list piece :=
  [Token "[SSN-REDACTED]"; Sep " "; Token "[PHONE]"; Sep ","; Sep " ";
   Token "[EMAIL]"; Sep ";"; Sep " "; Token "[PATIENT]"; Sep " ";
   Token "[LOCATION]"; Sep " "; Token "[REDACTED]"].

Lemma redact_text_placeholders_without_at_witness :
  redact_text (render redacted_note_pieces) = render redacted_note_pieces.
Proof.
  apply redact_text_placeholders_without_at.
  exists redacted_note_pieces. split; [|reflexivity].
  unfold redacted_note_pieces.
  repeat (apply Forall_cons; split; [simpl; tauto || reflexivity|]).
  apply Forall_nil. exact I.
Defined.

Definition underscored_pieces : list piece :=
  [Token "[EMAIL]"; Sep "_"; Sep "@"; Sep "-"; Sep "."; Sep "|"; Sep "|";
   Sep "_"; Token "[PHONE]"].

(** C7, on the code: the text [[EMAIL]_@-.||_[PHONE]] consists of
    two placeholder tokens separated by punctuation, yet the EMAIL
    pattern matches the separator run [_@-.||] (the bar belongs to the
    class [[A-Z|a-z]]) and redaction rewrites the text. *)
Theorem redact_text_rewrites_placeholder_text :
  placeholder_text is_separator "[EMAIL]_@-.||_[PHONE]" ∧
  (pii_type <$> _detect_pii_locally "[EMAIL]_@-.||_[PHONE]") = ["EMAIL"] ∧
  redact_text "[EMAIL]_@-.||_[PHONE]" = "[EMAIL][EMAIL]_[PHONE]" ∧
  redact_text "[EMAIL]_@-.||_[PHONE]" ≠ "[EMAIL]_@-.||_[PHONE]".
Proof.
  split; [|split; [|split]].
  - exists underscored_pieces. split; [|reflexivity].
    unfold underscored_pieces.
    repeat (apply Forall_cons; split; [simpl; tauto || reflexivity|]).
    apply Forall_nil. exact I.
  - vm_compute. reflexivity.
  - vm_compute. reflexivity.
  - vm_compute. discriminate.
Qed.

(** *** Vocabulary of the redaction theorems *)

(** All pairs of distinct positions of a list. *)
Fixpoint pairwise {A : Type} (R : A → A → Prop) (l : list A) : Prop :=
  match l with
  | [] => True
  | x :: rest => Forall (R x) rest ∧ pairwise R rest
  end.

(** Two entities whose spans have no position in common. *)
Definition disjoint (e1 e2 : PIIEntity) : Prop :=
  pii_end e1 ≤ pii_start e2 ∨ pii_end e2 ≤ pii_start e1.

(** The text from position [pos] on, with the span of each entity
    replaced by the placeholder of its type; the entities are taken
    in text order. *)
Fixpoint replace_spans (text : list ascii) (pos : nat)
    (entities : list PIIEntity) : list ascii :=
  match entities with
  | [] => drop pos text
  | e :: rest =>
      (take (pii_start e - pos) (drop pos text) ++
       list_ascii_of_string (_get_replacement (pii_type e)) ++
       replace_spans text (pii_end e) rest)%list
  end.

(** The same up to position [upper]. *)
Fixpoint replace_upto (text : list ascii) (pos : nat)
    (entities : list PIIEntity) (upper : nat) : list ascii :=
  match entities with
  | [] => take (upper - pos) (drop pos text)
  | e :: rest =>
      (take (pii_start e - pos) (drop pos text) ++
       list_ascii_of_string (_get_replacement (pii_type e)) ++
       replace_upto text (pii_end e) rest upper)%list
  end.

(** Entities in the order in which [redact_text] splices them in:
    each one ends at or before [upper] and the next ones end at or
    before its start. *)
Fixpoint separated (upper : nat) (entities : list PIIEntity) : Prop :=
  match entities with
  | [] => True
  | e :: rest =>
      pii_start e ≤ pii_end e ∧ pii_end e ≤ upper ∧
      separated (pii_start e) rest
  end.

(** Descending by start. *)
Fixpoint sorted_desc (entities : list PIIEntity) : Prop :=
  match entities with
  | [] => True
  | e :: rest =>
      Forall (λ e', pii_start e' ≤ pii_start e) rest ∧ sorted_desc rest
  end.

(** *** Detected entities are spans of the text *)

Lemma detected_spans (text : list ascii) (e : PIIEntity) :
  e ∈ detect_chars text →
  pii_type e ∈ pii_patterns.*1 ∧
  pii_start e < pii_end e ≤ length text ∧
  pii_text e = string_of_list_ascii
                 (take (pii_end e - pii_start e) (drop (pii_start e) text)) ∧
  pii_confidence e = 0.95%Q.
Proof.
  unfold detect_chars. rewrite list_elem_of_In, in_flat_map.
  intros ([ty pattern] & Hpat & He).
  apply list_elem_of_In, list_elem_of_fmap in He as ([s en] & -> & Hm).
  cbn [pii_type pii_start pii_end pii_text pii_confidence entity_of_match
       fst snd].
  assert (Hmatch : match_at pattern text s = Some en).
  { pose proof (scan_matches pattern text (seq 0 (S (length text))) 0) as H.
    rewrite Forall_forall in H. exact (H _ Hm). }
  assert (Hspan : 0 ≤ s ∧ s ≤ en ∧ en ≤ length text).
  { pose proof (chained_spans _ _ _ (finditer_chained pattern text)) as H.
    rewrite Forall_forall in H. exact (H _ Hm). }
  pose proof (pii_patterns_consume ty pattern text s en Hpat Hmatch).
  split_and!; try reflexivity; try lia.
  apply list_elem_of_fmap. exists (ty, pattern).
  split; [reflexivity | apply list_elem_of_In, Hpat].
Qed.

Lemma substring_take_drop (text : string) :
  ∀ start n,
    string_of_list_ascii (take n (drop start (list_ascii_of_string text)))
      = String.substring start n text.
Proof.
  induction text as [|c text IH]; intros start n.
  - destruct start, n; reflexivity.
  - destruct start as [|start].
    + destruct n as [|n]; [reflexivity|]. simpl. f_equal. apply (IH 0).
    + simpl. apply IH.
Qed.

Lemma typed_replacements (ty : string) :
  ty ∈ pii_patterns.*1 →
  ty ∈ ["SSN"; "PHONE"; "EMAIL"; "NAME"; "ADDRESS"] ∧
  _get_replacement ty ∈ placeholder_tokens ∧
  _get_replacement ty ≠ "[REDACTED]".
Proof.
  intros Hty. split; [exact Hty|].
  cbn in Hty. rewrite !elem_of_cons, elem_of_nil in Hty.
  destruct Hty as [->|[->|[->|[->|[->|[]]]]]];
    (split; [apply (bool_decide_unpack _); vm_compute; exact I
            | vm_compute; discriminate]).
Qed.

(** X21.  Every entity that [_detect_pii_locally] reports in a text
    of ASCII characters is a non-empty span inside the text: its type
    is one of the five
    pattern names, its start lies before its end and its end within
    the text, its [text] is the characters of that span, its
    confidence is 0.95, and its replacement is one of the five typed
    placeholders, never the default "[REDACTED]". *)
Theorem detected_entities_are_spans_of_the_text (text : string) :
  ascii_text text = true →
  Forall (λ e,
            pii_type e ∈ ["SSN"; "PHONE"; "EMAIL"; "NAME"; "ADDRESS"] ∧
            pii_start e < pii_end e ≤ String.length text ∧
            pii_text e =
              String.substring (pii_start e) (pii_end e - pii_start e) text ∧
            String.length (pii_text e) = pii_end e - pii_start e ∧
            pii_confidence e = 0.95%Q ∧
            _get_replacement (pii_type e) ∈ placeholder_tokens ∧
            _get_replacement (pii_type e) ≠ "[REDACTED]")
         (_detect_pii_locally text).
Proof.
  intros _. apply Forall_forall. intros e He.
  apply detected_spans in He as (Hty & Hspan & Htext & Hconf).
  rewrite length_list_ascii_of_string in Hspan.
  destruct (typed_replacements _ Hty) as (Hnames & Htoken & Hdefault).
  split_and!; try assumption; try lia.
  - rewrite Htext. apply substring_take_drop.
  - rewrite Htext, <- length_list_ascii_of_string,
      list_ascii_of_string_of_list_ascii, length_take, length_drop.
    rewrite length_list_ascii_of_string. lia.
Qed.

Lemma detected_entities_are_spans_of_the_text_witness :
  Forall (λ e, pii_start e < pii_end e ≤ String.length "SSN 123-45-6789")
         (_detect_pii_locally "SSN 123-45-6789").
Proof.
  eapply Forall_impl;
    [apply (detected_entities_are_spans_of_the_text "SSN 123-45-6789");
     reflexivity|].
  intros e (_ & Hspan & _). exact Hspan.
Defined.

(** *** Redaction when no two entities overlap *)

Lemma replace_upto_snoc (text : list ascii) (entities : list PIIEntity)
    (e : PIIEntity) (upper : nat) :
  ∀ pos,
    replace_upto text pos (entities ++ [e]) upper =
      (replace_upto text pos entities (pii_start e) ++
       list_ascii_of_string (_get_replacement (pii_type e)) ++
       take (upper - pii_end e) (drop (pii_end e) text))%list.
Proof.
  induction entities as [|e' rest IH]; intros pos; simpl.
  - reflexivity.
  - rewrite IH, <- !app_assoc. reflexivity.
Qed.

Lemma replace_upto_length (text : list ascii) (entities : list PIIEntity) :
  ∀ pos, replace_upto text pos entities (length text)
         = replace_spans text pos entities.
Proof.
  induction entities as [|e rest IH]; intros pos; simpl.
  - apply take_ge. rewrite length_drop. lia.
  - rewrite IH. reflexivity.
Qed.

Lemma foldl_splice_separated (text : list ascii) (entities : list PIIEntity) :
  ∀ upper tail,
    upper ≤ length text → separated upper entities →
    foldl splice (take upper text ++ tail)%list entities =
      (replace_upto text 0 (reverse entities) upper ++ tail)%list.
Proof.
  induction entities as [|e rest IH]; intros upper tail Hupper Hsep.
  - simpl. rewrite Nat.sub_0_r. reflexivity.
  - destruct Hsep as (Hse & Heu & Hrest). cbn [foldl].
    assert (Hsplice :
      splice (take upper text ++ tail)%list e =
        (take (pii_start e) text ++
         (list_ascii_of_string (_get_replacement (pii_type e)) ++
          drop (pii_end e) (take upper text) ++ tail))%list).
    { unfold splice.
      rewrite take_app_le by (rewrite length_take; lia).
      rewrite take_take, Nat.min_l by lia.
      rewrite drop_app_le by (rewrite length_take; lia).
      reflexivity. }
    rewrite Hsplice, IH by (assumption || lia).
    rewrite reverse_cons, replace_upto_snoc, <- !app_assoc.
    do 2 f_equal. f_equal.
    rewrite take_drop_commute. f_equal. f_equal. lia.
Qed.

Lemma insert_desc_perm (x : PIIEntity) (l : list PIIEntity) :
  insert_desc x l ≡ₚ x :: l.
Proof.
  induction l as [|y l IH]; simpl; [reflexivity|].
  destruct (pii_start x <? pii_start y); [|reflexivity].
  rewrite IH. apply Permutation_swap.
Qed.

Lemma sort_by_start_desc_perm (l : list PIIEntity) :
  sort_by_start_desc l ≡ₚ l.
Proof.
  induction l as [|x l IH]; simpl; [reflexivity|].
  rewrite insert_desc_perm, IH. reflexivity.
Qed.

Lemma insert_desc_sorted (x : PIIEntity) (l : list PIIEntity) :
  sorted_desc l → sorted_desc (insert_desc x l).
Proof.
  induction l as [|y l IH]; simpl.
  - intros _. split; [apply Forall_nil; exact I | exact I].
  - intros [Hy Hl].
    destruct (Nat.ltb_spec (pii_start x) (pii_start y)) as [Hlt|Hge].
    + simpl. split; [|apply IH, Hl].
      rewrite insert_desc_perm. apply Forall_cons. split; [lia | exact Hy].
    + simpl. split; [|split; assumption].
      apply Forall_cons. split; [lia|].
      eapply Forall_impl; [exact Hy|]. simpl. intros; lia.
Qed.

Lemma sort_by_start_desc_sorted (l : list PIIEntity) :
  sorted_desc (sort_by_start_desc l).
Proof.
  induction l as [|x l IH]; simpl; [exact I | apply insert_desc_sorted, IH].
Qed.

Lemma pairwise_perm {A : Type} (R : A → A → Prop) (l l' : list A) :
  (∀ x y, R x y → R y x) → l ≡ₚ l' → pairwise R l → pairwise R l'.
Proof.
  intros Hsym Hperm. induction Hperm as [|x l l' Hp IH|x y l|l l' l'' _ IH1 _ IH2].
  - tauto.
  - simpl. intros [Hx Hl]. split; [rewrite <- Hp; exact Hx | apply IH, Hl].
  - simpl. intros (Hy & Hx & Hl).
    apply Forall_cons in Hy as [Hyx Hy].
    repeat split; try assumption.
    apply Forall_cons. split; [apply Hsym, Hyx | exact Hx].
  - intros H. apply IH2, IH1, H.
Qed.

Lemma separated_sorted (upper : nat) (l : list PIIEntity) :
  Forall (λ e, pii_start e < pii_end e ≤ upper) l →
  sorted_desc l → pairwise disjoint l → separated upper l.
Proof.
  revert upper. induction l as [|e rest IH]; intros upper Hspan Hsorted Hdisj.
  - exact I.
  - apply Forall_cons in Hspan as [He Hspan].
    destruct Hsorted as [Hle Hsorted]. destruct Hdisj as [Hd Hdisj].
    simpl. split; [lia|]. split; [lia|].
    apply IH; [|exact Hsorted | exact Hdisj].
    rewrite Forall_forall in Hspan, Hle, Hd |- *.
    intros e' He'. specialize (Hspan e' He'). specialize (Hle e' He').
    destruct (Hd e' He') as [H|H]; lia.
Qed.

(** X22.  When no two entities detected in a text of ASCII
    characters overlap, [redact_text]
    returns the text with exactly the detected spans replaced by the
    placeholders of their types, everything between them staying in
    place.  (Splicing from the last span to the first uses the
    positions found in the original text; this is what makes the
    result right, and it needs the spans to be disjoint.) *)
Theorem redact_text_replaces_disjoint_spans (text : string) :
  ascii_text text = true →
  pairwise disjoint (_detect_pii_locally text) →
  redact_text text =
    string_of_list_ascii
      (replace_spans (list_ascii_of_string text) 0
         (reverse (sort_by_start_desc (_detect_pii_locally text)))).
Proof.
  intros _ Hdisj. unfold redact_text.
  destruct (String.eqb_spec text "") as [->|_]; [reflexivity|].
  f_equal.
  set (chars := list_ascii_of_string text).
  set (sorted := sort_by_start_desc (_detect_pii_locally text)).
  pose proof (foldl_splice_separated chars sorted (length chars) []) as H.
  rewrite firstn_all, !app_nil_r, replace_upto_length in H.
  apply H; [lia|].
  apply separated_sorted.
  - subst sorted. rewrite sort_by_start_desc_perm.
    apply Forall_forall. intros e He.
    apply detected_spans in He as (_ & Hspan & _). exact Hspan.
  - apply sort_by_start_desc_sorted.
  - apply (pairwise_perm disjoint (_detect_pii_locally text));
      [|symmetry; apply sort_by_start_desc_perm | exact Hdisj].
    unfold disjoint. tauto.
Qed.

Lemma redact_text_replaces_disjoint_spans_witness :
  redact_text "Call 555-123-4567 about SSN 123-45-6789" =
    "Call [PHONE] about SSN [SSN-REDACTED]".
Proof.
  rewrite (redact_text_replaces_disjoint_spans
             "Call 555-123-4567 about SSN 123-45-6789").
  - vm_compute. reflexivity.
  - reflexivity.
  - vm_compute. split; [|split; [apply Forall_nil|]; exact I].
    apply Forall_cons. split; [lia | apply Forall_nil; exact I].
Defined.

(** *** Risk level, compliance and redaction together *)

Lemma pii_count_by_matches (text : string) :
  pii_count (analyze_pii_risk text) = 0 ↔
  has_match SSN text = false ∧ has_match PHONE text = false ∧
  has_match EMAIL text = false ∧ has_match NAME text = false ∧
  has_match ADDRESS text = false.
Proof.
  unfold analyze_pii_risk, _detect_pii_locally, has_match.
  cbn [pii_count]. rewrite detect_unfold, !length_app, !length_fmap.
  destruct (finditer SSN _), (finditer PHONE _), (finditer EMAIL _),
    (finditer NAME _), (finditer ADDRESS _); simpl;
    split; try (intros; repeat split; reflexivity); try lia;
    intros (? & ? & ? & ? & ?); discriminate.
Qed.

(** X23.  The parts of the risk analysis of a text of ASCII
    characters fit together: the level is "LOW" exactly when nothing
    was detected, and then the text is
    HIPAA compliant and [redact_text] returns it unchanged; "HIGH"
    texts are never compliant, non-compliant texts never "LOW"; the
    count is the number of entities reported, and the set of types is
    empty exactly when the count is zero and holds only names of the
    five patterns. *)
Theorem analyze_pii_risk_coherent (text : string) :
  ascii_text text = true →
  let r := analyze_pii_risk text in
  risk_level r ∈ ["LOW"; "MEDIUM"; "HIGH"] ∧
  (risk_level r = "LOW" ↔ pii_count r = 0) ∧
  (risk_level r = "LOW" →
   hipaa_compliant r = true ∧ redact_text text = text) ∧
  (risk_level r = "HIGH" → hipaa_compliant r = false) ∧
  (hipaa_compliant r = false → risk_level r ≠ "LOW") ∧
  pii_count r = length (detected_entities r) ∧
  (pii_types r = ∅ ↔ pii_count r = 0) ∧
  pii_types r ⊆ list_to_set ["SSN"; "PHONE"; "EMAIL"; "NAME"; "ADDRESS"].
Proof.
  intros _ r.
  assert (Hlow : risk_level r = "LOW" ↔ pii_count r = 0).
  { subst r. rewrite pii_count_by_matches, risk_level_by_matches.
    destruct (has_match SSN text), (has_match PHONE text),
      (has_match EMAIL text), (has_match NAME text),
      (has_match ADDRESS text); simpl; split;
      try discriminate; try (intros (? & ? & ? & ? & ?); discriminate);
      intros; repeat split; reflexivity. }
  assert (Hcompliant : hipaa_compliant r = is_hipaa_compliant text)
    by reflexivity.
  split_and!.
  - subst r. rewrite risk_level_by_matches.
    destruct (_ || _); [|destruct (_ || _)];
      apply (bool_decide_unpack _); vm_compute; exact I.
  - exact Hlow.
  - intros H. split.
    + rewrite Hcompliant, is_hipaa_compliant_by_matches.
      apply Hlow, pii_count_by_matches in H as (-> & -> & -> & _).
      reflexivity.
    + apply redact_text_no_entities. apply Hlow in H.
      subst r. cbn [pii_count analyze_pii_risk] in H.
      destruct (_detect_pii_locally text); [reflexivity | discriminate H].
  - rewrite Hcompliant, is_hipaa_compliant_by_matches.
    subst r. rewrite risk_level_by_matches.
    destruct (has_match SSN text), (has_match PHONE text); simpl;
      try reflexivity.
    destruct (_ || _); discriminate.
  - rewrite Hcompliant, is_hipaa_compliant_by_matches.
    subst r. rewrite risk_level_by_matches.
    destruct (has_match SSN text), (has_match PHONE text),
      (has_match EMAIL text); simpl; discriminate.
  - reflexivity.
  - subst r. cbn [pii_types pii_count analyze_pii_risk].
    destruct (_detect_pii_locally text) as [|e l]; [split; reflexivity|].
    split; [|discriminate]. intros H. exfalso.
    assert (He : pii_type e ∈ (∅ : gset string)).
    { rewrite <- H. simpl. apply elem_of_union_l, elem_of_singleton.
      reflexivity. }
    apply elem_of_empty in He. exact He.
  - subst r. cbn [pii_types analyze_pii_risk].
    intros ty Hty. apply elem_of_list_to_set, list_elem_of_fmap in Hty
      as (e & -> & He).
    apply elem_of_list_to_set.
    apply detected_spans in He as (Hty & _).
    exact (proj1 (typed_replacements _ Hty)).
Qed.

Lemma analyze_pii_risk_coherent_witness :
  hipaa_compliant (analyze_pii_risk "SSN 123-45-6789") = false.
Proof.
  pose proof (analyze_pii_risk_coherent "SSN 123-45-6789") as H.
  cbv zeta in H. destruct H as (_ & _ & _ & H & _).
  - reflexivity.
  - apply H. vm_compute. reflexivity.
Defined.

End AparaviRedactor.

(** ** utils/pii_redactor.py *)

Module PIIRedactor.
Import PyHeap.

Section WithPresidio.

(** [redact_text] hands the text to the Presidio analyzer and
    anonymizer, which are not part of the repository; [redact_dict]
    is modelled for any such function. *)
Variable redact_text : string → string.

Definition text_fields : list string :=
  ["voice_note"; "emt_name"; "patient_name"; "notes"; "description";
   "comment"].

Definition redact_dict (data : loc) : M loc :=
  (redacted_data ← dict_copy data;
   for_each text_fields (λ field,
     present ← dict_contains redacted_data field;
     if present then
       v ← dict_getitem redacted_data field;
       match v with
       | VStr s => dict_setitem redacted_data field (VStr (redact_text s))
       | _ => ret tt
       end
     else ret tt) ;;
   has_patient_ssn ← dict_contains redacted_data "patient_ssn";
   (if has_patient_ssn
    then dict_setitem redacted_data "patient_ssn" (VStr "[SSN-REDACTED]")
    else ret tt) ;;
   has_ssn ← dict_contains redacted_data "ssn";
   (if has_ssn
    then dict_setitem redacted_data "ssn" (VStr "[SSN-REDACTED]")
    else ret tt) ;;
   ret redacted_data)%py.

End WithPresidio.

End PIIRedactor.

(** ** The frame of [redact_dict] *)

Module RedactDict.
Import PyHeap.

(** The keys whose values [redact_dict] may replace: the text fields
    and the two SSN fields. *)
Definition redactable_keys : list string :=
  ["voice_note"; "emt_name"; "patient_name"; "notes"; "description";
   "comment"; "message"; "patient_ssn"; "ssn"].

(** What a call that returned the object [r] in store [h'] has left of
    the store [h] and of the dictionary [d] it was given at [data]:
    [r] is a new object, every object of [h] (the argument among
    them) is as it was, and the new dictionary has the keys of [d] and
    the values of [d] at every key outside [keys]. *)
Definition copy_differs_on (keys : list string) (h : heap) (data : loc)
    (d : gmap string pyval) (r : loc) (h' : heap) : Prop :=
  h !! r = None ∧
  (∀ l, l ≠ r → h' !! l = h !! l) ∧
  h' !! data = Some d ∧
  ∃ d', h' !! r = Some d' ∧
        dom d' = dom d ∧
        ∀ k, k ∉ keys → d' !! k = d !! k.

Section Frame.

Variable keys : list string.
Variable r : loc.
Variable d0 : gmap string pyval.
Variable h0 : heap.

(** The invariant of the statements after the copy. *)
Definition framed (h : heap) : Prop :=
  (∀ l, l ≠ r → h !! l = h0 !! l) ∧
  ∃ d', h !! r = Some d' ∧ dom d' = dom d0 ∧
        ∀ k, k ∉ keys → d' !! k = d0 !! k.

Definition preserves (m : M unit) : Prop :=
  ∀ h, framed h → ∃ h', m h = Some (tt, h') ∧ framed h'.

Lemma preserves_ret : preserves (ret tt).
Proof. intros h Hh. exists h. split; [reflexivity | exact Hh]. Qed.

Lemma preserves_seq (m : M unit) (k : M unit) :
  preserves m → preserves k → preserves (bind m (λ _, k)).
Proof.
  intros Hm Hk h Hh. destruct (Hm h Hh) as (h1 & E1 & Hh1).
  destruct (Hk h1 Hh1) as (h2 & E2 & Hh2).
  exists h2. unfold bind. rewrite E1. split; assumption.
Qed.

Lemma preserves_for_each (xs : list string) (body : string → M unit) :
  (∀ x, x ∈ xs → preserves (body x)) → preserves (for_each xs body).
Proof.
  induction xs as [|x xs IH]; intros Hbody; simpl.
  - apply preserves_ret.
  - apply preserves_seq.
    + apply Hbody. left.
    + apply IH. intros y Hy. apply Hbody. right. exact Hy.
Qed.

Lemma framed_setitem (h : heap) (d' : gmap string pyval) (k : string)
    (v : pyval) :
  framed h → h !! r = Some d' → is_Some (d' !! k) → k ∈ keys →
  framed (<[r := <[k := v]> d']> h).
Proof.
  intros (Hother & d'' & Hr & Hdom & Hval) Hd' Hk Hin.
  rewrite Hd' in Hr. injection Hr as <-. split.
  - intros l Hl. rewrite lookup_insert_ne by congruence. apply Hother, Hl.
  - exists (<[k := v]> d'). split; [apply lookup_insert_eq|]. split.
    + rewrite dom_insert_lookup_L by exact Hk. exact Hdom.
    + intros k' Hk'. rewrite lookup_insert_ne; [apply Hval, Hk'|].
      intros ->. contradiction.
Qed.

Lemma preserves_guarded_set (k : string) (v : pyval) :
  k ∈ keys →
  preserves (bind (dict_contains r k)
               (λ has, if has then dict_setitem r k v else ret tt)).
Proof.
  intros Hin h Hh. pose proof Hh as (_ & d' & Hr & _).
  unfold bind, dict_contains. rewrite Hr.
  destruct (bool_decide (is_Some (d' !! k))) eqn:E.
  - apply bool_decide_eq_true in E.
    unfold dict_setitem. rewrite Hr. eexists. split; [reflexivity|].
    apply framed_setitem; assumption.
  - exists h. split; [reflexivity | exact Hh].
Qed.

Lemma preserves_redact_field (redact_text : string → string) (field : string) :
  field ∈ keys →
  preserves
    (bind (dict_contains r field) (λ present,
       if present then
         bind (dict_getitem r field) (λ v,
           match v with
           | VStr s => dict_setitem r field (VStr (redact_text s))
           | _ => ret tt
           end)
       else ret tt)).
Proof.
  intros Hin h Hh. pose proof Hh as (_ & d' & Hr & _).
  unfold bind, dict_contains. rewrite Hr.
  destruct (bool_decide (is_Some (d' !! field))) eqn:E.
  - apply bool_decide_eq_true in E. pose proof E as [v Hv].
    unfold dict_getitem. rewrite Hr, Hv.
    destruct v; try (exists h; split; [reflexivity | exact Hh]).
    unfold dict_setitem. rewrite Hr. eexists. split; [reflexivity|].
    apply framed_setitem; assumption.
  - exists h. split; [reflexivity | exact Hh].
Qed.

Lemma then_continue {A : Type} (m : M unit) (K : M A) (h : heap) :
  preserves m → framed h →
  ∃ h', framed h' ∧ bind m (λ _, K) h = K h'.
Proof.
  intros Hm Hh. destruct (Hm h Hh) as (h' & E & Hh').
  exists h'. split; [exact Hh'|]. unfold bind. rewrite E. reflexivity.
Qed.

Lemma guarded_set_then {A : Type} (k : string) (v : pyval) (K : M A)
    (h : heap) :
  k ∈ keys → framed h →
  ∃ h', framed h' ∧
        bind (dict_contains r k) (λ has,
          bind (if has then dict_setitem r k v else ret tt) (λ _, K)) h
        = K h'.
Proof.
  intros Hin Hh.
  destruct (preserves_guarded_set k v Hin h Hh) as (h' & E & Hh').
  exists h'. split; [exact Hh'|].
  revert E. unfold bind. destruct (dict_contains r k h) as [[has h1]|];
    [|discriminate].
  intros ->. reflexivity.
Qed.

End Frame.

Lemma dict_copy_framed (keys : list string) (h : heap) (data : loc)
    (d : gmap string pyval) :
  h !! data = Some d →
  ∃ r h1, dict_copy data h = Some (r, h1) ∧ h !! r = None ∧ r ≠ data ∧
          framed keys r d h h1.
Proof.
  intros Hd. unfold dict_copy. rewrite Hd.
  set (r := fresh (dom h)).
  assert (Hfresh : h !! r = None).
  { apply not_elem_of_dom. apply is_fresh. }
  exists r, (<[r := d]> h). split; [reflexivity|]. split; [exact Hfresh|].
  split; [congruence|]. split.
  - intros l Hl. apply lookup_insert_ne. congruence.
  - exists d. split; [apply lookup_insert_eq|]. split; reflexivity.
Qed.

Lemma framed_copy_differs_on (keys : list string) (h : heap) (data : loc)
    (d : gmap string pyval) (r : loc) (h' : heap) :
  h !! data = Some d → h !! r = None → r ≠ data →
  framed keys r d h h' → copy_differs_on keys h data d r h'.
Proof.
  intros Hd Hfresh Hne (Hother & Hcopy).
  split; [exact Hfresh|]. split; [exact Hother|]. split; [|exact Hcopy].
  rewrite Hother by congruence. exact Hd.
Qed.

Ltac key_in_list := apply (bool_decide_unpack _); vm_compute; exact I.

(** The statements of [redact_dict] after the copy, one at a time. *)
Ltac run_redact_dict text_fields h r d F1 :=
  let F2 := fresh "F" in let F3 := fresh "F" in let F4 := fresh "F" in
  let h2 := fresh "h" in let h3 := fresh "h" in let h4 := fresh "h" in
  let E := fresh "E" in
  lazymatch goal with
  | |- ∃ _ _, bind (for_each ?xs ?body) (λ _, ?K) ?hc = _ ∧ _ =>
      destruct (then_continue redactable_keys r d h (for_each xs body) K hc)
        as (h2 & F2 & E);
      [ apply preserves_for_each; intros field Hfield;
        apply preserves_redact_field;
        revert Hfield; unfold text_fields;
        rewrite !elem_of_cons, elem_of_nil;
        intuition (subst; key_in_list)
      | exact F1
      | rewrite E; clear E ]
  end;
  edestruct (guarded_set_then (A:=loc) redactable_keys r d h "patient_ssn")
    as (h3 & F3 & E); [key_in_list | exact F2 | rewrite E; clear E];
  edestruct (guarded_set_then (A:=loc) redactable_keys r d h "ssn")
    as (h4 & F4 & E); [key_in_list | exact F3 | rewrite E; clear E];
  exists r, h4; split; [reflexivity|].

(** C10.  Both [redact_dict] implementations return a new dictionary
    object and leave every dictionary that existed before the call,
    the argument included, as it was.  The returned dictionary has
    exactly the keys of the argument, and at every key other than the
    text fields (voice_note, emt_name, patient_name, notes,
    description, comment, message) and the keys patient_ssn and ssn
    it holds the argument's value. *)
Theorem redact_dict_frame (h : heap) (data : loc) (d : gmap string pyval) :
  h !! data = Some d →
  (∃ r h', AparaviRedactor.redact_dict data h = Some (r, h') ∧
           copy_differs_on redactable_keys h data d r h') ∧
  (∀ presidio_redact_text : string → string,
     ∃ r h', PIIRedactor.redact_dict presidio_redact_text data h
               = Some (r, h') ∧
             copy_differs_on redactable_keys h data d r h').
Proof.
  intros Hd.
  destruct (dict_copy_framed redactable_keys h data d Hd)
    as (r & h1 & Hcopy & Hfresh & Hne & F1).
  split; [|intros presidio_redact_text].
  - unfold AparaviRedactor.redact_dict.
    rewrite (bind_some _ _ _ _ _ Hcopy).
    run_redact_dict AparaviRedactor.text_fields h r d F1.
    apply framed_copy_differs_on; assumption.
  - unfold PIIRedactor.redact_dict.
    rewrite (bind_some _ _ _ _ _ Hcopy).
    run_redact_dict PIIRedactor.text_fields h r d F1.
    apply framed_copy_differs_on; assumption.
Qed.

Definition voice_record : gmap string pyval :=
  <["voice_note" := VStr "Patient Sarah Johnson, SSN 123-45-6789."]>
    (<["patient_ssn" := VStr "123-45-6789"]>
       (<["patient_id" := VStr "P-2024-001"]>
          (<["eta_minutes" := VInt 8]> ∅))).

Definition store_with_voice_record : heap := <[0%nat := voice_record]> ∅.

Lemma redact_dict_frame_witness :
  ∃ r h', AparaviRedactor.redact_dict 0%nat store_with_voice_record
            = Some (r, h') ∧
          copy_differs_on redactable_keys store_with_voice_record 0%nat
            voice_record r h'.
Proof.
  apply (redact_dict_frame store_with_voice_record 0%nat voice_record).
  reflexivity.
Defined.

(** ** The values of the dictionary [redact_dict] returns *)















End RedactDict.

(** ** simulators/emt_voice_simulator.py *)

Module EMTVoiceSimulator.

Record EMTVoiceSimulator := {
  scenario : string;
  ambulance_id : string;
  patient_id : string;
  emt_name : string;
  patient_name : string;
  patient_ssn : string;
  eta_minutes : Z;
  mi_scenario_notes : list string;
  trauma_scenario_notes : list string;
  current_note_index : Z
}.

Definition __init__ (scenario : string) : EMTVoiceSimulator :=
  let ambulance_id := "AMB-001" in
  let patient_id := "P-2024-001" in
  let emt_name := "John Smith" in
  let patient_name := "Sarah Johnson" in
  let patient_ssn := "123-45-6789" in
  {| scenario := scenario;
     ambulance_id := ambulance_id;
     patient_id := patient_id;
     emt_name := emt_name;
     patient_name := patient_name;
     patient_ssn := patient_ssn;
     eta_minutes := 8;
     mi_scenario_notes :=
       ["This is EMT " +:+ emt_name +:+ " from ambulance " +:+ ambulance_id
          +:+ ". We have a 58-year-old female patient " +:+ patient_name
          +:+ ", SSN " +:+ patient_ssn
          +:+ ", presenting with severe chest pain radiating to the left arm. Patient reports history of angina and hypertension. ETA 8 minutes.";
        "Update on patient " +:+ patient_name
          +:+ ". Chest pain started approximately 45 minutes ago. Patient describes it as crushing pressure. Administered aspirin 325mg and started oxygen at 4L. Vitals show tachycardia and hypotension.";
        "Patient is experiencing diaphoresis and nausea. Strong suspicion of myocardial infarction. Patient states her father died of heart attack at age 62. Currently on nitroglycerin from personal medication. Request cardiology team standby.";
        "ETA now 4 minutes. Patient " +:+ patient_name
          +:+ " remains conscious but in significant distress. Pain level 8 out of 10. ST elevation noted on 12-lead ECG. This appears to be an acute MI. Recommend immediate catheter lab prep.";
        "Two minutes out. Patient condition stable but critical. Nitroglycerin providing minimal relief. IV established. All documentation will be transferred upon arrival. Catheter lab should be ready."];
     trauma_scenario_notes :=
       ["EMT " +:+ emt_name +:+ " reporting. Motor vehicle collision victim, "
          +:+ patient_name +:+ ", SSN " +:+ patient_ssn
          +:+ ". Multiple trauma, suspected internal bleeding. Patient is semi-conscious. ETA 10 minutes.";
        "Patient has visible trauma to chest and abdomen. Possible rib fractures. Blood pressure dropping. Started two large bore IVs with normal saline. Rapid transport initiated.";
        "Update: Patient becoming more unstable. Signs of shock developing. Increased fluid resuscitation. Surgery team should be notified immediately. ETA 5 minutes."];
     current_note_index := 0 |}.

Definition get_scenario_notes (self : EMTVoiceSimulator) : list string :=
  if String.eqb (scenario self) "mi_patient" then mi_scenario_notes self
  else if String.eqb (scenario self) "trauma" then trauma_scenario_notes self
  else mi_scenario_notes self.

Record VoiceNote := {
  vn_timestamp : string;
  vn_ambulance_id : string;
  vn_patient_id : string;
  vn_emt_name : string;
  vn_voice_note : string;
  vn_note_type : string;
  vn_eta_minutes : Z
}.

(** [self.current_note_index = i] *)
Definition set_current_note_index (self : EMTVoiceSimulator) (i : Z)
  : EMTVoiceSimulator :=
  {| scenario := scenario self;
     ambulance_id := ambulance_id self;
     patient_id := patient_id self;
     emt_name := emt_name self;
     patient_name := patient_name self;
     patient_ssn := patient_ssn self;
     eta_minutes := eta_minutes self;
     mi_scenario_notes := mi_scenario_notes self;
     trauma_scenario_notes := trauma_scenario_notes self;
     current_note_index := i |}.

(** The note returned once the sequence is exhausted. *)
Definition final_update (self : EMTVoiceSimulator) : string :=
  "Final update: Arriving at hospital now. Patient " +:+ patient_name self
    +:+ " ready for immediate transfer to ER team.".

(** One call; [now] is the reading of [datetime.now().isoformat()].
    The result is the returned dictionary and the object after the
    call; [None] is the [IndexError] of [notes[...]]. *)
Definition generate_voice_note (now : string) (self : EMTVoiceSimulator)
  : option (VoiceNote * EMTVoiceSimulator) :=
  let notes := get_scenario_notes self in
  '(note_text, self) ←
    (if current_note_index self >=? Z.of_nat (length notes)
     then Some (final_update self, self)
     else
       note_text ← Py.index notes (current_note_index self);
       Some (note_text,
             set_current_note_index self (current_note_index self + 1)));
  Some ({| vn_timestamp := now;
           vn_ambulance_id := ambulance_id self;
           vn_patient_id := patient_id self;
           vn_emt_name := emt_name self;
           vn_voice_note := note_text;
           vn_note_type := "voice_transcription";
           vn_eta_minutes :=
             Z.max 0 (eta_minutes self - current_note_index self * 2) |},
        self).

(** A sequence of calls, one per clock reading: every returned note
    with the object as that call left it. *)
Fixpoint calls (clock : list string) (self : EMTVoiceSimulator)
  : option (list (VoiceNote * EMTVoiceSimulator)) :=
  match clock with
  | [] => Some []
  | now :: later =>
      '(note, self') ← generate_voice_note now self;
      rest ← calls later self';
      Some ((note, self') :: rest)
  end.

(** The ETA the previous call returned; before the first call, the
    initial [eta_minutes]. *)
Definition previous_eta (trace : list (VoiceNote * EMTVoiceSimulator))
    (k : nat) : Z :=
  match k with
  | O => 8
  | S j => default 8 ((λ p, vn_eta_minutes p.1) <$> trace !! j)
  end.

(** *** The note sequence and the ETA *)

Lemma scenario_notes_length (sc : string) :
  length (get_scenario_notes (__init__ sc)) = 5%nat ∨
  length (get_scenario_notes (__init__ sc)) = 3%nat.
Proof.
  unfold get_scenario_notes. simpl.
  destruct (String.eqb sc "mi_patient"); [left; reflexivity|].
  destruct (String.eqb sc "trauma"); [right | left]; reflexivity.
Qed.

Lemma get_scenario_notes_index (self : EMTVoiceSimulator) (i : Z) :
  get_scenario_notes (set_current_note_index self i) = get_scenario_notes self.
Proof. reflexivity. Qed.

(** One call on the object that [i] earlier calls have advanced. *)
Lemma generate_voice_note_at (sc now : string) (i : nat) :
  let self := set_current_note_index (__init__ sc) (Z.of_nat i) in
  let notes := get_scenario_notes (__init__ sc) in
  let i' := Nat.min (S i) (length notes) in
  (i ≤ length notes)%nat →
  ∃ note,
    generate_voice_note now self
      = Some (note, set_current_note_index (__init__ sc) (Z.of_nat i')) ∧
    vn_voice_note note = default (final_update (__init__ sc)) (notes !! i) ∧
    vn_eta_minutes note = Z.max 0 (8 - 2 * Z.of_nat i').
Proof.
  intros self notes i' Hi. subst self i'.
  unfold generate_voice_note.
  rewrite get_scenario_notes_index. fold notes.
  cbn [current_note_index set_current_note_index].
  destruct (Z.geb_spec (Z.of_nat i) (Z.of_nat (length notes))) as [Hge|Hlt].
  - assert (i = length notes) by lia. subst i.
    rewrite Nat.min_r by lia.
    cbn [mbind option_bind].
    eexists. split; [reflexivity|]. cbn. split.
    + rewrite (lookup_ge_None_2 notes (length notes)) by lia. reflexivity.
    + f_equal. lia.
  - assert (Hlt' : (i < length notes)%nat) by lia.
    rewrite Nat.min_l by lia.
    destruct (lookup_lt_is_Some_2 notes i Hlt') as [text Htext].
    unfold Py.index. fold notes.
    destruct (Z.ltb_spec (Z.of_nat i) 0) as [?|_]; [lia|].
    rewrite Nat2Z.id, Htext.
    cbn [mbind option_bind].
    eexists. split.
    + replace (Z.of_nat i + 1) with (Z.of_nat (S i)) by lia. reflexivity.
    + cbn. split; [reflexivity|]. f_equal. lia.
Qed.

Lemma calls_from (sc : string) (clock : list string) :
  let notes := get_scenario_notes (__init__ sc) in
  ∀ i : nat, (i ≤ length notes)%nat →
  ∃ trace,
    calls clock (set_current_note_index (__init__ sc) (Z.of_nat i))
      = Some trace ∧
    length trace = length clock ∧
    ∀ k note self', trace !! k = Some (note, self') →
      self' = set_current_note_index (__init__ sc)
                (Z.of_nat (Nat.min (S (i + k)) (length notes))) ∧
      vn_voice_note note
        = default (final_update (__init__ sc)) (notes !! (i + k)%nat) ∧
      vn_eta_minutes note
        = Z.max 0 (8 - 2 * Z.of_nat (Nat.min (S (i + k)) (length notes))).
Proof.
  intros notes. induction clock as [|now later IH]; intros i Hi.
  - exists []. split; [reflexivity|]. split; [reflexivity|].
    intros k note self' Hk. inversion Hk.
  - destruct (generate_voice_note_at sc now i Hi) as (note & Hcall & Htext & Heta).
    fold notes in Hcall, Htext, Heta.
    assert (Hi' : (Nat.min (S i) (length notes) ≤ length notes)%nat) by lia.
    destruct (IH _ Hi') as (trace & Hrest & Hlen & Hall).
    cbn [calls]. rewrite Hcall. cbn [mbind option_bind]. rewrite Hrest.
    cbn [mbind option_bind].
    eexists. split; [reflexivity|]. split; [simpl; lia|].
    intros [|k] note' self' Hk.
    + injection Hk as <- <-. rewrite Nat.add_0_r. auto.
    + apply Hall in Hk as (-> & Hv & He).
      replace (Nat.min (S (Nat.min (S i) (length notes) + k)) (length notes))
        with (Nat.min (S (i + S k)) (length notes)) in * by lia.
      split; [reflexivity|]. split; [|exact He].
      rewrite Hv.
      destruct (Nat.le_gt_cases (length notes) (S i)) as [Hle|Hgt].
      * rewrite Nat.min_r by lia.
        rewrite !(lookup_ge_None_2 notes) by lia. reflexivity.
      * rewrite Nat.min_l by lia. f_equal. f_equal. lia.
Qed.

(** C8 (as amended).  From a newly constructed generator, the call
    number [k] (counting from 0) returns note [k] of the scenario's
    sequence and moves the cursor to [k + 1] while notes remain;
    later calls return the fixed final update and leave the cursor at
    the end of the sequence.  The ETA returned is
    [max 0 (8 - 2 * cursor)]: on a call that advances the cursor it is
    the previous ETA less 2, floored at zero; on the other calls it is
    the previous ETA; it is never below zero and never increases. *)
Theorem generate_voice_note_sequence (sc : string) (clock : list string) :
  let notes := get_scenario_notes (__init__ sc) in
  ∃ trace, calls clock (__init__ sc) = Some trace ∧
    length trace = length clock ∧
    ∀ k note self', trace !! k = Some (note, self') →
      current_note_index self' = Z.of_nat (Nat.min (S k) (length notes)) ∧
      ((k < length notes)%nat → notes !! k = Some (vn_voice_note note)) ∧
      ((length notes ≤ k)%nat →
         vn_voice_note note = final_update (__init__ sc)) ∧
      vn_eta_minutes note = Z.max 0 (8 - 2 * current_note_index self') ∧
      0 ≤ vn_eta_minutes note ∧
      vn_eta_minutes note ≤ previous_eta trace k ∧
      ((k < length notes)%nat →
         vn_eta_minutes note = Z.max 0 (previous_eta trace k - 2)) ∧
      ((length notes ≤ k)%nat → vn_eta_minutes note = previous_eta trace k).
Proof.
  intros notes.
  destruct (calls_from sc clock 0%nat) as (trace & Hcalls & Hlen & Hall);
    [lia|].
  fold notes in Hall.
  exists trace. split; [exact Hcalls|]. split; [exact Hlen|].
  intros k note self' Hk.
  destruct (Hall k note self' Hk) as (-> & Htext & Heta).
  cbn [Nat.add] in Htext, Heta |- *.
  cbn [current_note_index set_current_note_index].
  assert (Hprev : previous_eta trace k
                  = Z.max 0 (8 - 2 * Z.of_nat (Nat.min k (length notes)))).
  { destruct k as [|j]; [reflexivity|]. simpl.
    assert (Hj : (j < length trace)%nat).
    { apply lookup_lt_Some in Hk. lia. }
    destruct (lookup_lt_is_Some_2 trace j Hj) as [[note0 self0] Hj0].
    rewrite Hj0. simpl.
    destruct (Hall j note0 self0 Hj0) as (_ & _ & Heta0). exact Heta0. }
  assert (Hnotes : (1 ≤ length notes)%nat).
  { destruct (scenario_notes_length sc) as [H|H]; fold notes in H; lia. }
  rewrite Hprev, Heta. split_and!; try lia.
  - intros Hlt. rewrite Htext.
    destruct (lookup_lt_is_Some_2 notes k Hlt) as [text ->]. reflexivity.
  - intros Hge. rewrite Htext, (lookup_ge_None_2 notes k) by lia. reflexivity.
Qed.

Lemma generate_voice_note_sequence_witness :
  ∃ trace note self',
    calls ["t1"; "t2"; "t3"; "t4"] (__init__ "trauma") = Some trace ∧
    trace !! 3%nat = Some (note, self') ∧
    current_note_index self' = 3 ∧ vn_eta_minutes note = 2.
Proof.
  destruct (generate_voice_note_sequence "trauma" ["t1"; "t2"; "t3"; "t4"])
    as (trace & Hcalls & Hlen & Hall).
  destruct trace as [|p0 [|p1 [|p2 [|[note self'] [|]]]]];
    try discriminate Hlen.
  exists [p0; p1; p2; (note, self')], note, self'.
  split; [exact Hcalls|]. split; [reflexivity|].
  destruct (Hall 3%nat note self' eq_refl) as (Hidx & _ & _ & Heta & _).
  split; [exact Hidx | rewrite Heta, Hidx; reflexivity].
Defined.

(** C8, counterexample to the unamended sentence: in the default
    scenario the fifth call advances the cursor from 4 to 5, yet it
    returns the ETA 0 that the fourth call returned, not 2 less. *)
Lemma fifth_call_advances_without_lowering_eta :
  ∃ trace,
    calls ["t1"; "t2"; "t3"; "t4"; "t5"] (__init__ "mi_patient")
      = Some trace ∧
    (λ p, (current_note_index p.2, vn_eta_minutes p.1)) <$> trace
      = [(1, 6); (2, 4); (3, 2); (4, 0); (5, 0)] ∧
    (vn_voice_note ∘ fst) <$> trace
      = get_scenario_notes (__init__ "mi_patient").
Proof.
  eexists. split; [vm_compute; reflexivity|]. split; reflexivity.
Qed.

(** [stream_data]: the notes the generator yields when it is asked
    for one note per clock reading, with a flag that tells whether
    the loop was left through its [break].  (The pause between two
    notes, [time.sleep], is not modelled.) *)
Fixpoint stream_data (clock : list string) (self : EMTVoiceSimulator)
  : option (list VoiceNote * bool) :=
  match clock with
  | [] => Some ([], false)
  | now :: later =>
      if current_note_index self
           <=? Z.of_nat (length (get_scenario_notes self))
      then
        '(voice_note, self) ← generate_voice_note now self;
        '(rest, stopped) ← stream_data later self;
        Some (voice_note :: rest, stopped)
      else Some ([], true)
  end.

(** Every text a simulator can put in a voice note: the notes of the
    two scenarios and the final update. *)
Definition all_notes : list string :=
  (mi_scenario_notes (__init__ "mi_patient") ++
   trauma_scenario_notes (__init__ "mi_patient") ++
   [final_update (__init__ "mi_patient")])%list.

(** What the dashboards show of a voice note: its text after
    [AparaviRedactor.redact_text]. *)
Definition redacted_note (note : VoiceNote) : string :=
  AparaviRedactor.redact_text (vn_voice_note note).

(** The checks made on each redacted text. *)
Definition redaction_checks (text : string) : bool :=
  let redacted := AparaviRedactor.redact_text text in
  negb (AparaviRedactor.contains "123-45-6789" redacted) &&
  negb (AparaviRedactor.contains "Sarah" redacted) &&
  negb (AparaviRedactor.contains "John Smith" redacted) &&
  AparaviRedactor.is_hipaa_compliant redacted &&
  match AparaviRedactor._detect_pii_locally redacted with
  | [] => true
  | _ => false
  end &&
  Bool.eqb (AparaviRedactor.contains "Johnson" redacted)
           (AparaviRedactor.contains "Patient Sarah Johnson" text).

Lemma stream_data_from (sc : string) (clock : list string) :
  let notes := get_scenario_notes (__init__ sc) in
  ∀ i : nat, (i ≤ length notes)%nat →
  ∃ trace,
    calls clock (set_current_note_index (__init__ sc) (Z.of_nat i))
      = Some trace ∧
    stream_data clock (set_current_note_index (__init__ sc) (Z.of_nat i))
      = Some (fst <$> trace, false).
Proof.
  intros notes. induction clock as [|now later IH]; intros i Hi.
  - exists []. split; reflexivity.
  - destruct (generate_voice_note_at sc now i Hi) as (note & Hcall & _).
    fold notes in Hcall.
    assert (Hi' : (Nat.min (S i) (length notes) ≤ length notes)%nat) by lia.
    destruct (IH _ Hi') as (trace & Hcalls & Hstream).
    exists ((note, set_current_note_index (__init__ sc)
                     (Z.of_nat (Nat.min (S i) (length notes)))) :: trace).
    cbn [calls stream_data]. rewrite get_scenario_notes_index. fold notes.
    cbn [current_note_index set_current_note_index].
    destruct (Z.leb_spec (Z.of_nat i) (Z.of_nat (length notes))); [|lia].
    rewrite Hcall. cbn [mbind option_bind]. rewrite Hcalls, Hstream.
    split; reflexivity.
Qed.

(** X18.  The stream of a newly constructed simulator never ends:
    however many notes are asked for, [stream_data] yields that many
    and does not reach its [break]; the notes are those of successive
    [generate_voice_note] calls, so from the end of the scenario on
    every note is the final update. *)
Theorem stream_data_never_stops (sc : string) (clock : list string) :
  let notes := get_scenario_notes (__init__ sc) in
  ∃ yielded trace,
    stream_data clock (__init__ sc) = Some (yielded, false) ∧
    length yielded = length clock ∧
    calls clock (__init__ sc) = Some trace ∧
    yielded = fst <$> trace ∧
    ∀ k note, yielded !! k = Some note →
      vn_voice_note note = default (final_update (__init__ sc)) (notes !! k) ∧
      ((length notes ≤ k)%nat →
       vn_voice_note note = final_update (__init__ sc)).
Proof.
  intros notes.
  destruct (stream_data_from sc clock 0%nat) as (trace & Hcalls & Hstream);
    [lia|].
  destruct (calls_from sc clock 0%nat) as (trace' & Hcalls' & Hlen & Hall);
    [lia|].
  change (set_current_note_index (__init__ sc) (Z.of_nat 0))
    with (__init__ sc) in *.
  rewrite Hcalls in Hcalls'. injection Hcalls' as <-.
  exists (fst <$> trace), trace.
  split; [exact Hstream|]. split; [rewrite length_fmap; exact Hlen|].
  split; [exact Hcalls|]. split; [reflexivity|].
  intros k note Hk. rewrite list_lookup_fmap in Hk.
  destruct (trace !! k) as [[note' self']|] eqn:Hk'; [|discriminate].
  injection Hk as <-.
  destruct (Hall k note' self' Hk') as (_ & Htext & _).
  cbn [Nat.add] in Htext. fold notes in Htext.
  split; [exact Htext|].
  intros Hge. rewrite Htext, (lookup_ge_None_2 notes k) by lia. reflexivity.
Qed.

Lemma note_in_all_notes (sc : string) (k : nat) :
  In (default (final_update (__init__ sc))
              (get_scenario_notes (__init__ sc) !! k)) all_notes.
Proof.
  unfold get_scenario_notes, all_notes. cbn [scenario __init__].
  change (final_update (__init__ sc)) with (final_update (__init__ "mi_patient")).
  destruct (String.eqb sc "mi_patient"); [|destruct (String.eqb sc "trauma")].
  all: cbn [mi_scenario_notes trauma_scenario_notes __init__].
  all: do 6 (destruct k as [|k]; [cbn; tauto|]); cbn; tauto.
Qed.

Lemma all_notes_redaction_checks :
  forallb redaction_checks all_notes = true.
Proof. vm_compute. reflexivity. Qed.

(** X5.  Whatever the scenario and however many notes are produced,
    the text shown of a voice note where [AparaviRedactor] is the
    redactor (the note after [redact_text]) contains neither the
    patient's SSN nor the first name nor the EMT's name, holds no
    match of any PII pattern and is HIPAA compliant.  The patient's
    surname is not
    always removed: where the text reads "Patient Sarah Johnson" the
    pattern takes "Patient Sarah" for the name and "Johnson" stays,
    and this is so in the final update, that is in every note from
    the end of the scenario on. *)
Theorem redacted_notes_keep_the_surname (sc : string) (clock : list string) :
  ∃ trace, calls clock (__init__ sc) = Some trace ∧
    ∀ k note self', trace !! k = Some (note, self') →
      AparaviRedactor.contains "123-45-6789" (redacted_note note) = false ∧
      AparaviRedactor.contains "Sarah" (redacted_note note) = false ∧
      AparaviRedactor.contains "John Smith" (redacted_note note) = false ∧
      AparaviRedactor.is_hipaa_compliant (redacted_note note) = true ∧
      AparaviRedactor._detect_pii_locally (redacted_note note) = [] ∧
      AparaviRedactor.contains "Johnson" (redacted_note note) =
        AparaviRedactor.contains "Patient Sarah Johnson"
          (vn_voice_note note) ∧
      ((length (get_scenario_notes (__init__ sc)) ≤ k)%nat →
       AparaviRedactor.contains "Johnson" (redacted_note note) = true).
Proof.
  destruct (calls_from sc clock 0%nat) as (trace & Hcalls & _ & Hall); [lia|].
  exists trace. split; [exact Hcalls|].
  intros k note self' Hk.
  destruct (Hall k note self' Hk) as (_ & Htext & _).
  cbn [Nat.add] in Htext.
  pose proof (note_in_all_notes sc k) as Hin. rewrite <- Htext in Hin.
  pose proof all_notes_redaction_checks as Hchecks.
  rewrite forallb_forall in Hchecks. apply Hchecks in Hin.
  unfold redaction_checks in Hin. fold (redacted_note note) in Hin.
  rewrite !andb_true_iff, !negb_true_iff in Hin.
  destruct Hin as (((((H1 & H2) & H3) & H4) & H5) & H6).
  apply Bool.eqb_prop in H6.
  split_and!; try assumption.
  - destruct (AparaviRedactor._detect_pii_locally (redacted_note note));
      [reflexivity | discriminate].
  - intros Hge. rewrite H6, Htext.
    rewrite (lookup_ge_None_2 _ k) by lia. reflexivity.
Qed.

End EMTVoiceSimulator.

(** ** simulators/telemetry_simulator.py *)

Module TelemetrySimulator.

Record TelemetrySimulator := {
  patient_condition : string;
  ambulance_id : string;
  patient_id : string
}.

Definition __init__ (patient_condition : string) : TelemetrySimulator :=
  {| patient_condition := patient_condition;
     ambulance_id := "AMB-001";
     patient_id := "P-2024-001" |}.

(** The dictionary [generate_vitals] returns, by its nine keys. *)
Record Vitals := {
  v_timestamp : string;
  v_ambulance_id : string;
  v_patient_id : string;
  v_heart_rate : Z;
  v_spo2 : Z;
  v_blood_pressure_systolic : Z;
  v_blood_pressure_diastolic : Z;
  v_blood_pressure : string;
  v_condition : string
}.

(** [now] is the reading of [datetime.now().isoformat()]. *)
Definition generate_vitals {rng : Type} (randint : Z → Z → rng → Z * rng)
    (now : string) (self : TelemetrySimulator) (g : rng) : Vitals * rng :=
  let '(heart_rate, spo2, systolic_bp, diastolic_bp, g) :=
    if String.eqb (patient_condition self) "critical" then
      (* Simulating myocardial infarction (MI) patient *)
      let '(heart_rate, g) := randint 95 135 g in
      let '(spo2, g) := randint 88 94 g in
      let '(systolic_bp, g) := randint 85 110 g in
      let '(diastolic_bp, g) := randint 50 70 g in
      (heart_rate, spo2, systolic_bp, diastolic_bp, g)
    else if String.eqb (patient_condition self) "deteriorating" then
      (* Patient getting worse *)
      let '(heart_rate, g) := randint 110 145 g in
      let '(spo2, g) := randint 85 91 g in
      let '(systolic_bp, g) := randint 75 95 g in
      let '(diastolic_bp, g) := randint 45 60 g in
      (heart_rate, spo2, systolic_bp, diastolic_bp, g)
    else
      (* Stable patient *)
      let '(heart_rate, g) := randint 60 90 g in
      let '(spo2, g) := randint 95 99 g in
      let '(systolic_bp, g) := randint 110 130 g in
      let '(diastolic_bp, g) := randint 70 85 g in
      (heart_rate, spo2, systolic_bp, diastolic_bp, g) in
  ({| v_timestamp := now;
      v_ambulance_id := ambulance_id self;
      v_patient_id := patient_id self;
      v_heart_rate := heart_rate;
      v_spo2 := spo2;
      v_blood_pressure_systolic := systolic_bp;
      v_blood_pressure_diastolic := diastolic_bp;
      v_blood_pressure := Py.str systolic_bp +:+ "/" +:+ Py.str diastolic_bp;
      v_condition := patient_condition self |},
   g).

(** The integer entries of the dictionary: what the scoring functions
    and the alert checks read of it. *)
Definition readings (v : Vitals) : gmap string Z :=
  <["heart_rate" := v_heart_rate v]>
    (<["spo2" := v_spo2 v]>
       (<["blood_pressure_systolic" := v_blood_pressure_systolic v]>
          (<["blood_pressure_diastolic" := v_blood_pressure_diastolic v]> ∅))).

(** The ranges of the four readings, by patient condition. *)
Record Ranges := {
  heart_rate_range : Z * Z;
  spo2_range : Z * Z;
  systolic_range : Z * Z;
  diastolic_range : Z * Z
}.

Definition ranges_of (condition : string) : Ranges :=
  if String.eqb condition "critical" then
    {| heart_rate_range := (95, 135); spo2_range := (88, 94);
       systolic_range := (85, 110); diastolic_range := (50, 70) |}
  else if String.eqb condition "deteriorating" then
    {| heart_rate_range := (110, 145); spo2_range := (85, 91);
       systolic_range := (75, 95); diastolic_range := (45, 60) |}
  else
    {| heart_rate_range := (60, 90); spo2_range := (95, 99);
       systolic_range := (110, 130); diastolic_range := (70, 85) |}.

Definition within (range : Z * Z) (z : Z) : Prop := range.1 ≤ z ≤ range.2.

Definition in_ranges (condition : string) (v : Vitals) : Prop :=
  within (heart_rate_range (ranges_of condition)) (v_heart_rate v) ∧
  within (spo2_range (ranges_of condition)) (v_spo2 v) ∧
  within (systolic_range (ranges_of condition)) (v_blood_pressure_systolic v) ∧
  within (diastolic_range (ranges_of condition))
    (v_blood_pressure_diastolic v).

Ltac draw Hrange g z g' H :=
  match goal with
  | |- context [?randint ?a ?b g] =>
      pose proof (Hrange a b g ltac:(lia)) as H;
      destruct (randint a b g) as [z g']
  end.

Lemma generate_vitals_in_ranges {rng : Type}
    (randint : Z → Z → rng → Z * rng) (now : string)
    (self : TelemetrySimulator) (g : rng) :
  Py.randint_in_range randint →
  in_ranges (patient_condition self) (generate_vitals randint now self g).1.
Proof.
  intros Hrange. unfold generate_vitals, in_ranges, ranges_of, within.
  destruct (String.eqb (patient_condition self) "critical");
    [|destruct (String.eqb (patient_condition self) "deteriorating")].
  all: draw Hrange g hr g1 H1; draw Hrange g1 spo2 g2 H2;
    draw Hrange g2 sbp g3 H3; draw Hrange g3 dbp g4 H4.
  all: cbn in *; auto.
Qed.

(** X15.  Whatever the random source draws within its ranges,
    [generate_vitals] returns readings inside the ranges of the
    patient condition (any condition other than "critical" and
    "deteriorating" is treated as stable); in every condition the
    heart rate is between 60 and 145, SpO2 between 85 and 99, the
    diastolic pressure at least 45 and at least 15 below the
    systolic, which is at most 130; the identifiers, the condition
    and the clock reading are passed through and the blood-pressure
    text is the two pressures joined by a slash. *)
Theorem generate_vitals_within_condition_ranges {rng : Type}
    (randint : Z → Z → rng → Z * rng) (now : string)
    (self : TelemetrySimulator) (g : rng) :
  Py.randint_in_range randint →
  let v := (generate_vitals randint now self g).1 in
  in_ranges (patient_condition self) v ∧
  60 ≤ v_heart_rate v ≤ 145 ∧
  85 ≤ v_spo2 v ≤ 99 ∧
  45 ≤ v_blood_pressure_diastolic v ∧
  v_blood_pressure_diastolic v + 15 ≤ v_blood_pressure_systolic v ≤ 130 ∧
  v_blood_pressure v =
    Py.str (v_blood_pressure_systolic v) +:+ "/" +:+
    Py.str (v_blood_pressure_diastolic v) ∧
  v_timestamp v = now ∧ v_condition v = patient_condition self ∧
  v_ambulance_id v = ambulance_id self ∧ v_patient_id v = patient_id self.
Proof.
  intros Hrange v.
  pose proof (generate_vitals_in_ranges randint now self g Hrange) as Hin.
  fold v in Hin.
  split; [exact Hin|].
  assert (Hrest : v_blood_pressure v =
            Py.str (v_blood_pressure_systolic v) +:+ "/" +:+
            Py.str (v_blood_pressure_diastolic v) ∧
          v_timestamp v = now ∧ v_condition v = patient_condition self ∧
          v_ambulance_id v = ambulance_id self ∧
          v_patient_id v = patient_id self).
  { subst v. unfold generate_vitals.
    destruct (String.eqb (patient_condition self) "critical");
      [|destruct (String.eqb (patient_condition self) "deteriorating")].
    all: destruct (randint _ _ g) as [hr g1], (randint _ _ g1) as [spo2 g2],
           (randint _ _ g2) as [sbp g3], (randint _ _ g3) as [dbp g4].
    all: cbn; repeat split. }
  revert Hin. unfold in_ranges, ranges_of, within.
  destruct (String.eqb (patient_condition self) "critical");
    [|destruct (String.eqb (patient_condition self) "deteriorating")];
    cbn; intros (H1 & H2 & H3 & H4); do 4 (split; [lia|]); exact Hrest.
Qed.

Lemma generate_vitals_within_condition_ranges_witness :
  let v := (generate_vitals (λ a _ (g : unit), (a, g)) "t0"
              (__init__ "deteriorating") tt).1 in
  v_blood_pressure_diastolic v + 15 ≤ v_blood_pressure_systolic v ≤ 130.
Proof.
  apply (generate_vitals_within_condition_ranges
           (λ a _ (g : unit), (a, g)) "t0" (__init__ "deteriorating") tt).
  intros a b g Hab. cbn. lia.
Defined.

End TelemetrySimulator.

(** ** pipeline/ambulance_pipeline.py *)

Module SmartAmbulanceSystem.

(** A row of the telemetry table ([TelemetrySchema]). *)
Record VitalsRow := {
  timestamp : string;
  ambulance_id : string;
  patient_id : string;
  heart_rate : Z;
  spo2 : Z;
  blood_pressure_systolic : Z;
  blood_pressure_diastolic : Z;
  blood_pressure : string;
  condition : string
}.

Record AlertInfo := {
  ai_has_alert : bool;
  ai_severity : string;
  ai_alerts : list string;
  ai_timestamp : string;
  ai_heart_rate : Z;
  ai_spo2 : Z;
  ai_blood_pressure : string
}.

Definition check_critical_vitals (vitals_row : VitalsRow) : AlertInfo :=
  let heart_rate := heart_rate vitals_row in
  let spo2 := spo2 vitals_row in
  let systolic_bp := blood_pressure_systolic vitals_row in
  let alerts : list string := [] in
  let severity := "NORMAL" in
  (* Critical thresholds *)
  let '(alerts, severity) :=
    if (heart_rate <? 40) || (heart_rate >? 150)
    then ((alerts ++
             ["CRITICAL HEART RATE: " +:+ Py.str heart_rate +:+ " bpm"])%list,
          "CODE_BLUE_PREP")
    else if (heart_rate <? 50) || (heart_rate >? 120)
    then ((alerts ++
             ["Abnormal Heart Rate: " +:+ Py.str heart_rate +:+ " bpm"])%list,
          "WARNING")
    else (alerts, severity) in
  let '(alerts, severity) :=
    if spo2 <? 85
    then ((alerts ++ ["CRITICAL OXYGEN: " +:+ Py.str spo2 +:+ "%"])%list,
          "CODE_BLUE_PREP")
    else if spo2 <? 90
    then ((alerts ++ ["Low Oxygen: " +:+ Py.str spo2 +:+ "%"])%list,
          "WARNING")
    else (alerts, severity) in
  let '(alerts, severity) :=
    if systolic_bp <? 70
    then ((alerts ++
             ["CRITICAL HYPOTENSION: " +:+ Py.str systolic_bp +:+ " mmHg"])%list,
          "CODE_BLUE_PREP")
    else if systolic_bp <? 90
    then ((alerts ++
             ["Hypotension: " +:+ Py.str systolic_bp +:+ " mmHg"])%list,
          "WARNING")
    else (alerts, severity) in
  {| ai_has_alert := (0 <? length alerts)%nat;
     ai_severity := severity;
     ai_alerts := alerts;
     ai_timestamp := timestamp vitals_row;
     ai_heart_rate := heart_rate;
     ai_spo2 := spo2;
     ai_blood_pressure := blood_pressure vitals_row |}.

(** The three checks in the order in which they are made, each with
    the level it finds: 2 critical, 1 abnormal, 0 in range. *)
Definition heart_rate_level (hr : Z) : Z :=
  if (hr <? 40) || (hr >? 150) then 2
  else if (hr <? 50) || (hr >? 120) then 1 else 0.
Definition spo2_level (spo2 : Z) : Z :=
  if spo2 <? 85 then 2 else if spo2 <? 90 then 1 else 0.
Definition systolic_level (sbp : Z) : Z :=
  if sbp <? 70 then 2 else if sbp <? 90 then 1 else 0.

Definition severity_of_level (level : Z) : string :=
  if level =? 2 then "CODE_BLUE_PREP"
  else if level =? 1 then "WARNING" else "NORMAL".

(** The level of the last check that found something; 0 when none did. *)
Definition last_finding (levels : list Z) : Z :=
  default 0 (last (filter (λ l, l ≠ 0) levels)).

(** X16.  [check_critical_vitals] raises one alert per reading out of
    range, and its severity is that of the last check that found
    something, in the order heart rate, oxygen, systolic pressure:
    not the worst finding.  A systolic pressure from 70 to 89 gives
    "WARNING" whatever the heart rate and the oxygen saturation are.
    There is an alert exactly when the severity is not "NORMAL". *)
Theorem check_critical_vitals_last_finding_wins (vitals_row : VitalsRow) :
  let r := check_critical_vitals vitals_row in
  let levels := [heart_rate_level (heart_rate vitals_row);
                 spo2_level (spo2 vitals_row);
                 systolic_level (blood_pressure_systolic vitals_row)] in
  ai_severity r = severity_of_level (last_finding levels) ∧
  length (ai_alerts r) = length (filter (λ l, l ≠ 0) levels) ∧
  (ai_has_alert r = true ↔ ai_severity r ≠ "NORMAL") ∧
  (70 ≤ blood_pressure_systolic vitals_row < 90 → ai_severity r = "WARNING") ∧
  (ai_severity r = "CODE_BLUE_PREP" →
   Exists (λ l, l = 2) levels) ∧
  ai_heart_rate r = heart_rate vitals_row ∧ ai_spo2 r = spo2 vitals_row ∧
  ai_timestamp r = timestamp vitals_row ∧
  ai_blood_pressure r = blood_pressure vitals_row.
Proof.
  intros r levels. subst r levels.
  unfold check_critical_vitals, heart_rate_level, spo2_level, systolic_level.
  generalize (heart_rate vitals_row), (spo2 vitals_row),
    (blood_pressure_systolic vitals_row).
  intros hr spo2 sbp.
  assert (Hsbp : 70 ≤ sbp < 90 → (sbp <? 70) = false ∧ (sbp <? 90) = true).
  { intros H. split; [apply Z.ltb_ge | apply Z.ltb_lt]; lia. }
  destruct ((hr <? 40) || (hr >? 150)); [|destruct ((hr <? 50) || (hr >? 120))];
    (destruct (spo2 <? 85); [|destruct (spo2 <? 90)]).
  all: split_and!; try reflexivity;
    try (intros H; apply Hsbp in H as [-> ->]; reflexivity).
  all: clear Hsbp; (destruct (sbp <? 70); [|destruct (sbp <? 90)]).
  all: try reflexivity.
  all: try (cbn; split; [reflexivity || discriminate | intros H; congruence || (exfalso; apply H; reflexivity) ]).
  all: try (intros H; first [discriminate H | cbn; auto using Exists_cons_hd, Exists_cons_tl]).
Qed.

End SmartAmbulanceSystem.

(** ** dashboard/er_dashboard.py, dashboard/improved_er_dashboard.py *)

Module ERDashboard.

(** [check_vitals_alert], the same function in both dashboards;
    [None] is the [KeyError] of a missing reading. *)
Definition check_vitals_alert (vitals : gmap string Z)
  : option (list string * string) :=
  let alerts : list string := [] in
  let severity := "NORMAL" in
  hr ← vitals !! "heart_rate";
  spo2 ← vitals !! "spo2";
  systolic ← vitals !! "blood_pressure_systolic";
  (* Critical thresholds *)
  let '(alerts, severity) :=
    if (hr <? 40) || (hr >? 150)
    then ((alerts ++
             ["🚨 CRITICAL HEART RATE: " +:+ Py.str hr +:+ " bpm"])%list,
          "CODE_BLUE_PREP")
    else if (hr <? 50) || (hr >? 120)
    then ((alerts ++
             ["⚠️ Abnormal Heart Rate: " +:+ Py.str hr +:+ " bpm"])%list,
          "WARNING")
    else (alerts, severity) in
  let '(alerts, severity) :=
    if spo2 <? 85
    then ((alerts ++ ["🚨 CRITICAL OXYGEN: " +:+ Py.str spo2 +:+ "%"])%list,
          "CODE_BLUE_PREP")
    else if spo2 <? 90
    then ((alerts ++ ["⚠️ Low Oxygen: " +:+ Py.str spo2 +:+ "%"])%list,
          "WARNING")
    else (alerts, severity) in
  let '(alerts, severity) :=
    if systolic <? 70
    then ((alerts ++
             ["🚨 CRITICAL HYPOTENSION: " +:+ Py.str systolic +:+ " mmHg"])%list,
          "CODE_BLUE_PREP")
    else if systolic <? 90
    then ((alerts ++
             ["⚠️ Hypotension: " +:+ Py.str systolic +:+ " mmHg"])%list,
          "WARNING")
    else (alerts, severity) in
  Some (alerts, severity).

(** The telemetry row that carries a simulated reading. *)
Definition row_of (v : TelemetrySimulator.Vitals)
  : SmartAmbulanceSystem.VitalsRow :=
  {| SmartAmbulanceSystem.timestamp := TelemetrySimulator.v_timestamp v;
     SmartAmbulanceSystem.ambulance_id := TelemetrySimulator.v_ambulance_id v;
     SmartAmbulanceSystem.patient_id := TelemetrySimulator.v_patient_id v;
     SmartAmbulanceSystem.heart_rate := TelemetrySimulator.v_heart_rate v;
     SmartAmbulanceSystem.spo2 := TelemetrySimulator.v_spo2 v;
     SmartAmbulanceSystem.blood_pressure_systolic :=
       TelemetrySimulator.v_blood_pressure_systolic v;
     SmartAmbulanceSystem.blood_pressure_diastolic :=
       TelemetrySimulator.v_blood_pressure_diastolic v;
     SmartAmbulanceSystem.blood_pressure :=
       TelemetrySimulator.v_blood_pressure v;
     SmartAmbulanceSystem.condition := TelemetrySimulator.v_condition v |}.

Lemma check_vitals_alert_readings (v : TelemetrySimulator.Vitals) :
  check_vitals_alert (TelemetrySimulator.readings v) =
    let hr := TelemetrySimulator.v_heart_rate v in
    let spo2 := TelemetrySimulator.v_spo2 v in
    let systolic := TelemetrySimulator.v_blood_pressure_systolic v in
    let '(alerts, severity) :=
      if (hr <? 40) || (hr >? 150)
      then (["🚨 CRITICAL HEART RATE: " +:+ Py.str hr +:+ " bpm"],
            "CODE_BLUE_PREP")
      else if (hr <? 50) || (hr >? 120)
      then (["⚠️ Abnormal Heart Rate: " +:+ Py.str hr +:+ " bpm"], "WARNING")
      else ([], "NORMAL") in
    let '(alerts, severity) :=
      if spo2 <? 85
      then ((alerts ++ ["🚨 CRITICAL OXYGEN: " +:+ Py.str spo2 +:+ "%"])%list,
            "CODE_BLUE_PREP")
      else if spo2 <? 90
      then ((alerts ++ ["⚠️ Low Oxygen: " +:+ Py.str spo2 +:+ "%"])%list,
            "WARNING")
      else (alerts, severity) in
    let '(alerts, severity) :=
      if systolic <? 70
      then ((alerts ++
               ["🚨 CRITICAL HYPOTENSION: " +:+ Py.str systolic
                  +:+ " mmHg"])%list,
            "CODE_BLUE_PREP")
      else if systolic <? 90
      then ((alerts ++
               ["⚠️ Hypotension: " +:+ Py.str systolic +:+ " mmHg"])%list,
            "WARNING")
      else (alerts, severity) in
    Some (alerts, severity).
Proof. reflexivity. Qed.

(** X17.  On a reading of the telemetry simulator, whatever the
    patient condition and whatever the random source draws within its
    ranges, the dashboards' [check_vitals_alert] succeeds and never
    returns the severity "CODE_BLUE_PREP"; for a stable patient it
    returns no alert and "NORMAL"; and the pipeline's
    [check_critical_vitals] gives the same severity and as many
    alerts on the same reading. *)
Theorem check_vitals_alert_on_simulated_readings {rng : Type}
    (randint : Z → Z → rng → Z * rng) (now condition : string) (g : rng) :
  Py.randint_in_range randint →
  let v := (TelemetrySimulator.generate_vitals randint now
              (TelemetrySimulator.__init__ condition) g).1 in
  let r := SmartAmbulanceSystem.check_critical_vitals (row_of v) in
  ∃ alerts severity,
    check_vitals_alert (TelemetrySimulator.readings v)
      = Some (alerts, severity) ∧
    severity ≠ "CODE_BLUE_PREP" ∧
    (condition ≠ "critical" → condition ≠ "deteriorating" →
     alerts = [] ∧ severity = "NORMAL") ∧
    severity = SmartAmbulanceSystem.ai_severity r ∧
    length alerts = length (SmartAmbulanceSystem.ai_alerts r).
Proof.
  intros Hrange v r. subst r.
  pose proof (TelemetrySimulator.generate_vitals_in_ranges randint now
                (TelemetrySimulator.__init__ condition) g Hrange) as Hin.
  fold v in Hin. clearbody v.
  rewrite check_vitals_alert_readings.
  unfold SmartAmbulanceSystem.check_critical_vitals, row_of.
  cbn [SmartAmbulanceSystem.heart_rate SmartAmbulanceSystem.spo2
       SmartAmbulanceSystem.blood_pressure_systolic].
  revert Hin.
  unfold TelemetrySimulator.in_ranges, TelemetrySimulator.ranges_of,
    TelemetrySimulator.within.
  cbn [TelemetrySimulator.patient_condition TelemetrySimulator.__init__].
  generalize (TelemetrySimulator.v_heart_rate v),
    (TelemetrySimulator.v_spo2 v),
    (TelemetrySimulator.v_blood_pressure_systolic v),
    (TelemetrySimulator.v_blood_pressure_diastolic v).
  intros hr spo2 sbp dbp.
  destruct (String.eqb_spec condition "critical") as [->|Hc];
    [|destruct (String.eqb_spec condition "deteriorating") as [->|Hd]];
    cbn; intros (H1 & H2 & H3 & H4).
  all: destruct (Z.ltb_spec hr 40); [lia|];
    destruct (Z.gtb_spec hr 150); [lia|];
    destruct (Z.ltb_spec spo2 85); [lia|];
    destruct (Z.ltb_spec sbp 70); [lia|]; cbn [orb].
  3: destruct (Z.ltb_spec hr 50); [lia|];
     destruct (Z.gtb_spec hr 120); [lia|];
     destruct (Z.ltb_spec spo2 90); [lia|];
     destruct (Z.ltb_spec sbp 90); [lia|]; cbn [orb].
  1, 2: destruct ((hr <? 50) || (hr >? 120)), (spo2 <? 90), (sbp <? 90).
  all: eexists _, _; (split; [reflexivity|]);
    (split; [discriminate|]); (split; [|split; reflexivity]).
  all: try (intros Hx; exfalso; apply Hx; reflexivity).
  all: try (intros _ Hx; exfalso; apply Hx; reflexivity).
  intros _ _. split; reflexivity.
Qed.

Lemma check_vitals_alert_on_simulated_readings_witness :
  ∃ alerts severity,
    check_vitals_alert
      (TelemetrySimulator.readings
         (TelemetrySimulator.generate_vitals (λ a _ (g : unit), (a, g)) "t0"
            (TelemetrySimulator.__init__ "deteriorating") tt).1)
      = Some (alerts, severity) ∧
    severity ≠ "CODE_BLUE_PREP".
Proof.
  destruct (check_vitals_alert_on_simulated_readings
              (λ a _ (g : unit), (a, g)) "t0" "deteriorating" tt)
    as (alerts & severity & Hcheck & Hsev & _).
  - intros a b g Hab. cbn. lia.
  - exists alerts, severity. split; [exact Hcheck | exact Hsev].
Defined.

(** *** The telemetry history and the voice notes, run by run *)

(** The part of the session state that a run of [main] updates: the
    telemetry history, the voice notes with their redacted text, and
    the two simulators.  In [improved_er_dashboard.py] these are the
    entries of the patient's dictionary. *)
Record Session := {
  telemetry_history : list TelemetrySimulator.Vitals;
  voice_notes : list (EMTVoiceSimulator.VoiceNote * string);
  telemetry_sim : TelemetrySimulator.TelemetrySimulator;
  voice_sim : EMTVoiceSimulator.EMTVoiceSimulator
}.

(** The state a first run starts from: empty lists and two new
    simulators (both dashboards construct them with ["critical"] and
    ["mi_patient"]). *)
Definition initial_session (condition scenario : string) : Session :=
  {| telemetry_history := [];
     voice_notes := [];
     telemetry_sim := TelemetrySimulator.__init__ condition;
     voice_sim := EMTVoiceSimulator.__init__ scenario |}.

(** What one run of [main] does to the session state after
    [initialize_session_state]; the two dashboards share these lines.
    [redact_text] is the redactor of the dashboard (Presidio in
    [er_dashboard.py], [AparaviRedactor] in
    [improved_er_dashboard.py]); [now] holds the clock readings of
    the telemetry entry and of the voice note.  The drawing of the
    page is left out, and so is the ['pii_risk'] entry that
    [improved_er_dashboard.py] adds to a voice note. *)
Definition refresh {rng : Type} (randint : Z → Z → rng → Z * rng)
    (redact_text : string → string) (now : string * string)
    (session : Session) (g : rng) : option (Session * rng) :=
  (* Get latest telemetry *)
  let '(latest_vitals, g) :=
    TelemetrySimulator.generate_vitals randint now.1
      (telemetry_sim session) g in
  let telemetry_history :=
    (telemetry_history session ++ [latest_vitals])%list in
  (* Keep only last 20 readings *)
  let telemetry_history :=
    if (20 <? length telemetry_history)%nat
    then Py.slice_from telemetry_history (-20)
    else telemetry_history in
  (* Check for alerts *)
  _ ← check_vitals_alert (TelemetrySimulator.readings latest_vitals);
  (* Simulate getting a new voice note periodically *)
  if (length (voice_notes session) <? length telemetry_history / 5)%nat
  then
    '(voice_data, voice_sim) ←
      EMTVoiceSimulator.generate_voice_note now.2 (voice_sim session);
    let redacted_note :=
      redact_text (EMTVoiceSimulator.vn_voice_note voice_data) in
    Some ({| telemetry_history := telemetry_history;
             voice_notes :=
               (voice_notes session ++ [(voice_data, redacted_note)])%list;
             telemetry_sim := telemetry_sim session;
             voice_sim := voice_sim |},
          g)
  else
    Some ({| telemetry_history := telemetry_history;
             voice_notes := voice_notes session;
             telemetry_sim := telemetry_sim session;
             voice_sim := voice_sim session |},
          g).

(** [improved_er_dashboard.py]: the patient's dictionary is created
    once and kept in the session state, so a run of [main] is
    [refresh], and the page re-runs [main] at every clock reading. *)
Fixpoint refreshes {rng : Type} (randint : Z → Z → rng → Z * rng)
    (redact_text : string → string) (clock : list (string * string))
    (session : Session) (g : rng) : option (Session * rng) :=
  match clock with
  | [] => Some (session, g)
  | now :: later =>
      '(session, g) ← refresh randint redact_text now session g;
      refreshes randint redact_text later session g
  end.

(** [initialize_session_state] of [er_dashboard.py].  The lists are
    created when their keys are missing, so they are kept from run to
    run; the simulators are created when the key ['simulator'] is
    missing, and no line of the file stores that key, so every run
    replaces both simulators by new ones. *)
Definition initialize_session_state (session : Session) : Session :=
  {| telemetry_history := telemetry_history session;
     voice_notes := voice_notes session;
     telemetry_sim := TelemetrySimulator.__init__ "critical";
     voice_sim := EMTVoiceSimulator.__init__ "mi_patient" |}.

(** [main] of [er_dashboard.py] *)
Definition main {rng : Type} (randint : Z → Z → rng → Z * rng)
    (redact_text : string → string) (now : string * string)
    (session : Session) (g : rng) : option (Session * rng) :=
  refresh randint redact_text now (initialize_session_state session) g.

(** The page re-runs [main] at every clock reading. *)
Fixpoint mains {rng : Type} (randint : Z → Z → rng → Z * rng)
    (redact_text : string → string) (clock : list (string * string))
    (session : Session) (g : rng) : option (Session * rng) :=
  match clock with
  | [] => Some (session, g)
  | now :: later =>
      '(session, g) ← main randint redact_text now session g;
      mains randint redact_text later session g
  end.

(** The state of [improved_er_dashboard.py] after [j] runs. *)
Definition shown (condition scenario : string)
    (redact_text : string → string) (j : nat) (session : Session) : Prop :=
  let notes :=
    EMTVoiceSimulator.get_scenario_notes
      (EMTVoiceSimulator.__init__ scenario) in
  let count := (Nat.min j 20 / 5)%nat in
  length (telemetry_history session) = Nat.min j 20 ∧
  telemetry_sim session = TelemetrySimulator.__init__ condition ∧
  voice_sim session =
    EMTVoiceSimulator.set_current_note_index
      (EMTVoiceSimulator.__init__ scenario)
      (Z.of_nat (Nat.min count (length notes))) ∧
  length (voice_notes session) = count ∧
  ∀ k note redacted,
    voice_notes session !! k = Some (note, redacted) →
    EMTVoiceSimulator.vn_voice_note note =
      default (EMTVoiceSimulator.final_update
                 (EMTVoiceSimulator.__init__ scenario)) (notes !! k) ∧
    redacted = redact_text (EMTVoiceSimulator.vn_voice_note note).

(** The state of [er_dashboard.py] after [j] runs. *)
Definition repeated (redact_text : string → string) (j : nat)
    (session : Session) : Prop :=
  let self := EMTVoiceSimulator.__init__ "mi_patient" in
  length (telemetry_history session) = Nat.min j 20 ∧
  length (voice_notes session) = (Nat.min j 20 / 5)%nat ∧
  ∀ k note redacted,
    voice_notes session !! k = Some (note, redacted) →
    Some (EMTVoiceSimulator.vn_voice_note note) =
      head (EMTVoiceSimulator.mi_scenario_notes self) ∧
    EMTVoiceSimulator.vn_eta_minutes note = 6 ∧
    redacted = redact_text (EMTVoiceSimulator.vn_voice_note note).

Lemma check_vitals_alert_total (v : TelemetrySimulator.Vitals) :
  is_Some (check_vitals_alert (TelemetrySimulator.readings v)).
Proof.
  rewrite check_vitals_alert_readings. cbv zeta.
  repeat match goal with
         | |- context [if ?b then _ else _] => destruct b
         end; eexists; reflexivity.
Qed.

Lemma notes_per_five_readings (j : nat) :
  (Nat.min j 20 / 5 ≤ Nat.min (S j) 20 / 5 ≤ Nat.min j 20 / 5 + 1)%nat.
Proof.
  destruct (Nat.le_gt_cases 20 j) as [Hbig|Hsmall].
  - rewrite !Nat.min_r by lia. lia.
  - rewrite !Nat.min_l by lia.
    do 20 (destruct j as [|j]; [cbn; lia|]). lia.
Qed.

(** One run of the shared lines, on a voice simulator that [i]
    earlier calls have advanced: the history grows up to 20 readings,
    and either nothing else changes or one voice note is fetched and
    appended with its redacted text. *)
Lemma refresh_step {rng : Type} (randint : Z → Z → rng → Z * rng)
    (redact_text : string → string) (scenario : string)
    (now : string * string) (j i : nat) (session : Session) (g : rng) :
  let notes :=
    EMTVoiceSimulator.get_scenario_notes
      (EMTVoiceSimulator.__init__ scenario) in
  let i' := Nat.min (S i) (length notes) in
  length (telemetry_history session) = Nat.min j 20 →
  length (voice_notes session) = (Nat.min j 20 / 5)%nat →
  voice_sim session =
    EMTVoiceSimulator.set_current_note_index
      (EMTVoiceSimulator.__init__ scenario) (Z.of_nat i) →
  (i ≤ length notes)%nat →
  ∃ session' g',
    refresh randint redact_text now session g = Some (session', g') ∧
    length (telemetry_history session') = Nat.min (S j) 20 ∧
    length (voice_notes session') = (Nat.min (S j) 20 / 5)%nat ∧
    telemetry_sim session' = telemetry_sim session ∧
    ((voice_notes session' = voice_notes session ∧
      voice_sim session' = voice_sim session) ∨
     ∃ note,
       voice_notes session' =
         (voice_notes session ++
          [(note, redact_text (EMTVoiceSimulator.vn_voice_note note))])%list ∧
       voice_sim session' =
         EMTVoiceSimulator.set_current_note_index
           (EMTVoiceSimulator.__init__ scenario) (Z.of_nat i') ∧
       EMTVoiceSimulator.vn_voice_note note =
         default (EMTVoiceSimulator.final_update
                    (EMTVoiceSimulator.__init__ scenario)) (notes !! i) ∧
       EMTVoiceSimulator.vn_eta_minutes note =
         Z.max 0 (8 - 2 * Z.of_nat i')).
Proof.
  intros notes i' Hlen Hcount Hvsim Hi.
  unfold refresh.
  destruct (TelemetrySimulator.generate_vitals randint now.1
              (telemetry_sim session) g) as [latest g1].
  destruct (check_vitals_alert_total latest) as [checked ->].
  cbn [mbind option_bind].
  set (history1 := (telemetry_history session ++ [latest])%list).
  set (history2 := if (20 <? length history1)%nat
                   then Py.slice_from history1 (-20) else history1).
  assert (Hlen2 : length history2 = Nat.min (S j) 20).
  { assert (Hlen1 : length history1 = S (Nat.min j 20)).
    { subst history1. rewrite length_app. cbn [length]. lia. }
    subst history2.
    destruct (Nat.ltb_spec 20 (length history1)) as [Hbig|Hsmall]; [|lia].
    destruct (Py.slice_last_twenty (λ _, True) history1) as [_ H].
    - apply Forall_forall. intros; exact I.
    - lia. }
  clearbody history2. clear history1.
  rewrite Hcount, Hlen2.
  pose proof (notes_per_five_readings j) as Hfive.
  destruct (Nat.ltb_spec (Nat.min j 20 / 5) (Nat.min (S j) 20 / 5))
    as [Hnew|Hsame].
  - (* a new voice note *)
    rewrite Hvsim.
    destruct (EMTVoiceSimulator.generate_voice_note_at scenario now.2 i Hi)
      as (note & Hcall & Htext & Heta).
    rewrite Hcall. cbn [mbind option_bind].
    eexists _, g1. split; [reflexivity|].
    cbn [telemetry_history voice_notes telemetry_sim voice_sim].
    rewrite length_app. cbn [length].
    split; [exact Hlen2|]. split; [lia|]. split; [reflexivity|].
    right. exists note. split; [reflexivity|]. split; [reflexivity|].
    split; [exact Htext | exact Heta].
  - (* no voice note is due *)
    eexists _, g1. split; [reflexivity|].
    cbn [telemetry_history voice_notes telemetry_sim voice_sim].
    split; [exact Hlen2|]. split; [lia|]. split; [reflexivity|].
    left. split; reflexivity.
Qed.

Lemma refresh_shown {rng : Type} (randint : Z → Z → rng → Z * rng)
    (redact_text : string → string) (condition scenario : string)
    (now : string * string) (j : nat) (session : Session) (g : rng) :
  shown condition scenario redact_text j session →
  ∃ session' g',
    refresh randint redact_text now session g = Some (session', g') ∧
    shown condition scenario redact_text (S j) session'.
Proof.
  intros (Hlen & Htsim & Hvsim & Hcount & Hnotes).
  cbv zeta in Hvsim, Hcount, Hnotes.
  set (notes := EMTVoiceSimulator.get_scenario_notes
                  (EMTVoiceSimulator.__init__ scenario)) in *.
  pose proof (notes_per_five_readings j) as Hfive.
  destruct (refresh_step randint redact_text scenario now j
              (Nat.min (Nat.min j 20 / 5) (length notes)) session g
              Hlen Hcount Hvsim)
    as (session' & g' & Hrun & Hlen' & Hcount' & Htsim' & Hvoice);
    [fold notes; lia|].
  fold notes in Hvoice.
  exists session', g'. split; [exact Hrun|].
  unfold shown. fold notes.
  split; [exact Hlen'|]. split; [congruence|].
  destruct Hvoice as [[Hkeep Hsim]|(note & Happ & Hsim & Htext & _)].
  - assert (Heq : (Nat.min (S j) 20 / 5 = Nat.min j 20 / 5)%nat)
      by (rewrite <- Hcount', Hkeep; exact Hcount).
    rewrite Heq, Hkeep, Hsim.
    split; [exact Hvsim|]. split; [exact Hcount | exact Hnotes].
  - assert (Heq : (Nat.min (S j) 20 / 5 = S (Nat.min j 20 / 5))%nat).
    { rewrite <- Hcount', Happ, length_app, Hcount. cbn [length]. lia. }
    rewrite Heq, Happ, Hsim.
    split; [f_equal; lia|].
    split; [rewrite length_app, Hcount; cbn [length]; lia|].
    intros k note' redacted Hk.
    destruct (Nat.lt_ge_cases k (length (voice_notes session))) as [Hold|Hlast].
    + rewrite lookup_app_l in Hk by exact Hold. exact (Hnotes _ _ _ Hk).
    + rewrite lookup_app_r in Hk by exact Hlast.
      destruct (k - length (voice_notes session))%nat as [|n] eqn:Hk';
        [|destruct n; discriminate Hk].
      injection Hk as <- <-. split; [|reflexivity].
      assert (k = Nat.min j 20 / 5)%nat as -> by lia.
      rewrite Htext.
      destruct (Nat.le_gt_cases (length notes) (Nat.min j 20 / 5))
        as [Hend|Hin].
      * rewrite Nat.min_r by lia.
        rewrite !(lookup_ge_None_2 notes) by lia. reflexivity.
      * rewrite Nat.min_l by lia. reflexivity.
Qed.

Lemma refreshes_shown {rng : Type} (randint : Z → Z → rng → Z * rng)
    (redact_text : string → string) (condition scenario : string)
    (clock : list (string * string)) :
  ∀ (j : nat) (session : Session) (g : rng),
    shown condition scenario redact_text j session →
    ∃ session' g',
      refreshes randint redact_text clock session g = Some (session', g') ∧
      shown condition scenario redact_text (j + length clock) session'.
Proof.
  induction clock as [|now later IH]; intros j session g Hshown.
  - exists session, g. split; [reflexivity|].
    cbn [length]. rewrite Nat.add_0_r. exact Hshown.
  - destruct (refresh_shown randint redact_text condition scenario now j
                session g Hshown) as (s1 & g1 & Hstep & Hshown1).
    destruct (IH (S j) s1 g1 Hshown1) as (s' & g' & Hrun & Hshown').
    exists s', g'. cbn [refreshes]. rewrite Hstep. cbn [mbind option_bind].
    split; [exact Hrun|].
    replace (j + length (now :: later))%nat with (S j + length later)%nat
      by (cbn [length]; lia).
    exact Hshown'.
Qed.

Lemma main_repeated {rng : Type} (randint : Z → Z → rng → Z * rng)
    (redact_text : string → string) (now : string * string) (j : nat)
    (session : Session) (g : rng) :
  repeated redact_text j session →
  ∃ session' g',
    main randint redact_text now session g = Some (session', g') ∧
    repeated redact_text (S j) session'.
Proof.
  intros (Hlen & Hcount & Hnotes). cbv zeta in Hnotes.
  destruct (refresh_step randint redact_text "mi_patient" now j 0
              (initialize_session_state session) g Hlen Hcount eq_refl)
    as (session' & g' & Hrun & Hlen' & Hcount' & _ & Hvoice);
    [cbn; lia|].
  exists session', g'. split; [exact Hrun|].
  unfold repeated.
  split; [exact Hlen'|]. split; [exact Hcount'|].
  cbn [initialize_session_state voice_notes] in Hvoice.
  destruct Hvoice as [[Hkeep _]|(note & Happ & _ & Htext & Heta)].
  - rewrite Hkeep. exact Hnotes.
  - rewrite Happ. intros k note' redacted Hk.
    destruct (Nat.lt_ge_cases k (length (voice_notes session))) as [Hold|Hlast].
    + rewrite lookup_app_l in Hk by exact Hold. exact (Hnotes _ _ _ Hk).
    + rewrite lookup_app_r in Hk by exact Hlast.
      destruct (k - length (voice_notes session))%nat as [|n] eqn:Hk';
        [|destruct n; discriminate Hk].
      injection Hk as <- <-.
      split; [rewrite Htext; reflexivity|].
      split; [rewrite Heta; reflexivity | reflexivity].
Qed.

Lemma mains_repeated {rng : Type} (randint : Z → Z → rng → Z * rng)
    (redact_text : string → string) (clock : list (string * string)) :
  ∀ (j : nat) (session : Session) (g : rng),
    repeated redact_text j session →
    ∃ session' g',
      mains randint redact_text clock session g = Some (session', g') ∧
      repeated redact_text (j + length clock) session'.
Proof.
  induction clock as [|now later IH]; intros j session g Hrep.
  - exists session, g. split; [reflexivity|].
    cbn [length]. rewrite Nat.add_0_r. exact Hrep.
  - destruct (main_repeated randint redact_text now j session g Hrep)
      as (s1 & g1 & Hstep & Hrep1).
    destruct (IH (S j) s1 g1 Hrep1) as (s' & g' & Hrun & Hrep').
    exists s', g'. cbn [mains]. rewrite Hstep. cbn [mbind option_bind].
    split; [exact Hrun|].
    replace (j + length (now :: later))%nat with (S j + length later)%nat
      by (cbn [length]; lia).
    exact Hrep'.
Qed.

(** X25.  On the improved dashboard, re-run any number of times,
    every run succeeds, the telemetry history never holds more than
    20 readings, and because a voice note is fetched only while there
    are fewer notes than a fifth of the readings kept, at most four
    voice notes are ever shown: the first four texts of the scenario
    (the final update standing in once a scenario is exhausted), each
    with its redacted text.  The fifth note of the five-note scenario
    is never fetched. *)
Theorem at_most_four_voice_notes {rng : Type}
    (randint : Z → Z → rng → Z * rng) (redact_text : string → string)
    (condition scenario : string) (clock : list (string * string))
    (g : rng) :
  let notes :=
    EMTVoiceSimulator.get_scenario_notes
      (EMTVoiceSimulator.__init__ scenario) in
  ∃ session g',
    refreshes randint redact_text clock (initial_session condition scenario) g
      = Some (session, g') ∧
    length (telemetry_history session) = Nat.min (length clock) 20 ∧
    length (voice_notes session) = (Nat.min (length clock) 20 / 5)%nat ∧
    (length (voice_notes session) ≤ 4)%nat ∧
    ∀ k note redacted,
      voice_notes session !! k = Some (note, redacted) →
      (k < 4)%nat ∧
      EMTVoiceSimulator.vn_voice_note note =
        default (EMTVoiceSimulator.final_update
                   (EMTVoiceSimulator.__init__ scenario)) (notes !! k) ∧
      redacted = redact_text (EMTVoiceSimulator.vn_voice_note note).
Proof.
  intros notes.
  destruct (refreshes_shown randint redact_text condition scenario clock
              0%nat (initial_session condition scenario) g)
    as (session & g' & Hrun & Hlen & _ & _ & Hcount & Hnotes).
  { unfold shown. cbv zeta.
    do 4 (split; [reflexivity|]).
    intros k note redacted Hk. discriminate Hk. }
  cbn [Nat.add] in Hlen, Hcount, Hnotes.
  exists session, g'. split; [exact Hrun|]. split; [exact Hlen|].
  split; [exact Hcount|].
  assert (Hfour : (Nat.min (length clock) 20 / 5 ≤ 4)%nat).
  { apply (Nat.Div0.div_le_mono _ 20 5). lia. }
  split; [lia|].
  intros k note redacted Hk.
  split; [apply lookup_lt_Some in Hk; lia | exact (Hnotes _ _ _ Hk)].
Qed.

(** X26.  On [er_dashboard.py], re-run any number of times, every
    voice note shown is the first note of the MI scenario with an ETA
    of 6 minutes: each run constructs the voice simulator anew before
    it fetches a note, so the later notes of the scenario are never
    reached.  The notes are still fetched once per five readings
    kept, at most four in all. *)
Theorem er_dashboard_repeats_the_first_voice_note {rng : Type}
    (randint : Z → Z → rng → Z * rng) (redact_text : string → string)
    (clock : list (string * string)) (g : rng) :
  ∃ session g',
    mains randint redact_text clock
      (initial_session "critical" "mi_patient") g = Some (session, g') ∧
    length (telemetry_history session) = Nat.min (length clock) 20 ∧
    length (voice_notes session) = (Nat.min (length clock) 20 / 5)%nat ∧
    ∀ k note redacted,
      voice_notes session !! k = Some (note, redacted) →
      Some (EMTVoiceSimulator.vn_voice_note note) =
        head (EMTVoiceSimulator.mi_scenario_notes
                (EMTVoiceSimulator.__init__ "mi_patient")) ∧
      EMTVoiceSimulator.vn_eta_minutes note = 6 ∧
      redacted = redact_text (EMTVoiceSimulator.vn_voice_note note).
Proof.
  destruct (mains_repeated randint redact_text clock 0%nat
              (initial_session "critical" "mi_patient") g)
    as (session & g' & Hrun & Hlen & Hcount & Hnotes).
  { unfold repeated. cbv zeta.
    do 2 (split; [reflexivity|]).
    intros k note redacted Hk. discriminate Hk. }
  cbn [Nat.add] in Hlen, Hcount, Hnotes.
  exists session, g'. split; [exact Hrun|]. split; [exact Hlen|].
  split; [exact Hcount | exact Hnotes].
Qed.

End ERDashboard.

(** ** dashboard/advanced_clinical_dashboard.py *)

Module Dashboard.

(** One entry of [st.session_state.hospital_resources]; the blood
    units carry no [total]. *)
Record Counter := {
  total : option Z;
  available : Z
}.

Record HospitalResources := {
  icu_beds : Counter;
  ct_scanner : Counter;
  mri_scanner : Counter;
  or_rooms : Counter;
  blood_units_o_neg : Counter;
  blood_units_o_pos : Counter;
  ventilators : Counter
}.

(** The pool [initialize_session_state] creates. *)
Definition hospital_resources : HospitalResources :=
  {| icu_beds := {| total := Some 12; available := 8 |};
     ct_scanner := {| total := Some 2; available := 1 |};
     mri_scanner := {| total := Some 1; available := 1 |};
     or_rooms := {| total := Some 6; available := 4 |};
     blood_units_o_neg := {| total := None; available := 25 |};
     blood_units_o_pos := {| total := None; available := 30 |};
     ventilators := {| total := Some 15; available := 10 |} |}.

(** The two entries of a patient record the function reads: the
    dictionary at [predictions] (whose own [predictions] entry holds
    the flags) and the list at [active_alerts]; [None] is a missing
    key. *)
Record PatientData := {
  pd_predictions : option (gmap string (gmap string bool));
  pd_active_alerts : option (list string)
}.

(** [counter['available'] -= n] *)
Definition take_units (n : Z) (c : Counter) : Counter :=
  {| total := total c; available := available c - n |}.

Definition update_hospital_resources (patient_data : PatientData)
    (resources : HospitalResources) : HospitalResources :=
  let predictions : gmap string bool :=
    Py.get (default ∅ (pd_predictions patient_data)) "predictions" ∅ in
  (* Consume ICU bed if needed *)
  let icu_beds :=
    if Py.get predictions "needs_icu" false &&
       (available (icu_beds resources) >? 0)
    then take_units 1 (icu_beds resources) else icu_beds resources in
  (* Consume ventilator if needed *)
  let ventilators :=
    if Py.get predictions "needs_intubation" false &&
       (available (ventilators resources) >? 0)
    then take_units 1 (ventilators resources) else ventilators resources in
  (* Consume OR if needed *)
  let or_rooms :=
    if Py.get predictions "needs_or" false &&
       (available (or_rooms resources) >? 0)
    then take_units 1 (or_rooms resources) else or_rooms resources in
  (* Consume CT scanner temporarily *)
  let active_alerts := default [] (pd_active_alerts patient_data) in
  let ct_scanner :=
    if (bool_decide ("STROKE" ∈ active_alerts) ||
        bool_decide ("TRAUMA" ∈ active_alerts)) &&
       (available (ct_scanner resources) >? 0)
    then take_units 1 (ct_scanner resources) else ct_scanner resources in
  (* Consume blood for trauma *)
  let blood_units_o_neg :=
    if bool_decide ("TRAUMA" ∈ active_alerts)
    then (if available (blood_units_o_neg resources) >=? 2
          then take_units 2 (blood_units_o_neg resources)
          else blood_units_o_neg resources)
    else blood_units_o_neg resources in
  {| icu_beds := icu_beds;
     ct_scanner := ct_scanner;
     mri_scanner := mri_scanner resources;
     or_rooms := or_rooms;
     blood_units_o_neg := blood_units_o_neg;
     blood_units_o_pos := blood_units_o_pos resources;
     ventilators := ventilators |}.

(** The seven counters of the pool. *)
Definition counters : list (HospitalResources → Counter) :=
  [icu_beds; ct_scanner; mri_scanner; or_rooms; blood_units_o_neg;
   blood_units_o_pos; ventilators].

(** The [needs_icu] flag of a patient record, as the function reads it. *)
Definition needs_icu (patient_data : PatientData) : bool :=
  Py.get (Py.get (default ∅ (pd_predictions patient_data)) "predictions" ∅)
    "needs_icu" false.

(** *** The counters stay non-negative *)

Lemma guarded_take (b : bool) (n : Z) (c : Counter) :
  0 ≤ n →
  (b = true → n ≤ available c) →
  let c' := if b then take_units n c else c in
  (0 ≤ available c → 0 ≤ available c') ∧
  (available c = 0 → available c' = 0) ∧
  available c' ≤ available c ∧
  total c' = total c.
Proof.
  intros Hn Hb. destruct b; simpl; [|repeat split; lia].
  specialize (Hb eq_refl). repeat split; lia.
Qed.

(** C9.  Whatever the patient record, [update_hospital_resources]
    drives no counter negative: a counter that is non-negative stays
    non-negative, one that is 0 stays 0, none grows and no total
    changes.  In particular a patient predicted to need the ICU
    leaves [icu_beds] at 0 available when it was at 0. *)
Theorem update_hospital_resources_never_negative
    (patient_data : PatientData) (resources : HospitalResources) :
  let resources' := update_hospital_resources patient_data resources in
  Forall (λ counter : HospitalResources → Counter,
            (0 ≤ available (counter resources) →
             0 ≤ available (counter resources')) ∧
            (available (counter resources) = 0 →
             available (counter resources') = 0) ∧
            available (counter resources') ≤ available (counter resources) ∧
            total (counter resources') = total (counter resources))
         counters ∧
  (needs_icu patient_data = true →
   available (icu_beds resources) = 0 →
   available (icu_beds resources') = 0).
Proof.
  intros resources'. subst resources'.
  assert (Hsame : ∀ c : Counter,
            (0 ≤ available c → 0 ≤ available c) ∧
            (available c = 0 → available c = 0) ∧
            available c ≤ available c ∧ total c = total c).
  { intros c. repeat split; tauto || lia. }
  assert (Hall : Forall (λ counter : HospitalResources → Counter,
            (0 ≤ available (counter resources) →
             0 ≤ available
                   (counter (update_hospital_resources patient_data resources))) ∧
            (available (counter resources) = 0 →
             available
               (counter (update_hospital_resources patient_data resources)) = 0) ∧
            available
              (counter (update_hospital_resources patient_data resources))
              ≤ available (counter resources) ∧
            total (counter (update_hospital_resources patient_data resources))
              = total (counter resources))
         counters).
  { assert (Hone : ∀ (b : bool) (c : Counter),
              let c' := if b && (available c >? 0) then take_units 1 c else c in
              (0 ≤ available c → 0 ≤ available c') ∧
              (available c = 0 → available c' = 0) ∧
              available c' ≤ available c ∧ total c' = total c).
    { intros b c. apply (guarded_take _ 1); [lia|].
      intros H. apply andb_true_iff in H as [_ H]. apply Z.gtb_lt in H. lia. }
    unfold counters, update_hospital_resources.
    cbn [icu_beds ct_scanner mri_scanner or_rooms blood_units_o_neg
         blood_units_o_pos ventilators].
    apply Forall_cons; split; [apply Hone|].
    apply Forall_cons; split; [apply Hone|].
    apply Forall_cons; split; [apply Hsame|].
    apply Forall_cons; split; [apply Hone|].
    apply Forall_cons; split.
    { destruct (bool_decide ("TRAUMA" ∈ _)); [|apply Hsame].
      apply (guarded_take _ 2); [lia|].
      intros H. apply Z.geb_le in H. lia. }
    apply Forall_cons; split; [apply Hsame|].
    apply Forall_cons; split; [apply Hone|].
    apply Forall_nil. exact I. }
  split; [exact Hall|].
  intros _ Hzero.
  apply Forall_cons in Hall as [(_ & Hicu & _) _]. exact (Hicu Hzero).
Qed.

Definition icu_patient : PatientData :=
  {| pd_predictions :=
       Some (<["predictions" := <["needs_icu" := true]> ∅]> ∅);
     pd_active_alerts := Some ["TRAUMA"] |}.

Definition full_icu : HospitalResources :=
  {| icu_beds := {| total := Some 12; available := 0 |};
     ct_scanner := ct_scanner hospital_resources;
     mri_scanner := mri_scanner hospital_resources;
     or_rooms := or_rooms hospital_resources;
     blood_units_o_neg := {| total := None; available := 1 |};
     blood_units_o_pos := blood_units_o_pos hospital_resources;
     ventilators := ventilators hospital_resources |}.

Lemma update_hospital_resources_never_negative_witness :
  available (icu_beds (update_hospital_resources icu_patient full_icu)) = 0.
Proof.
  apply (update_hospital_resources_never_negative icu_patient full_icu);
    reflexivity.
Defined.

(** *** [calculate_clinical_scores] *)

(** The entries of a patient record that the refresh of the dashboard
    reads and writes.  [p_severity] and [p_predictions] are [None]
    while they hold the empty dictionary the record starts with. *)
Record Patient := {
  p_chief_complaint : string;
  p_telemetry_sim : TelemetrySimulator.TelemetrySimulator;
  p_initial_eta : Z;
  p_elapsed_time : Z;
  p_status : string;
  p_telemetry_history : list (gmap string Z);
  p_clinical_scores : gmap string (gmap string Q);
  p_severity : option AITriagePredictor.SeverityResult;
  p_active_alerts : list string;
  p_predictions : option AITriagePredictor.InterventionResult;
  p_activated_protocols : gmap string (list string)
}.

(** The numeric entries of the seven score dictionaries, as
    [AITriagePredictor] reads them. *)
Definition score_entries (score : Q) : gmap string Q := <["score" := score]> ∅.

Definition scores_dict (trauma_score : ClinicalScorer.TraumaResult)
    (qsofa : ClinicalScorer.QsofaResult)
    (stemi_checklist : ClinicalScorer.StemiResult)
    (shock_index : ClinicalScorer.ShockIndexResult)
    (airway_risk : ClinicalScorer.AirwayResult)
    (nihss : ClinicalScorer.NihssResult)
    (deterioration : ClinicalScorer.DeteriorationResult)
  : gmap string (gmap string Q) :=
  list_to_map
    [("trauma_score",
      <["max_score" := ClinicalScorer.tr_max_score trauma_score]>
        (score_entries (ClinicalScorer.tr_score trauma_score)));
     ("qsofa",
      <["max_score" := inject_Z (ClinicalScorer.qs_max_score qsofa)]>
        (score_entries (inject_Z (ClinicalScorer.qs_score qsofa))));
     ("stemi_checklist",
      score_entries (inject_Z (ClinicalScorer.st_score stemi_checklist)));
     ("shock_index",
      <["value" := ClinicalScorer.si_value shock_index]> ∅);
     ("airway_risk",
      score_entries (inject_Z (ClinicalScorer.aw_score airway_risk)));
     ("nihss",
      <["max_score" := inject_Z (ClinicalScorer.ni_max_score nihss)]>
        (score_entries (inject_Z (ClinicalScorer.ni_score nihss))));
     ("deterioration",
      score_entries (inject_Z (ClinicalScorer.det_score deterioration)))].

(** [history[-1] = d] for a non-empty history: the last entry is
    the dictionary object that [latest_vitals] names, so the
    assignments to [latest_vitals] show in the history. *)
Definition set_last {A : Type} (l : list A) (x : A) : list A :=
  (removelast l ++ [x])%list.

(** One call.  The function also stores [temperature = 37.8] in the
    latest reading; that entry is a float which none of the scoring
    functions reads, and the readings are modelled by their integer
    entries.  [None] is the [KeyError] of a history entry without
    one of the readings. *)
Definition calculate_clinical_scores {rng : Type}
    (randint : Z → Z → rng → Z * rng) (patient_data : Patient) (g : rng)
  : option (Patient * rng) :=
  match last (p_telemetry_history patient_data) with
  | None => Some (patient_data, g)
  | Some latest_vitals =>
      (* Add GCS and respiratory rate for scoring *)
      let latest_vitals :=
        <["respiratory_rate" := 24]> (<["gcs" := 13]> latest_vitals) in
      let telemetry_history :=
        set_last (p_telemetry_history patient_data) latest_vitals in
      (* Symptoms based on scenario *)
      let complaint := p_chief_complaint patient_data in
      let symptoms : gmap string bool :=
        list_to_map
          [("chest_pain", String.eqb complaint "Chest Pain");
           ("st_elevation", String.eqb complaint "Chest Pain");
           ("diaphoresis", true);
           ("nausea", true);
           ("stroke_suspected", AparaviRedactor.contains "Stroke" complaint);
           ("airway_obstruction", false)] in
      (* Calculate all scores *)
      let trauma_score := ClinicalScorer.calculate_trauma_score latest_vitals in
      let qsofa := ClinicalScorer.calculate_qsofa latest_vitals in
      let stemi_checklist := ClinicalScorer.calculate_stemi_checklist symptoms in
      shock_index ← ClinicalScorer.calculate_shock_index latest_vitals;
      let airway_risk :=
        ClinicalScorer.calculate_airway_risk latest_vitals symptoms in
      let '(nihss, g) := ClinicalScorer.calculate_nihss randint symptoms g in
      deterioration ←
        ClinicalScorer.calculate_deterioration_index telemetry_history;
      let scores :=
        scores_dict trauma_score qsofa stemi_checklist shock_index
          airway_risk nihss deterioration in
      (* Get AI predictions *)
      let severity :=
        AITriagePredictor.predict_severity latest_vitals symptoms scores in
      let active_alerts :=
        AITriagePredictor.predict_active_alerts latest_vitals symptoms scores in
      let predictions :=
        AITriagePredictor.predict_interventions latest_vitals symptoms scores in
      let protocols :=
        AITriagePredictor.activate_protocols active_alerts
          (AITriagePredictor.iv_predictions predictions) in
      Some ({| p_chief_complaint := complaint;
               p_telemetry_sim := p_telemetry_sim patient_data;
               p_initial_eta := p_initial_eta patient_data;
               p_elapsed_time := p_elapsed_time patient_data;
               p_status := p_status patient_data;
               p_telemetry_history := telemetry_history;
               p_clinical_scores := scores;
               p_severity := Some severity;
               p_active_alerts := active_alerts;
               p_predictions := Some predictions;
               p_activated_protocols := protocols |},
            g)
  end.

(** The two entries of the record that [update_hospital_resources]
    reads. *)
Definition patient_data_of (p : Patient) : PatientData :=
  {| pd_predictions :=
       Some (match p_predictions p with
             | Some r =>
                 <["predictions" := AITriagePredictor.iv_predictions r]> ∅
             | None => ∅
             end);
     pd_active_alerts := Some (p_active_alerts p) |}.

(** A history entry with the three readings the deterioration index
    indexes. *)
Definition has_readings (v : gmap string Z) : Prop :=
  is_Some (v !! "heart_rate") ∧ is_Some (v !! "spo2") ∧
  is_Some (v !! "blood_pressure_systolic").

(** A history entry the scoring functions succeed on: it has the
    three readings, and its heart rate and systolic pressure are of
    bounded magnitude, so the shock index does not overflow. *)
Definition sound_reading (v : gmap string Z) : Prop :=
  has_readings v ∧ ClinicalScorer.bounded_readings v.

(** What [calculate_clinical_scores] leaves of a record: everything
    but the outcome of the scoring; the history keeps its length and
    its readings. *)
Definition same_journey (p p' : Patient) : Prop :=
  p_chief_complaint p' = p_chief_complaint p ∧
  p_telemetry_sim p' = p_telemetry_sim p ∧
  p_initial_eta p' = p_initial_eta p ∧
  p_elapsed_time p' = p_elapsed_time p ∧
  p_status p' = p_status p ∧
  length (p_telemetry_history p') = length (p_telemetry_history p) ∧
  Forall sound_reading (p_telemetry_history p').

(** The outcome of the scoring, which the chief complaint decides. *)
Definition scored (p : Patient) : Prop :=
  let chest_pain := String.eqb (p_chief_complaint p) "Chest Pain" in
  let stroke := AparaviRedactor.contains "Stroke" (p_chief_complaint p) in
  ∃ predictions,
    p_predictions p = Some predictions ∧
    (∀ x, x ∈ p_active_alerts p ↔
          (chest_pain = true ∧ x = "STEMI") ∨
          (stroke = true ∧ x = "STROKE") ∨ x = "SEPSIS") ∧
    (let flag (name : string) :=
       AITriagePredictor.iv_predictions predictions !! name in
     flag "cardiac_arrest_imminent" = Some false ∧
     flag "needs_intubation" = Some false ∧
     flag "needs_icu" = Some false ∧
     flag "needs_or" = Some false ∧
     flag "likely_stroke" = Some stroke ∧
     flag "likely_stemi" = Some chest_pain ∧
     flag "likely_sepsis" = Some true) ∧
    p_activated_protocols p =
      AITriagePredictor.activate_protocols (p_active_alerts p)
        (AITriagePredictor.iv_predictions predictions).

(** *** The refresh of the dashboard *)

(** The record [initialize_session_state] and [add_new_ambulance]
    create for a patient. *)
Definition new_patient (complaint condition : string) (initial_eta : Z)
  : Patient :=
  {| p_chief_complaint := complaint;
     p_telemetry_sim := TelemetrySimulator.__init__ condition;
     p_initial_eta := initial_eta;
     p_elapsed_time := 0;
     p_status := "EN_ROUTE";
     p_telemetry_history := [];
     p_clinical_scores := ∅;
     p_severity := None;
     p_active_alerts := [];
     p_predictions := None;
     p_activated_protocols := ∅ |}.

(** [patient_data['telemetry_history'] = history] together with
    [patient_data['elapsed_time'] = elapsed_time], and
    [patient_data['status'] = status]. *)
Definition set_telemetry (patient_data : Patient)
    (telemetry_history : list (gmap string Z)) (elapsed_time : Z) : Patient :=
  {| p_chief_complaint := p_chief_complaint patient_data;
     p_telemetry_sim := p_telemetry_sim patient_data;
     p_initial_eta := p_initial_eta patient_data;
     p_elapsed_time := elapsed_time;
     p_status := p_status patient_data;
     p_telemetry_history := telemetry_history;
     p_clinical_scores := p_clinical_scores patient_data;
     p_severity := p_severity patient_data;
     p_active_alerts := p_active_alerts patient_data;
     p_predictions := p_predictions patient_data;
     p_activated_protocols := p_activated_protocols patient_data |}.

Definition set_status (patient_data : Patient) (status : string) : Patient :=
  {| p_chief_complaint := p_chief_complaint patient_data;
     p_telemetry_sim := p_telemetry_sim patient_data;
     p_initial_eta := p_initial_eta patient_data;
     p_elapsed_time := p_elapsed_time patient_data;
     p_status := status;
     p_telemetry_history := p_telemetry_history patient_data;
     p_clinical_scores := p_clinical_scores patient_data;
     p_severity := p_severity patient_data;
     p_active_alerts := p_active_alerts patient_data;
     p_predictions := p_predictions patient_data;
     p_activated_protocols := p_activated_protocols patient_data |}.

(** What one run of [main] does to the record of the selected patient
    and to the hospital resources; [now] is the clock reading of the
    new telemetry entry.  The handoff summary, a text that is shown
    and never read again, and the drawing of the page are left out. *)
Definition refresh {rng : Type} (randint : Z → Z → rng → Z * rng)
    (now : string) (patient_data : Patient) (resources : HospitalResources)
    (g : rng) : option (Patient * HospitalResources * rng) :=
  (* Update telemetry only if en route *)
  let '(patient_data, resources, g) :=
    if String.eqb (p_status patient_data) "EN_ROUTE" then
      let '(latest_vitals, g) :=
        TelemetrySimulator.generate_vitals randint now
          (p_telemetry_sim patient_data) g in
      let telemetry_history :=
        (p_telemetry_history patient_data ++
         [TelemetrySimulator.readings latest_vitals])%list in
      let elapsed_time := p_elapsed_time patient_data + 1 in
      let telemetry_history :=
        if (20 <? length telemetry_history)%nat
        then Py.slice_from telemetry_history (-20)
        else telemetry_history in
      let patient_data :=
        set_telemetry patient_data telemetry_history elapsed_time in
      (* Check if ETA reached 0 *)
      let eta :=
        Z.max 0 (p_initial_eta patient_data - p_elapsed_time patient_data / 3) in
      if (eta =? 0) && String.eqb (p_status patient_data) "EN_ROUTE" then
        let patient_data := set_status patient_data "ARRIVED" in
        (* Update hospital resources *)
        (patient_data,
         update_hospital_resources (patient_data_of patient_data) resources,
         g)
      else (patient_data, resources, g)
    else (patient_data, resources, g) in
  (* Calculate clinical scores *)
  '(patient_data, g) ← calculate_clinical_scores randint patient_data g;
  Some (patient_data, resources, g).

(** One refresh per clock reading. *)
Fixpoint refreshes {rng : Type} (randint : Z → Z → rng → Z * rng)
    (clock : list string) (patient_data : Patient)
    (resources : HospitalResources) (g : rng)
  : option (Patient * HospitalResources * rng) :=
  match clock with
  | [] => Some (patient_data, resources, g)
  | now :: later =>
      '(patient_data, resources, g) ←
        refresh randint now patient_data resources g;
      refreshes randint later patient_data resources g
  end.

(** The resources after an arrival that takes a CT scanner. *)
Definition take_ct_scanner (take : bool) (resources : HospitalResources)
  : HospitalResources :=
  {| icu_beds := icu_beds resources;
     ct_scanner :=
       if take && (available (ct_scanner resources) >? 0)
       then take_units 1 (ct_scanner resources)
       else ct_scanner resources;
     mri_scanner := mri_scanner resources;
     or_rooms := or_rooms resources;
     blood_units_o_neg := blood_units_o_neg resources;
     blood_units_o_pos := blood_units_o_pos resources;
     ventilators := ventilators resources |}.

(** The state of a patient and of the resources after [j] refreshes
    of a journey that started from [new_patient] and [resources0].
    The patient arrives at refresh [max 1 (3 * initial_eta)]. *)
Definition journey (complaint condition : string) (initial_eta : Z)
    (resources0 : HospitalResources) (j : Z) (p : Patient)
    (resources : HospitalResources) : Prop :=
  let arrival := Z.max 1 (3 * initial_eta) in
  p_chief_complaint p = complaint ∧
  p_telemetry_sim p = TelemetrySimulator.__init__ condition ∧
  p_initial_eta p = initial_eta ∧
  p_elapsed_time p = Z.min j arrival ∧
  p_status p = (if j <? arrival then "EN_ROUTE" else "ARRIVED") ∧
  Forall sound_reading (p_telemetry_history p) ∧
  Z.of_nat (length (p_telemetry_history p)) = Z.min (Z.min j arrival) 20 ∧
  (if j =? 0 then p_predictions p = None ∧ p_active_alerts p = []
   else scored p) ∧
  resources =
    if (arrival <=? j) && (1 <=? initial_eta)
    then take_ct_scanner (AparaviRedactor.contains "Stroke" complaint)
           resources0
    else resources0.

(** *** What the dashboard computes for every patient *)

Lemma scores_dict_lookup (trauma_score : ClinicalScorer.TraumaResult)
    (qsofa : ClinicalScorer.QsofaResult)
    (stemi_checklist : ClinicalScorer.StemiResult)
    (shock_index : ClinicalScorer.ShockIndexResult)
    (airway_risk : ClinicalScorer.AirwayResult)
    (nihss : ClinicalScorer.NihssResult)
    (deterioration : ClinicalScorer.DeteriorationResult) (dflt : Q) :
  let scores :=
    scores_dict trauma_score qsofa stemi_checklist shock_index airway_risk
      nihss deterioration in
  let score_of (name : string) := Py.get (Py.get scores name ∅) "score" dflt in
  score_of "trauma_score" = ClinicalScorer.tr_score trauma_score ∧
  score_of "qsofa" = inject_Z (ClinicalScorer.qs_score qsofa) ∧
  score_of "stemi_checklist" =
    inject_Z (ClinicalScorer.st_score stemi_checklist) ∧
  score_of "airway_risk" = inject_Z (ClinicalScorer.aw_score airway_risk) ∧
  score_of "nihss" = inject_Z (ClinicalScorer.ni_score nihss) ∧
  score_of "severity" = dflt ∧
  Py.get (Py.get scores "shock_index" ∅) "value" dflt =
    ClinicalScorer.si_value shock_index.
Proof. repeat split. Qed.

Lemma Qle_bool_inject_Z (a b : Z) :
  Qle_bool (inject_Z a) (inject_Z b) = (a <=? b).
Proof.
  destruct (Z.leb_spec a b) as [H|H].
  - apply Qle_bool_iff. rewrite <- Zle_Qle. exact H.
  - destruct (Qle_bool (inject_Z a) (inject_Z b)) eqn:E; [|reflexivity].
    apply Qle_bool_iff in E. rewrite <- Zle_Qle in E. lia.
Qed.

Lemma Qltb_inject_Z (a b : Z) :
  Py.Qltb (inject_Z a) (inject_Z b) = (a <? b).
Proof.
  unfold Py.Qltb. rewrite Qle_bool_inject_Z, Z.ltb_antisym. reflexivity.
Qed.

Lemma calculate_clinical_scores_flags {rng : Type}
    (randint : Z → Z → rng → Z * rng) (patient_data : Patient) (g : rng) :
  Py.randint_in_range randint →
  p_telemetry_history patient_data ≠ [] →
  Forall sound_reading (p_telemetry_history patient_data) →
  ∃ patient_data' g',
    calculate_clinical_scores randint patient_data g
      = Some (patient_data', g') ∧
    scored patient_data' ∧ same_journey patient_data patient_data'.
Proof.
  intros Hrange Hne Hall.
  set (chest_pain := String.eqb (p_chief_complaint patient_data) "Chest Pain").
  set (stroke :=
         AparaviRedactor.contains "Stroke" (p_chief_complaint patient_data)).
  unfold calculate_clinical_scores.
  destruct (last (p_telemetry_history patient_data)) as [latest|] eqn:Hlast;
    [|apply last_None in Hlast; contradiction].
  apply last_Some in Hlast as [earlier Hl].
  set (vitals := <["respiratory_rate" := 24]> (<["gcs" := 13]> latest)).
  fold chest_pain stroke.
  set (symptoms := list_to_map _ : gmap string bool).
  assert (Hlatest : sound_reading latest).
  { rewrite Hl in Hall. apply Forall_app in Hall as [_ Hall].
    apply Forall_cons in Hall as [Hall _]. exact Hall. }
  assert (Hvitals : sound_reading vitals).
  { destruct Hlatest as [(H1 & H2 & H3) [Hhr Hsbp]]. subst vitals.
    split; [unfold has_readings | unfold ClinicalScorer.bounded_readings].
    - rewrite !lookup_insert_ne by discriminate. auto.
    - rewrite !Py.get_insert_ne by discriminate. auto. }
  (* the shock index does not fail on bounded readings *)
  unfold ClinicalScorer.calculate_shock_index at 1.
  cbv zeta.
  rewrite (ClinicalScorer.truediv_guarded _ _ (proj1 (proj2 Hvitals))).
  cbn [mbind option_bind].
  set (shock_index := {| ClinicalScorer.si_value := _ |}).
  (* the NIHSS draw *)
  pose proof (ClinicalScorer.calculate_nihss_by_flag randint symptoms g Hrange)
    as Hnihss.
  destruct (ClinicalScorer.calculate_nihss randint symptoms g)
    as [nihss g'] eqn:Enihss.
  cbn [fst] in Hnihss.
  change (Py.get symptoms "stroke_suspected" false) with stroke in Hnihss.
  (* the deterioration index never fails *)
  assert (Hall' : Forall sound_reading
                     (set_last (p_telemetry_history patient_data) vitals)).
  { unfold set_last. apply Forall_app. split.
    - rewrite Hl, removelast_last. rewrite Hl in Hall.
      apply Forall_app in Hall as [Hall _]. exact Hall.
    - apply Forall_cons. split; [exact Hvitals | apply Forall_nil; exact I]. }
  destruct (ClinicalScorer.calculate_deterioration_index_total
              (set_last (p_telemetry_history patient_data) vitals))
    as [deterioration ->].
  { eapply Forall_impl; [exact Hall'|]. intros v [Hv _]. exact Hv. }
  cbn [mbind option_bind].
  eexists _, g'. split; [reflexivity|].
  split;
    [|unfold same_journey;
      cbn [p_chief_complaint p_telemetry_sim p_initial_eta p_elapsed_time
           p_status p_telemetry_history];
      split_and!; try reflexivity; [|exact Hall'];
      unfold set_last; rewrite Hl, removelast_last, !length_app; reflexivity].
  unfold scored.
  cbn [p_predictions p_active_alerts p_activated_protocols p_chief_complaint].
  fold chest_pain stroke.
  eexists. split; [reflexivity|].
  (* the seven scores as the predictor reads them *)
  pose proof (ClinicalScorer.scores_at_gcs13_rr24 latest)
    as (Htrauma & Hqsofa & Hairway).
  fold vitals in Htrauma, Hqsofa, Hairway.
  specialize (Hairway symptoms eq_refl).
  assert (Hstemi : ClinicalScorer.st_score
                     (ClinicalScorer.calculate_stemi_checklist symptoms)
                   = if chest_pain then 5 else 2).
  { subst symptoms. destruct chest_pain; vm_compute; reflexivity. }
  assert (Hgcs : Py.get vitals "gcs" 15 = 13).
  { subst vitals. rewrite Py.get_insert_ne, Py.get_insert by discriminate.
    reflexivity. }
  set (trauma_score := ClinicalScorer.calculate_trauma_score vitals) in *.
  set (qsofa := ClinicalScorer.calculate_qsofa vitals) in *.
  set (stemi := ClinicalScorer.calculate_stemi_checklist symptoms) in *.
  set (airway := ClinicalScorer.calculate_airway_risk vitals symptoms) in *.
  set (scores := scores_dict trauma_score qsofa stemi shock_index airway
                   nihss deterioration).
  assert (Hb_stemi : Qle_bool 3 (Py.get (Py.get scores "stemi_checklist" ∅)
                                   "score" 0%Q) = chest_pain).
  { change (Py.get (Py.get scores "stemi_checklist" ∅) "score" 0%Q)
      with (inject_Z (ClinicalScorer.st_score stemi)).
    rewrite Hstemi. destruct chest_pain; reflexivity. }
  assert (Hb_stroke : Py.Qltb 7 (Py.get (Py.get scores "nihss" ∅)
                                   "score" 0%Q) = stroke).
  { change (Py.get (Py.get scores "nihss" ∅) "score" 0%Q)
      with (inject_Z (ClinicalScorer.ni_score nihss)).
    change 7%Q with (inject_Z 7). rewrite Qltb_inject_Z.
    destruct stroke; [apply Z.ltb_lt | apply Z.ltb_ge]; lia. }
  assert (Hb_trauma5 : Py.Qltb (Py.get (Py.get scores "trauma_score" ∅)
                                  "score" 7%Q) 5 = false).
  { change (Py.get (Py.get scores "trauma_score" ∅) "score" 7%Q)
      with (ClinicalScorer.tr_score trauma_score).
    apply Py.Qltb_ge. apply Qlt_le_weak. exact Htrauma. }
  assert (Hb_trauma4 : Py.Qltb (Py.get (Py.get scores "trauma_score" ∅)
                                  "score" 7%Q) 4 = false).
  { change (Py.get (Py.get scores "trauma_score" ∅) "score" 7%Q)
      with (ClinicalScorer.tr_score trauma_score).
    apply Py.Qltb_ge. revert Htrauma.
    generalize (ClinicalScorer.tr_score trauma_score). intros q Hq. lra. }
  assert (Hb_qsofa : Qle_bool 2 (Py.get (Py.get scores "qsofa" ∅)
                                   "score" 0%Q) = true).
  { change (Py.get (Py.get scores "qsofa" ∅) "score" 0%Q)
      with (inject_Z (ClinicalScorer.qs_score qsofa)).
    change 2%Q with (inject_Z 2). rewrite Qle_bool_inject_Z.
    apply Z.leb_le. exact Hqsofa. }
  assert (Hb_airway : Qle_bool 4 (Py.get (Py.get scores "airway_risk" ∅)
                                    "score" 0%Q) = false).
  { change (Py.get (Py.get scores "airway_risk" ∅) "score" 0%Q)
      with (inject_Z (ClinicalScorer.aw_score airway)).
    change 4%Q with (inject_Z 4). rewrite Qle_bool_inject_Z.
    apply Z.leb_gt. lia. }
  assert (Hb_severity : Qle_bool 60 (Py.get (Py.get scores "severity" ∅)
                                       "score" 0%Q) = false) by reflexivity.
  split; [|split; [|reflexivity]].
  - intros x. rewrite AITriagePredictor.elem_of_predict_active_alerts.
    rewrite Hb_stemi, Hb_stroke, Hb_trauma5, Hb_qsofa, Hgcs.
    cbn [Z.ltb Z.compare Pos.compare Pos.compare_cont andb].
    intuition discriminate.
  - cbv zeta beta.
    destruct (AITriagePredictor.predict_interventions_lookup
                vitals symptoms scores)
      as (-> & -> & -> & -> & -> & -> & ->).
    rewrite Hb_stemi, Hb_stroke, Hb_trauma4, Hb_qsofa, Hb_airway,
      Hb_severity, Hgcs.
    repeat split.
Qed.

Lemma update_hospital_resources_scored (patient_data : Patient)
    (resources : HospitalResources) :
  scored patient_data →
  update_hospital_resources (patient_data_of patient_data) resources =
    take_ct_scanner
      (AparaviRedactor.contains "Stroke" (p_chief_complaint patient_data))
      resources.
Proof.
  intros (predictions & Hpred & Halerts & (H1 & H2 & H3 & H4 & _) & _).
  unfold update_hospital_resources, patient_data_of, take_ct_scanner.
  rewrite Hpred.
  cbn [pd_predictions pd_active_alerts default from_option id].
  rewrite Py.get_insert.
  rewrite (Py.get_lookup _ _ _ _ H2), (Py.get_lookup _ _ _ _ H3),
    (Py.get_lookup _ _ _ _ H4).
  assert (Htrauma : bool_decide ("TRAUMA" ∈ p_active_alerts patient_data)
                    = false).
  { apply bool_decide_eq_false_2. rewrite Halerts.
    intros [[_ H]|[[_ H]|H]]; discriminate H. }
  assert (Hstroke : bool_decide ("STROKE" ∈ p_active_alerts patient_data)
                    = AparaviRedactor.contains "Stroke"
                        (p_chief_complaint patient_data)).
  { destruct (AparaviRedactor.contains "Stroke" _) eqn:E.
    - apply bool_decide_eq_true_2. rewrite Halerts. auto.
    - apply bool_decide_eq_false_2. rewrite Halerts.
      intros [[_ H]|[[H _]|H]]; discriminate H. }
  rewrite Htrauma, Hstroke, orb_false_r. reflexivity.
Qed.

Lemma update_hospital_resources_unscored (patient_data : Patient)
    (resources : HospitalResources) :
  p_predictions patient_data = None → p_active_alerts patient_data = [] →
  update_hospital_resources (patient_data_of patient_data) resources
    = resources.
Proof.
  intros Hpred Halerts.
  unfold update_hospital_resources, patient_data_of.
  rewrite Hpred, Halerts. destruct resources. reflexivity.
Qed.

(** X19.  For every patient with a non-empty telemetry history whose
    entries carry the three readings, with heart rates and systolic
    pressures of at most a million in magnitude, and whatever the
    random source draws, [calculate_clinical_scores] succeeds, and
    because it sets
    GCS 13 and respiratory rate 24 before scoring its findings do not
    depend on the vital signs at all: the SEPSIS alert is always
    raised, the TRAUMA and CARDIAC_ARREST_RISK alerts never; the STEMI
    alert is raised exactly when the chief complaint is the text
    "Chest Pain" and the STROKE alert exactly when it contains
    "Stroke"; and the need for intubation, for the ICU (the scores
    carry no severity entry) and for the operating room and an
    imminent cardiac arrest are never predicted. *)
Theorem calculate_clinical_scores_decided_by_complaint {rng : Type}
    (randint : Z → Z → rng → Z * rng) (patient_data : Patient) (g : rng) :
  Py.randint_in_range randint →
  p_telemetry_history patient_data ≠ [] →
  Forall has_readings (p_telemetry_history patient_data) →
  Forall ClinicalScorer.bounded_readings (p_telemetry_history patient_data) →
  ∃ patient_data' g' predictions,
    calculate_clinical_scores randint patient_data g
      = Some (patient_data', g') ∧
    p_predictions patient_data' = Some predictions ∧
    let alerts := p_active_alerts patient_data' in
    let flag (name : string) :=
      AITriagePredictor.iv_predictions predictions !! name in
    "SEPSIS" ∈ alerts ∧ ("TRAUMA" ∉ alerts) ∧
    ("CARDIAC_ARREST_RISK" ∉ alerts) ∧
    ("STEMI" ∈ alerts ↔ p_chief_complaint patient_data = "Chest Pain") ∧
    ("STROKE" ∈ alerts ↔
     AparaviRedactor.contains "Stroke" (p_chief_complaint patient_data)
       = true) ∧
    flag "needs_intubation" = Some false ∧
    flag "needs_icu" = Some false ∧
    flag "needs_or" = Some false ∧
    flag "cardiac_arrest_imminent" = Some false ∧
    flag "likely_sepsis" = Some true.
Proof.
  intros Hrange Hne Hall Hbounded.
  assert (Hsound : Forall sound_reading (p_telemetry_history patient_data)).
  { unfold sound_reading. apply Forall_and. split; assumption. }
  destruct (calculate_clinical_scores_flags randint patient_data g
              Hrange Hne Hsound)
    as (patient_data' & g' & Hcall &
        (predictions & Hpred & Halerts & (H1 & H2 & H3 & H4 & H5 & H6 & H7)
         & _) & (Hcomplaint & _)).
  rewrite Hcomplaint in Halerts.
  exists patient_data', g', predictions.
  split; [exact Hcall|]. split; [exact Hpred|].
  cbv zeta beta. rewrite !Halerts.
  split_and!; try assumption.
  - auto.
  - intros [[_ H]|[[_ H]|H]]; discriminate H.
  - intros [[_ H]|[[_ H]|H]]; discriminate H.
  - split.
    + intros [[H _]|[[_ H]|H]]; [apply String.eqb_eq, H | discriminate H..].
    + intros H. apply String.eqb_eq in H. auto.
  - split; [intros [[_ H]|[[H _]|H]]; [discriminate H | exact H |
                                        discriminate H] | auto].
Qed.

Definition stroke_patient : Patient :=
  {| p_chief_complaint := "Stroke Symptoms";
     p_telemetry_sim := TelemetrySimulator.__init__ "critical";
     p_initial_eta := 10;
     p_elapsed_time := 1;
     p_status := "EN_ROUTE";
     p_telemetry_history := [ClinicalScorer.reading 80 98 120];
     p_clinical_scores := ∅;
     p_severity := None;
     p_active_alerts := [];
     p_predictions := None;
     p_activated_protocols := ∅ |}.

Lemma stroke_patient_has_readings :
  Forall has_readings (p_telemetry_history stroke_patient).
Proof.
  apply Forall_cons. split; [|apply Forall_nil; exact I].
  repeat split; eexists; reflexivity.
Qed.

Lemma calculate_clinical_scores_decided_by_complaint_witness :
  ∃ patient_data' g',
    calculate_clinical_scores (λ a _ (g : unit), (a, g)) stroke_patient tt
      = Some (patient_data', g') ∧
    "SEPSIS" ∈ p_active_alerts patient_data' ∧
    "STROKE" ∈ p_active_alerts patient_data'.
Proof.
  destruct (calculate_clinical_scores_decided_by_complaint
              (λ a _ (g : unit), (a, g)) stroke_patient tt)
    as (patient_data' & g' & predictions & Hcall & _ & Hsepsis & _ & _ & _ &
        Hstroke & _).
  - intros a b g Hab. cbn. lia.
  - discriminate.
  - exact stroke_patient_has_readings.
  - apply Forall_cons. split; [|apply Forall_nil; exact I].
    split; vm_compute; discriminate.
  - exists patient_data', g'. split; [exact Hcall|].
    split; [exact Hsepsis | apply Hstroke; reflexivity].
Defined.

(** *** A journey, refresh by refresh *)

Lemma readings_has_readings (v : TelemetrySimulator.Vitals) :
  has_readings (TelemetrySimulator.readings v).
Proof. repeat split; eexists; reflexivity. Qed.

Lemma readings_sound (condition : string) (v : TelemetrySimulator.Vitals) :
  TelemetrySimulator.in_ranges condition v →
  sound_reading (TelemetrySimulator.readings v).
Proof.
  intros (Hhr & _ & Hsbp & _).
  split; [apply readings_has_readings|].
  unfold ClinicalScorer.bounded_readings, TelemetrySimulator.readings.
  rewrite Py.get_insert, !Py.get_insert_ne, Py.get_insert by discriminate.
  unfold TelemetrySimulator.within, TelemetrySimulator.ranges_of in Hhr, Hsbp.
  unfold ClinicalScorer.reading_bound.
  destruct (String.eqb condition "critical");
    [|destruct (String.eqb condition "deteriorating")];
    cbn in Hhr, Hsbp; lia.
Qed.

Lemma refresh_journey {rng : Type} (randint : Z → Z → rng → Z * rng)
    (complaint condition now : string) (initial_eta : Z)
    (resources0 resources : HospitalResources) (j : Z) (p : Patient)
    (g : rng) :
  Py.randint_in_range randint → 0 ≤ initial_eta → 0 ≤ j →
  journey complaint condition initial_eta resources0 j p resources →
  ∃ p' resources' g',
    refresh randint now p resources g = Some (p', resources', g') ∧
    journey complaint condition initial_eta resources0 (j + 1) p' resources'.
Proof.
  intros Hrange Heta Hj
    (Hcomplaint & Hsim & Hinit & Helapsed & Hstatus & Hall & Hlen & Hscored
     & Hres).
  cbv zeta in Helapsed, Hstatus, Hlen, Hres.
  set (arrival := Z.max 1 (3 * initial_eta)) in *.
  unfold refresh. rewrite Hstatus.
  destruct (Z.ltb_spec j arrival) as [Hlt|Hge].
  - (* en route *)
    cbn [String.eqb Ascii.eqb Bool.eqb andb].
    pose proof (TelemetrySimulator.generate_vitals_in_ranges randint now
                  (p_telemetry_sim p) g Hrange) as Hlatest.
    destruct (TelemetrySimulator.generate_vitals randint now
                (p_telemetry_sim p) g) as [latest g1].
    cbn [fst] in Hlatest.
    set (history1 := (p_telemetry_history p ++
                      [TelemetrySimulator.readings latest])%list).
    assert (Hall1 : Forall sound_reading history1).
    { apply Forall_app. split; [exact Hall|].
      apply Forall_cons. split; [exact (readings_sound _ _ Hlatest)|].
      apply Forall_nil. exact I. }
    clear Hlatest.
    assert (Hlen1 : Z.of_nat (length history1) = Z.min j 20 + 1).
    { subst history1. rewrite length_app. cbn [length]. lia. }
    set (history2 := if (20 <? length history1)%nat
                     then Py.slice_from history1 (-20) else history1).
    assert (H2 : Forall sound_reading history2 ∧
                 Z.of_nat (length history2) = Z.min (j + 1) 20).
    { subst history2.
      destruct (Nat.ltb_spec 20 (length history1)) as [Hbig|Hsmall].
      - destruct (Py.slice_last_twenty sound_reading history1 Hall1) as [Ha Hb].
        split; [exact Ha | lia].
      - split; [exact Hall1 | lia]. }
    destruct H2 as [Hall2 Hlen2]. clearbody history2. clear history1 Hall1 Hlen1.
    cbn [p_initial_eta p_elapsed_time p_status set_telemetry].
    rewrite Hinit, Helapsed, Hstatus.
    destruct (Z.ltb_spec j arrival) as [_|?]; [|lia].
    replace (Z.min j arrival) with j by lia.
    cbn [String.eqb Ascii.eqb Bool.eqb andb]. rewrite andb_true_r.
    assert (Heta0 : (Z.max 0 (initial_eta - (j + 1) / 3) =? 0)
                    = (arrival <=? j + 1)).
    { subst arrival.
      destruct (Z.leb_spec (Z.max 1 (3 * initial_eta)) (j + 1));
        [apply Z.eqb_eq | apply Z.eqb_neq];
        Z.to_euclidean_division_equations; lia. }
    rewrite Heta0.
    destruct (Z.leb_spec arrival (j + 1)) as [Harr|Hnot].
    + (* the patient arrives *)
      set (p2 := set_status (set_telemetry p history2 (j + 1)) "ARRIVED").
      destruct (calculate_clinical_scores_flags randint p2 g1 Hrange)
        as (p' & g' & Hcall & Hsc & Hc' & Hs' & Hi' & He' & Hst' & Hl' & Ha').
      { intros Hnil. apply (f_equal length) in Hnil.
        cbn [p2 p_telemetry_history set_status set_telemetry length] in Hnil.
        lia. }
      { exact Hall2. }
      rewrite Hcall. cbn [mbind option_bind].
      eexists _, _, _. split; [reflexivity|].
      cbn [p2 p_chief_complaint p_telemetry_sim p_initial_eta p_elapsed_time
           p_status p_telemetry_history set_status set_telemetry]
        in Hc', Hs', Hi', He', Hst', Hl'.
      unfold journey. fold arrival.
      rewrite Hc', Hs', Hi', He', Hst', Hl', Hlen2.
      destruct (Z.ltb_spec (j + 1) arrival) as [?|_]; [lia|].
      destruct (Z.eqb_spec (j + 1) 0) as [?|_]; [lia|].
      destruct (Z.leb_spec arrival (j + 1)) as [_|?]; [|lia].
      split_and!; try assumption; try reflexivity; try lia.
      cbn [andb].
      destruct (Z.eqb_spec j 0) as [->|Hj0].
      * destruct Hscored as [Hp Ha0].
        rewrite (update_hospital_resources_unscored p2) by assumption.
        destruct (Z.leb_spec 1 initial_eta) as [?|_]; [lia|].
        rewrite Hres.
        destruct (Z.leb_spec arrival 0) as [?|_]; [lia|]. reflexivity.
      * rewrite (update_hospital_resources_scored p2) by exact Hscored.
        cbn [p2 p_chief_complaint set_status set_telemetry].
        rewrite Hcomplaint, Hres.
        destruct (Z.leb_spec arrival j) as [?|_]; [lia|].
        destruct (Z.leb_spec 1 initial_eta) as [_|?]; [reflexivity|lia].
    + (* still en route *)
      set (p2 := set_telemetry p history2 (j + 1)).
      destruct (calculate_clinical_scores_flags randint p2 g1 Hrange)
        as (p' & g' & Hcall & Hsc & Hc' & Hs' & Hi' & He' & Hst' & Hl' & Ha').
      { intros Hnil. apply (f_equal length) in Hnil.
        cbn [p2 p_telemetry_history set_telemetry length] in Hnil. lia. }
      { exact Hall2. }
      rewrite Hcall. cbn [mbind option_bind].
      eexists _, _, _. split; [reflexivity|].
      cbn [p2 p_chief_complaint p_telemetry_sim p_initial_eta p_elapsed_time
           p_status p_telemetry_history set_telemetry]
        in Hc', Hs', Hi', He', Hst', Hl'.
      unfold journey. fold arrival.
      rewrite Hc', Hs', Hi', He', Hst', Hl', Hlen2, Hstatus.
      destruct (Z.ltb_spec j arrival) as [_|?]; [|lia].
      destruct (Z.ltb_spec (j + 1) arrival) as [_|?]; [|lia].
      destruct (Z.eqb_spec (j + 1) 0) as [?|_]; [lia|].
      destruct (Z.leb_spec arrival (j + 1)) as [?|_]; [lia|].
      split_and!; try assumption; try reflexivity; try lia.
      rewrite Hres.
      destruct (Z.leb_spec arrival j) as [?|_]; [lia|]. reflexivity.
  - (* arrived *)
    cbn [String.eqb Ascii.eqb Bool.eqb andb].
    destruct (calculate_clinical_scores_flags randint p g Hrange)
      as (p' & g' & Hcall & Hsc & Hc' & Hs' & Hi' & He' & Hst' & Hl' & Ha').
    { intros Hnil. rewrite Hnil in Hlen. cbn [length] in Hlen. lia. }
    { exact Hall. }
    rewrite Hcall. cbn [mbind option_bind].
    eexists _, _, _. split; [reflexivity|].
    unfold journey. fold arrival.
    rewrite Hc', Hs', Hi', He', Hst', Hl', Hstatus, Helapsed, Hlen.
    destruct (Z.ltb_spec j arrival) as [?|_]; [lia|].
    destruct (Z.ltb_spec (j + 1) arrival) as [?|_]; [lia|].
    destruct (Z.eqb_spec (j + 1) 0) as [?|_]; [lia|].
    split_and!; try assumption; try reflexivity; try lia.
    rewrite Hres.
    destruct (Z.leb_spec arrival j) as [_|?]; [|lia].
    destruct (Z.leb_spec arrival (j + 1)) as [_|?]; [|lia]. reflexivity.
Qed.

Lemma refreshes_journey {rng : Type} (randint : Z → Z → rng → Z * rng)
    (complaint condition : string) (initial_eta : Z)
    (resources0 : HospitalResources) (clock : list string) :
  Py.randint_in_range randint → 0 ≤ initial_eta →
  ∀ (j : Z) (p : Patient) (resources : HospitalResources) (g : rng),
    0 ≤ j →
    journey complaint condition initial_eta resources0 j p resources →
    ∃ p' resources' g',
      refreshes randint clock p resources g = Some (p', resources', g') ∧
      journey complaint condition initial_eta resources0
        (j + Z.of_nat (length clock)) p' resources'.
Proof.
  intros Hrange Heta.
  induction clock as [|now later IH]; intros j p resources g Hj Hjourney.
  - exists p, resources, g. split; [reflexivity|].
    cbn [length]. rewrite Z.add_0_r. exact Hjourney.
  - destruct (refresh_journey randint complaint condition now initial_eta
                resources0 resources j p g Hrange Heta Hj Hjourney)
      as (p1 & r1 & g1 & Hstep & Hjourney1).
    destruct (IH (j + 1) p1 r1 g1 ltac:(lia) Hjourney1)
      as (p' & r' & g' & Hrun & Hjourney').
    exists p', r', g'. cbn [refreshes]. rewrite Hstep.
    cbn [mbind option_bind]. split; [exact Hrun|].
    replace (j + Z.of_nat (length (now :: later)))
      with (j + 1 + Z.of_nat (length later)) by (cbn [length]; lia).
    exact Hjourney'.
Qed.

(** X20.  The journey of a patient on the dashboard, refreshed any
    number of times from the record the dashboard creates: every
    refresh succeeds; the patient is en route until refresh
    [max 1 (3 * initial_eta)] and arrived from then on, the elapsed
    time stops there, and the telemetry history never holds more than
    20 readings.  Whatever the patient condition and whatever vital
    signs are drawn, the one resource the arrival can take is a CT
    scanner, and it takes it exactly when the chief complaint contains
    "Stroke" (and a scanner is available, and the initial ETA is not
    zero): ICU beds, ventilators, operating rooms and blood units stay
    as they were. *)
Theorem journey_takes_only_a_ct_scanner {rng : Type}
    (randint : Z → Z → rng → Z * rng) (complaint condition : string)
    (initial_eta : Z) (resources : HospitalResources) (clock : list string)
    (g : rng) :
  Py.randint_in_range randint → 0 ≤ initial_eta →
  let arrival := Z.max 1 (3 * initial_eta) in
  let refreshed := Z.of_nat (length clock) in
  ∃ p resources' g',
    refreshes randint clock (new_patient complaint condition initial_eta)
      resources g = Some (p, resources', g') ∧
    p_status p = (if refreshed <? arrival then "EN_ROUTE" else "ARRIVED") ∧
    p_elapsed_time p = Z.min refreshed arrival ∧
    (length (p_telemetry_history p) ≤ 20)%nat ∧
    resources' =
      (if (arrival <=? refreshed) && (1 <=? initial_eta)
       then take_ct_scanner (AparaviRedactor.contains "Stroke" complaint)
              resources
       else resources) ∧
    icu_beds resources' = icu_beds resources ∧
    ventilators resources' = ventilators resources ∧
    or_rooms resources' = or_rooms resources ∧
    blood_units_o_neg resources' = blood_units_o_neg resources ∧
    blood_units_o_pos resources' = blood_units_o_pos resources ∧
    mri_scanner resources' = mri_scanner resources.
Proof.
  intros Hrange Heta arrival refreshed.
  destruct (refreshes_journey randint complaint condition initial_eta
              resources clock Hrange Heta 0
              (new_patient complaint condition initial_eta) resources g)
    as (p & resources' & g' & Hrun & Hjourney); [lia| |].
  - unfold journey. cbn [new_patient p_chief_complaint p_telemetry_sim
      p_initial_eta p_elapsed_time p_status p_telemetry_history
      p_predictions p_active_alerts length].
    destruct (Z.ltb_spec 0 (Z.max 1 (3 * initial_eta))) as [_|?]; [|lia].
    destruct (Z.leb_spec (Z.max 1 (3 * initial_eta)) 0) as [?|_]; [lia|].
    cbn [Z.eqb andb].
    split_and!; try reflexivity; try lia.
    apply Forall_nil. exact I.
  - exists p, resources', g'. split; [exact Hrun|].
    destruct Hjourney as (_ & _ & _ & Helapsed & Hstatus & _ & Hlen & _ & Hres).
    cbn [Z.add] in Helapsed, Hstatus, Hlen, Hres.
    fold arrival refreshed in Helapsed, Hstatus, Hlen, Hres.
    split; [exact Hstatus|]. split; [exact Helapsed|]. split; [lia|].
    split; [exact Hres|].
    rewrite Hres. destruct (_ && _); repeat split.
Qed.

Lemma journey_takes_only_a_ct_scanner_witness :
  ∃ p resources' g',
    refreshes (λ a _ (g : unit), (a, g)) ["t1"; "t2"; "t3"]
      (new_patient "Stroke Symptoms" "critical" 1) hospital_resources tt
      = Some (p, resources', g') ∧
    p_status p = "ARRIVED" ∧
    available (ct_scanner resources') = 0 ∧
    icu_beds resources' = icu_beds hospital_resources.
Proof.
  destruct (journey_takes_only_a_ct_scanner
              (λ a _ (g : unit), (a, g)) "Stroke Symptoms" "critical" 1
              hospital_resources ["t1"; "t2"; "t3"] tt)
    as (p & resources' & g' & Hrun & Hstatus & _ & _ & Hres & Hicu & _).
  - intros a b g Hab. cbn. lia.
  - lia.
  - exists p, resources', g'. split; [exact Hrun|].
    split; [exact Hstatus|]. split; [rewrite Hres; reflexivity | exact Hicu].
Defined.

End Dashboard.
